(* ===== verification/_CoqProject ===== *)
-Q . S2P
Prelude.v
Bytes.v
JsValue.v
Effects.v
Web3.v
SwapForm.v
SwapUI.v
Provider.v
Escrow.v
SwapTest.v
Session.v
