(* ===== verification/Prelude.v ===== *)
(** * A verification development for SwapDApp

    SwapDApp is a browser client for an on-chain escrow ("swap") program:
    a maker deposits token A into a vault and asks for an amount of token B;
    a taker pays the token B and receives the vault's token A.  The repository
    holds three sources:

    - [src/frontend/src/components/solana/solana-provider.tsx]: the wallet
      context ([SolanaProvider]: Devnet endpoint, [autoConnect], an [onError]
      that only logs) and [useAnchorProvider] (commitment ['confirmed']);
    - [src/frontend/src/components/swap.tsx]: the React component
      [SwapComponent]: eight pieces of form state, the mount effect
      [generateRandomId], the two submit handlers [handleMakeOffer] and
      [handleTakeOffer], and the JSX that binds inputs to setters;
    - [src/tests/swap.ts]: the integration test: Alice and Bob are funded,
      Alice makes an offer of 1_000_000 token A for 1_000_000 token B, Bob
      takes it, and the balances are asserted.

    The on-chain program itself is not in the repository; only its interface
    ([makeOffer(id, amountA, amountB)], [takeOffer()], the offer seeds
    ["offer" ++ maker ++ le8 id]) is referenced.

    ** Files (in dependency order) and what they model

    - [Prelude] (this file): the [swap_scope] notation scope, the [swap] hint
      database, the development's tactics, and the lemmas on [Z], lists and
      options that the components share.
    - [Bytes]: little-endian codecs.  [LE.get_big_uint64_le] is
      [DataView.getBigUint64(0, true)] (swap.tsx:32); [LE.to_array_like_le] is
      [BN.toArrayLike(Buffer, 'le', len)] (swap.tsx:78, swap.ts:110).  Round
      trips and bounds.
    - [JsValue]: the JavaScript values the component stores: numbers as
      [jnum] (NaN or an integer, for ids) and primitive floats (for amounts),
      [Number.MAX_SAFE_INTEGER], truthiness ([!x]), [parseInt], the decimal
      rendering of a safe integer, the decimal fragment of [parseFloat],
      and [new BN(number)].  The decimal print/parse round trip.
    - [Web3]: 32-byte public keys, the library interface the code calls
      (base58 decoding, program-address search, on-curve test) as the class
      [Web3], and the checked parts of [PublicKey.findProgramAddressSync]
      and [getAssociatedTokenAddressSync] written out.
    - [Effects]: the effects a handler performs (alert, preventDefault, log,
      RPC, toast, unhandled rejection, native form submission, [console.error]),
      JavaScript errors, and the
      writer-and-exception monad [M] in which the handlers are written.
    - [SwapForm]: the component's state record, [generateRandomId], the form
      setters, and the synchronous parts of [handleMakeOffer] and
      [handleTakeOffer] up to their [await], with their guards, evaluation
      order and thrown errors.
    - [SwapUI]: the component as a state machine: events (mount, wallet,
      input, tab, submit, RPC settlement, page reload) and a step function,
      with the in-flight RPCs kept explicitly so interleavings are visible.
    - [Provider]: [solana-provider.tsx]: the [next/dynamic] wallet buttons
      ([ssr: false]) and the page's choice between them, the provider tree
      of [SolanaProvider] (devnet endpoint, no wallets, [onError] that only
      logs, [autoConnect]) and [useAnchorProvider] (the [useWallet()]
      context cast to an [AnchorWallet], commitment ['confirmed']).
    - [Escrow]: the on-chain program, modelled from the spec and the
      client's calls (it is not in the repository): token accounts and
      offers as [gmap]s, Anchor's account checks as [make_offer_accounts]
      and [take_offer_accounts], the instructions [make_offer] and
      [take_offer] in a result monad, the step relation of the program and
      its reachable states.
    - [SwapTest]: [src/tests/swap.ts] as written: the [Cluster] interface
      (a class; [escrow_cluster] is its instance over [Escrow]), the mocha
      suite in a state, writer and exception monad over the chain and the
      shared [accounts] object, the [node:console] assertions, and what
      mocha reports of the tests' durations.
    - [Session]: the page and a cluster together: user events go through
      [UI.step], the landing of an awaited RPC sends it to the cluster and
      settles its promise; every interleaving of clicks and landings is a
      list of events of [sys_run].

    ** Plan and the theorems

    Order of work: byte codecs and JavaScript values first (they carry the
    offer id from the maker's screen to the taker's seed), then the
    handlers, then the UI state machine, then the program model, the test
    scenario and the composition of page, provider and program.  Groups of
    theorems:
    - handler behaviour on every branch (guard failure, each throw, the RPC
      sent), and the order of effects;
    - what the typed amounts become: [0.29] is offered as 28 base units, an
      emptied or unreadable amount as 0 ([new BN(NaN)] is [BN(0)]), and a
      negative one as its magnitude, since the handler's [preventDefault]
      cancels the form's [min="0"] validation and Anchor writes the
      magnitude of a [u64];
    - the form's default action when the guard fails: a page reload when
      the form passes constraint validation ([badInput], [min], the
      default [step] of 1), only the alert otherwise;
    - the round trip of the offer id from the maker's banner to the
      taker's input; the bounds of the generated id;
    - invariants of the UI machine by induction on event sequences;
    - the test: it passes against the escrow program, and it passes
      whatever the cluster holds, since [console.assert] never throws;
      against a cluster that rejects transactions both blocks fail, the
      take block sending the accounts the failed make block wrote; which
      test the slow threshold covers;
    - the session: a second [makeOffer] of a page is refused once one has
      landed, any number of clicks on "Create Offer" makes one offer at
      most, and the take request's signer and addresses are the wallet's
      and the program's (equivalence).

    ** Bounds and modelling choices

    Numbers used as ids are integers (they come from [Number(bigint % ...)]
    or [parseInt]), so they are modelled exactly as [Z] with NaN apart.
    Amounts are IEEE doubles, modelled by Rocq's primitive floats, so the
    rounding of [amount * 100] is the engine's.  Balances and instruction
    arguments are [Z]; the client's [u64] encoding (the magnitude, at most
    8 bytes) and the program's [u64] checks are written out.  No fuel is
    needed: every function of the model is structurally recursive (event
    lists, byte lists, the 256 bumps of the program-address search), and
    the repository's code has no loop of its own, so termination holds by
    construction.  Durations of tests are inputs: mocha's clock
    is not modelled.

    ** Not modelled

    The wallet adapter's own connection logic (wallet discovery, the
    auto-connect of a remembered wallet, the modal), which is the library's
    and only configured by the repository; the React runtime and the DOM
    beyond the events above; the cryptography behind program addresses
    (sha256, ed25519 on-curve test) and base58 decoding, which stay
    abstract in the [Web3] class (witnesses use a stand-in instance); the
    network beyond "an RPC lands and resolves with a signature or
    rejects"; rent, lamports and the token program's other instructions
    in [Escrow]; styling and toasts' presentation. *)

From Stdlib Require Import ZArith List Lia.
Import ListNotations.

Declare Scope swap_scope.
Delimit Scope swap_scope with swap.

Create HintDb swap.
Create Rewrite HintDb swap_rw.

(** ** Tactics *)

Ltac inv H := inversion H; subst; clear H.

(** [lia] after turning every [/] and [mod] of the goal and context into
    its Euclidean equations (lia does not do it by itself here). *)
Ltac zlia := Z.div_mod_to_equations; lia.

(** Case on the first [match] or [if] scrutinee of the goal. *)
Ltac case_match_goal :=
  match goal with
  | |- context [match ?x with _ => _ end] =>
      let E := fresh "E" in destruct x eqn:E
  end.

(** ** Arithmetic shared by the components *)

Local Open Scope Z_scope.

Lemma pow2_8n_pos (n : nat) : 0 < 2 ^ (8 * Z.of_nat n).
Proof. apply Z.pow_pos_nonneg; lia. Qed.

Lemma pow2_8S (n : nat) : 2 ^ (8 * Z.of_nat (S n)) = 256 * 2 ^ (8 * Z.of_nat n).
Proof.
  rewrite Nat2Z.inj_succ, Z.mul_succ_r, Z.pow_add_r by lia.
  now rewrite Z.mul_comm.
Qed.

Lemma mod_small_iff_range (a m : Z) : 0 < m -> (a mod m = a <-> 0 <= a < m).
Proof.
  intros Hm; split.
  - intros <-. now apply Z.mod_pos_bound.
  - apply Z.mod_small.
Qed.

#[export] Hint Resolve pow2_8n_pos : swap.

(** ** Lists *)

Lemma firstn_length_eq {A} (l : list A) n : length l = n -> firstn n l = l.
Proof. intros <-. apply firstn_all. Qed.
