(* ===== verification/Bytes.v ===== *)
(** Little-endian byte codecs of the client.

    Two library calls of the repository turn numbers into bytes and back:
    [new DataView(array.buffer).getBigUint64(0, true)] in [generateRandomId]
    (swap.tsx:32) reads eight random bytes as an unsigned little-endian
    integer, and [new BN(id).toArrayLike(Buffer, 'le', 8)] (swap.tsx:78,
    swap.ts:110) writes the offer id as the third seed of the offer address.
Module [LE] gives both, with the byte-length check of [toArrayLike], and
proves their round trips and bounds. *)

From Stdlib Require Import ZArith List Lia.
From Stdlib Require Strings.Byte.
From S2P Require Import Prelude.
Import ListNotations.

Local Open Scope Z_scope.

Module LE.

Definition byte_val (b : Byte.byte) : Z := Z.of_N (Byte.to_N b).

(** The byte holding [z mod 256]. *)
Definition byte_of_Z (z : Z) : Byte.byte :=
  match Byte.of_N (Z.to_N (z mod 256)) with
  | Some b => b
  | None => Byte.x00
  end.

(** Unsigned little-endian value of a byte string: byte [i] weighs [256^i]. *)
Fixpoint le_decode (bs : list Byte.byte) : Z :=
  match bs with
  | [] => 0
  | b :: bs' => byte_val b + 256 * le_decode bs'
  end.

(** The [n] low bytes of [z], least significant first. *)
Fixpoint le_encode (n : nat) (z : Z) : list Byte.byte :=
  match n with
  | O => []
  | S n' => byte_of_Z z :: le_encode n' (z / 256)
  end.

(** [DataView.prototype.getBigUint64(0, true)]: a RangeError when the
    buffer holds fewer than eight bytes, otherwise the unsigned
    little-endian value of the first eight. *)
Definition get_big_uint64_le (bs : list Byte.byte) : option Z :=
  if (8 <=? length bs)%nat then Some (le_decode (firstn 8 bs)) else None.

(** [BN.prototype.byteLength]: [ceil(bitLength / 8)], the bit length of
    the magnitude, 0 for 0. *)
Definition byte_length (v : Z) : Z :=
  if v =? 0 then 0 else (Z.log2 (Z.abs v) + 8) / 8.

(** [BN.prototype.toArrayLike(Buffer, 'le', len)]: the requested length is
    [len], or [max(1, byteLength)] when [len] is 0 (falsy); the assertion
    "byte array longer than desired length" fails ([None]) when the
    magnitude needs more bytes; otherwise the magnitude's bytes,
    zero-padded.  The sign of the BN is not written. *)
Definition to_array_like_le (v : Z) (len : nat) : option (list Byte.byte) :=
  let bl := byte_length v in
  let req := if (len =? 0)%nat then Z.to_nat (Z.max 1 bl) else len in
  if bl <=? Z.of_nat req then Some (le_encode req (Z.abs v)) else None.

(** ** Bytes *)

Lemma byte_val_range b : 0 <= byte_val b < 256.
Proof.
  unfold byte_val. pose proof (Byte.to_N_bounded b). lia.
Qed.

Lemma byte_val_of_Z z : byte_val (byte_of_Z z) = z mod 256.
Proof.
  unfold byte_of_Z, byte_val.
  pose proof (Z.mod_pos_bound z 256 ltac:(lia)) as Hb.
  destruct (Byte.of_N (Z.to_N (z mod 256))) as [b|] eqn:E.
  - apply Byte.to_of_N in E. rewrite E. lia.
  - apply Byte.of_N_None_iff in E. lia.
Qed.

Lemma byte_of_Z_val b : byte_of_Z (byte_val b) = b.
Proof.
  unfold byte_of_Z, byte_val.
  rewrite Z.mod_small by (pose proof (Byte.to_N_bounded b); lia).
  now rewrite N2Z.id, Byte.of_to_N.
Qed.

#[export] Hint Rewrite byte_val_of_Z byte_of_Z_val : swap_rw.

(** ** Codec lemmas *)

Lemma length_le_encode n z : length (le_encode n z) = n.
Proof. revert z; induction n; intros z; simpl; auto. Qed.

Lemma le_decode_bound bs : 0 <= le_decode bs < 2 ^ (8 * Z.of_nat (length bs)).
Proof.
  induction bs as [|b bs IH]; cbn [le_decode length].
  - simpl. lia.
  - rewrite (pow2_8S (length bs)). pose proof (byte_val_range b). nia.
Qed.

Lemma le_decode_encode n z : le_decode (le_encode n z) = z mod 2 ^ (8 * Z.of_nat n).
Proof.
  revert z; induction n as [|n IH]; intros z; cbn [le_encode le_decode].
  - now rewrite Z.mod_1_r.
  - rewrite IH, byte_val_of_Z, pow2_8S.
    pose proof (pow2_8n_pos n).
    rewrite Z.rem_mul_r by lia. lia.
Qed.

Lemma byte_of_Z_add_256 a k : byte_of_Z (a + 256 * k) = byte_of_Z a.
Proof. unfold byte_of_Z. now rewrite (Z.mul_comm 256 k), Z.mod_add by lia. Qed.

Lemma le_encode_decode bs : le_encode (length bs) (le_decode bs) = bs.
Proof.
  induction bs as [|b bs IH]; cbn [le_encode le_decode length]; [reflexivity|].
  pose proof (byte_val_range b).
  rewrite byte_of_Z_add_256, byte_of_Z_val.
  replace ((byte_val b + 256 * le_decode bs) / 256) with (le_decode bs) by zlia.
  now rewrite IH.
Qed.

(** Encoding a value already below [2^(8n)] loses nothing. *)
Lemma le_decode_encode_small n z :
  0 <= z < 2 ^ (8 * Z.of_nat n) -> le_decode (le_encode n z) = z.
Proof. intros H. rewrite le_decode_encode. now apply Z.mod_small. Qed.

Lemma le_encode_inj n z1 z2 :
  0 <= z1 < 2 ^ (8 * Z.of_nat n) -> 0 <= z2 < 2 ^ (8 * Z.of_nat n) ->
  le_encode n z1 = le_encode n z2 -> z1 = z2.
Proof.
  intros H1 H2 E.
  rewrite <- (le_decode_encode_small n z1), <- (le_decode_encode_small n z2) by assumption.
  now rewrite E.
Qed.

(** ** [byteLength] against the power of two it bounds *)

Lemma byte_length_le v (n : nat) :
  byte_length v <= Z.of_nat n <-> Z.abs v < 2 ^ (8 * Z.of_nat n).
Proof.
  unfold byte_length.
  destruct (Z.eqb_spec v 0) as [->|Hv].
  - pose proof (pow2_8n_pos n). lia.
  - assert (Ha : 0 < Z.abs v) by lia.
    rewrite (Z.log2_lt_pow2 _ _ Ha). pose proof (Z.log2_nonneg (Z.abs v)). zlia.
Qed.

(** ** The two library calls *)

Lemma to_array_like_le_fits v (n : nat) :
  n <> 0%nat -> Z.abs v < 2 ^ (8 * Z.of_nat n) ->
  to_array_like_le v n = Some (le_encode n (Z.abs v)).
Proof.
  intros Hn Hv. unfold to_array_like_le.
  apply Nat.eqb_neq in Hn. rewrite Hn.
  apply byte_length_le in Hv. now rewrite (proj2 (Z.leb_le _ _) Hv).
Qed.

Lemma to_array_like_le_too_long v (n : nat) :
  n <> 0%nat -> 2 ^ (8 * Z.of_nat n) <= Z.abs v -> to_array_like_le v n = None.
Proof.
  intros Hn Hv. unfold to_array_like_le.
  apply Nat.eqb_neq in Hn. rewrite Hn.
  destruct (Z.leb_spec (byte_length v) (Z.of_nat n)) as [H|H]; [|reflexivity].
  apply byte_length_le in H. lia.
Qed.

Lemma get_big_uint64_le_bound bs x :
  get_big_uint64_le bs = Some x -> 0 <= x < 2 ^ 64.
Proof.
  unfold get_big_uint64_le. destruct (Nat.leb_spec 8 (length bs)) as [H|H]; [|discriminate].
  intros [= <-]. pose proof (le_decode_bound (firstn 8 bs)) as B.
  rewrite length_firstn, Nat.min_l in B by exact H. exact B.
Qed.

Lemma get_big_uint64_le_encode z : get_big_uint64_le (le_encode 8 z) = Some (z mod 2 ^ 64).
Proof.
  unfold get_big_uint64_le. rewrite length_le_encode. cbn [Nat.leb].
  rewrite firstn_length_eq by apply length_le_encode.
  now rewrite le_decode_encode.
Qed.



End LE.
