(* ===== verification/JsValue.v ===== *)
(** JavaScript values as the component stores them.

    [SwapComponent] keeps two kinds of numbers: ids ([offerId],
    [makerOfferId]: [number | null], always integer-valued, since they come
    from [Number(bigint % BigInt(Number.MAX_SAFE_INTEGER))] and from
    [parseInt]) and amounts ([tokenASwapAmount], [tokenBSwapAmount]: any
    double, from [parseFloat]).  Ids are [jnum] (NaN or an integer);
    amounts are Rocq's primitive IEEE doubles.  This file gives the
    builtins the component calls on them: truthiness ([!x] in the guards),
    [parseInt], the decimal rendering of an integer ([{offerId}] in the JSX),
    the decimal fragment of [parseFloat], and [new BN(number)]. *)

From Stdlib Require Import ZArith List Lia String Ascii Bool.
From Stdlib Require Import PrimFloat SpecFloat FloatOps.
From S2P Require Import Prelude.
Import ListNotations.

Local Open Scope Z_scope.

Module Js.

(** An integer-valued JavaScript number, or NaN.  [-0] is [JInt 0]: the
    code never tells them apart (both are falsy and both make [BN 0]). *)
Inductive jnum : Type :=
| JNaN
| JInt (z : Z).

Definition MAX_SAFE_INTEGER : Z := 2 ^ 53 - 1.

(** [!x] is false exactly for the falsy values: [null], [NaN], [0]. *)
Definition truthy_num (x : jnum) : bool :=
  match x with
  | JNaN => false
  | JInt z => negb (z =? 0)
  end.

Definition truthy (x : option jnum) : bool :=
  match x with
  | None => false
  | Some n => truthy_num n
  end.

(** Rounding a mathematical integer to the nearest double (ties to
    even), as [Number(bigint)] and the last step of [parseInt] do.
    Integers of magnitude below [2^53] are exact.  Magnitudes beyond the
    double range stay large integers here where the engine gives
    Infinity; no use of the result in the component tells them apart. *)
Definition round_to_double (z : Z) : Z :=
  let a := Z.abs z in
  if a <? 2 ^ 53 then z
  else
    let k := Z.log2 a - 52 in
    let q := a / 2 ^ k in
    let r := a mod 2 ^ k in
    let half := 2 ^ (k - 1) in
    let q' := if r <? half then q
              else if half <? r then q + 1
              else if Z.even q then q else q + 1 in
    Z.sgn z * (q' * 2 ^ k).

(** ** [parseInt(s)] (ECMA-262 [parseInt] with [radix] undefined) *)

(** The white space [TrimStart] removes, within 8-bit characters. *)
Definition is_js_space (c : ascii) : bool :=
  let n := nat_of_ascii c in
  ((9 <=? n) && (n <=? 13))%nat || (n =? 32)%nat || (n =? 160)%nat.

Fixpoint trim_start (s : string) : string :=
  match s with
  | String c s' => if is_js_space c then trim_start s' else s
  | EmptyString => EmptyString
  end.

(** The value of a digit in radix up to 36: [0-9], [a-z], [A-Z]. *)
Definition digit_value (c : ascii) : option Z :=
  let n := nat_of_ascii c in
  if ((48 <=? n) && (n <=? 57))%nat then Some (Z.of_nat n - 48)
  else if ((97 <=? n) && (n <=? 122))%nat then Some (Z.of_nat n - 87)
  else if ((65 <=? n) && (n <=? 90))%nat then Some (Z.of_nat n - 55)
  else None.

(** The longest prefix of radix-[radix] digits. *)
Fixpoint take_digits (radix : Z) (s : string) : list Z :=
  match s with
  | String c s' =>
      match digit_value c with
      | Some d => if d <? radix then d :: take_digits radix s' else []
      | None => []
      end
  | EmptyString => []
  end.

Definition digits_value (radix : Z) (ds : list Z) : Z :=
  fold_left (fun acc d => acc * radix + d) ds 0.

Definition strip_sign (s : string) : Z * string :=
  match s with
  | String "-" r => (-1, r)
  | String "+" r => (1, r)
  | _ => (1, s)
  end.

Definition strip_hex_prefix (s : string) : Z * string :=
  match s with
  | String "0" (String c r) =>
      if (c =? "x")%char || (c =? "X")%char then (16, r) else (10, s)
  | _ => (10, s)
  end.

Definition parse_int (s : string) : jnum :=
  let '(sign, s2) := strip_sign (trim_start s) in
  let '(radix, s3) := strip_hex_prefix s2 in
  match take_digits radix s3 with
  | [] => JNaN
  | ds => JInt (round_to_double (sign * digits_value radix ds))
  end.

(** ** The decimal rendering of an integer ([String(n)], [{n}] in JSX)

    For [|n| < 10^21], [Number.prototype.toString] writes the integer's
    decimal digits, with a leading [-] when negative. *)

Fixpoint decimal_digits (fuel : nat) (n : Z) : list Z :=
  match fuel with
  | O => [n]
  | S f => if n <? 10 then [n] else decimal_digits f (n / 10) ++ [n mod 10]
  end.

Definition digit_char (d : Z) : ascii := ascii_of_nat (Z.to_nat (48 + d)).

Fixpoint string_of_digits (ds : list Z) : string :=
  match ds with
  | [] => EmptyString
  | d :: ds' => String (digit_char d) (string_of_digits ds')
  end.

(** [Z.log2 n + 1] bits bound the number of decimal digits of [n]. *)
Definition nat_to_string (n : Z) : string :=
  string_of_digits (decimal_digits (Z.to_nat (Z.log2 n)) n).

Definition number_to_string (z : Z) : string :=
  if z <? 0 then String "-" (nat_to_string (- z)) else nat_to_string z.

(** ** [new BN(number)] for an integer-valued number: the constructor
    calls [_init(number || 0, ...)], so NaN, being falsy, becomes 0; in
    [_initNumber] the magnitude must be below [2^53], the assertion fails
    otherwise. *)
Definition bn_of_jnum (x : jnum) : option Z :=
  match x with
  | JNaN => Some 0
  | JInt z => if Z.abs z <? 2 ^ 53 then Some z else None
  end.

(** [new BN(x)] for [x : number | null]: the constructor leaves a BN of
    [null] at 0. *)
Definition bn_of_nullable (x : option jnum) : option Z :=
  match x with
  | None => Some 0
  | Some n => bn_of_jnum n
  end.

(** ** Doubles: [new BN(x)] and [parseFloat] *)

(** The double nearest to the integer [m] (exact below [2^53]). *)
Definition float_of_Z (m : Z) : float :=
  SF2Prim (binary_normalize prec emax m 0 false).

(** The integer part of [m * 2^e]. *)
Definition trunc_magnitude (m : positive) (e : Z) : Z :=
  if 0 <=? e then Z.pos m * 2 ^ e else Z.pos m / 2 ^ (- e).

(** [new BN(x)] for a double [x]: the constructor calls
    [_init(number || 0, ...)], so NaN and [-0], being falsy, become 0; in
    [_initNumber] a negative number is negated and the BN marked negative;
    the magnitude is split into 26-bit words with [&], which truncates it
    to an integer; the assertion [number < 0x20000000000000] fails for a
    magnitude of [2^53] or more and for the infinities. *)
Definition bn_of_number (x : float) : option Z :=
  match Prim2SF x with
  | S754_zero _ | S754_nan => Some 0
  | S754_finite s m e =>
      let t := trunc_magnitude m e in
      if t <? 2 ^ 53 then Some (if s then - t else t) else None
  | S754_infinity _ => None
  end.

(** The leading decimal digits of a string and what follows them. *)
Fixpoint span_digits (s : string) : list Z * string :=
  match s with
  | String c s' =>
      match digit_value c with
      | Some d =>
          if d <? 10 then let '(ds, r) := span_digits s' in (d :: ds, r) else ([], s)
      | None => ([], s)
      end
  | EmptyString => ([], EmptyString)
  end.

(** An exponent part [e±ddd] when one follows the digits, else 0. *)
Definition parse_exponent (s : string) : Z :=
  match s with
  | String c r =>
      if (c =? "e")%char || (c =? "E")%char then
        let '(sg, r') := strip_sign r in
        match span_digits r' with
        | ([], _) => 0
        | (ds, _) => sg * digits_value 10 ds
        end
      else 0
  | EmptyString => 0
  end.

(** [m * 10^p] as a double: one correctly rounded IEEE operation on
    two doubles, exact when [m < 2^53] and [|p| <= 22], so the result is
    the double nearest the decimal, as [parseFloat] requires; beyond that
    fragment a second rounding may differ from the engine. *)
Definition decimal_to_float (m p : Z) : float :=
  if 0 <=? p then PrimFloat.mul (float_of_Z m) (float_of_Z (10 ^ p))
  else PrimFloat.div (float_of_Z m) (float_of_Z (10 ^ (- p))).

(** [parseFloat(s)] (ECMA-262): trim, sign, [Infinity], or the longest
    prefix [digits[.digits][e[±]digits]] with at least one digit; NaN when
    there is none. *)
Definition parse_float (s : string) : float :=
  let '(sign, s1) := strip_sign (trim_start s) in
  let apply_sign (f : float) := if sign <? 0 then PrimFloat.opp f else f in
  if String.prefix "Infinity" s1 then apply_sign PrimFloat.infinity
  else
    let '(ds1, r1) := span_digits s1 in
    let '(ds2, r2) :=
      match r1 with
      | String "." r => span_digits r
      | _ => ([], r1)
      end in
    match ds1 ++ ds2 with
    | [] => PrimFloat.nan
    | ds => apply_sign (decimal_to_float (digits_value 10 ds)
                          (parse_exponent r2 - Z.of_nat (List.length ds2)))
    end.

(** ** Lemmas on [new BN] *)

Lemma bn_of_nullable_bound x v : bn_of_nullable x = Some v -> Z.abs v < 2 ^ 53.
Proof.
  destruct x as [[|z]|]; cbn [bn_of_nullable bn_of_jnum]; intros H.
  - injection H as <-. lia.
  - destruct (Z.ltb_spec (Z.abs z) (2 ^ 53)) as [Hz|]; [|discriminate H].
    injection H as <-. exact Hz.
  - injection H as <-. lia.
Qed.

(** ** Lemmas on the decimal rendering and [parseInt] *)

Lemma round_to_double_small z : Z.abs z < 2 ^ 53 -> round_to_double z = z.
Proof.
  intros H. unfold round_to_double. now rewrite (proj2 (Z.ltb_lt _ _) H).
Qed.

Lemma digits_value_snoc r ds d :
  digits_value r (ds ++ [d]) = digits_value r ds * r + d.
Proof. unfold digits_value. now rewrite fold_left_app. Qed.

Lemma digits_value_decimal_digits f n : digits_value 10 (decimal_digits f n) = n.
Proof.
  revert n; induction f as [|f IH]; intros n; cbn [decimal_digits]; [reflexivity|].
  destruct (n <? 10); [reflexivity|].
  rewrite digits_value_snoc, IH. zlia.
Qed.

Definition is_digit (d : Z) : Prop := 0 <= d < 10.

Lemma decimal_digits_range f n :
  0 <= n < 10 ^ Z.of_nat (S f) -> Forall is_digit (decimal_digits f n).
Proof.
  revert n; induction f as [|f IH]; intros n Hn; cbn [decimal_digits].
  - constructor; [unfold is_digit; simpl in Hn; lia | constructor].
  - destruct (Z.ltb_spec n 10).
    + constructor; [unfold is_digit; lia | constructor].
    + apply Forall_app; split.
      * apply IH. rewrite Nat2Z.inj_succ, Z.pow_succ_r in Hn by lia. zlia.
      * constructor; [unfold is_digit; zlia | constructor].
Qed.

Lemma decimal_digits_not_nil f n : decimal_digits f n <> [].
Proof.
  destruct f; cbn [decimal_digits]; [discriminate|].
  destruct (n <? 10); [discriminate|]. now destruct (decimal_digits f (n / 10)).
Qed.

Lemma is_digit_cases d :
  is_digit d -> d = 0 \/ d = 1 \/ d = 2 \/ d = 3 \/ d = 4 \/ d = 5 \/ d = 6 \/ d = 7
                \/ d = 8 \/ d = 9.
Proof. unfold is_digit; lia. Qed.

Ltac digit_cases H := apply is_digit_cases in H; repeat destruct H as [-> | H]; try subst.

Lemma digit_char_value d : is_digit d -> digit_value (digit_char d) = Some d.
Proof. intros H; digit_cases H; reflexivity. Qed.

Lemma digit_char_not_special d :
  is_digit d -> is_js_space (digit_char d) = false /\ digit_char d <> "-"%char
                /\ digit_char d <> "+"%char /\ digit_char d <> "x"%char /\ digit_char d <> "X"%char.
Proof. intros H; digit_cases H; repeat split; (reflexivity || discriminate). Qed.

Lemma take_digits_string_of_digits ds :
  Forall is_digit ds -> take_digits 10 (string_of_digits ds) = ds.
Proof.
  induction 1 as [|d ds Hd _ IH]; [reflexivity|].
  cbn [string_of_digits take_digits]. rewrite digit_char_value by exact Hd.
  unfold is_digit in Hd. rewrite (proj2 (Z.ltb_lt d 10)) by lia. now rewrite IH.
Qed.

#[export] Hint Resolve decimal_digits_range decimal_digits_not_nil : swap.

Lemma string_of_digits_head ds :
  Forall is_digit ds -> ds <> [] ->
  trim_start (string_of_digits ds) = string_of_digits ds /\
  strip_sign (string_of_digits ds) = (1, string_of_digits ds) /\
  strip_hex_prefix (string_of_digits ds) = (10, string_of_digits ds).
Proof.
  intros Hf Hne. destruct ds as [|d ds]; [congruence|].
  inversion Hf as [|? ? Hd Hf']; subst.
  destruct ds as [|d' ds]; [digit_cases Hd; repeat split|].
  inversion Hf' as [|? ? Hd' _]; subst.
  digit_cases Hd; digit_cases Hd'; repeat split.
Qed.

(** The digits [nat_to_string n] writes: decimal digits, at least one,
    whose value is [n]. *)
Lemma nat_to_string_spec n :
  0 <= n ->
  exists ds, nat_to_string n = string_of_digits ds /\ Forall is_digit ds /\ ds <> [] /\
             digits_value 10 ds = n.
Proof.
  intros Hn. unfold nat_to_string.
  eexists; split; [reflexivity|]. split; [|split; auto with swap; apply digits_value_decimal_digits].
  apply decimal_digits_range. split; [exact Hn|].
  destruct (Z.eq_dec n 0) as [->|Hn0]; [simpl; lia|].
  rewrite Nat2Z.inj_succ, Z2Nat.id by apply Z.log2_nonneg.
  apply Z.lt_le_trans with (2 ^ Z.succ (Z.log2 n)); [apply Z.log2_spec; lia|].
  apply Z.pow_le_mono_l. pose proof (Z.log2_nonneg n); lia.
Qed.

Lemma parse_int_digits sign ds :
  Forall is_digit ds -> ds <> [] ->
  take_digits 10 (string_of_digits ds) = ds /\
  (match take_digits 10 (string_of_digits ds) with
   | [] => JNaN
   | ds0 => JInt (round_to_double (sign * digits_value 10 ds0))
   end) = JInt (round_to_double (sign * digits_value 10 ds)).
Proof.
  intros Hf Hne. rewrite take_digits_string_of_digits by exact Hf.
  split; [reflexivity|]. now destruct ds.
Qed.

(** ** The displayed id reads back: [parseInt(String(n)) = n] *)

Lemma parse_int_nat_to_string n :
  0 <= n < 2 ^ 53 -> parse_int (nat_to_string n) = JInt n.
Proof.
  intros Hn. destruct (nat_to_string_spec n) as (ds & -> & Hf & Hne & Hv); [lia|].
  destruct (string_of_digits_head ds Hf Hne) as (Ht & Hs & Hh).
  unfold parse_int. rewrite Ht, Hs. cbv beta iota. rewrite Hh.
  destruct (parse_int_digits 1 ds Hf Hne) as [_ ->].
  rewrite Hv, Z.mul_1_l. f_equal. apply round_to_double_small. lia.
Qed.

(** [parseInt] inverts [Number.prototype.toString] on safe integers. *)
Lemma parse_int_to_string_safe z :
  Z.abs z < 2 ^ 53 -> parse_int (number_to_string z) = JInt z.
Proof.
  intros Hz. unfold number_to_string.
  destruct (Z.ltb_spec z 0) as [Hneg|Hpos]; [|apply parse_int_nat_to_string; lia].
  destruct (nat_to_string_spec (- z)) as (ds & -> & Hf & Hne & Hv); [lia|].
  destruct (string_of_digits_head ds Hf Hne) as (_ & _ & Hh).
  unfold parse_int.
  change (trim_start (String "-" (string_of_digits ds))) with (String "-" (string_of_digits ds)).
  cbn [strip_sign]. cbv beta iota. rewrite Hh.
  destruct (parse_int_digits (-1) ds Hf Hne) as [_ ->].
  rewrite Hv. f_equal. rewrite round_to_double_small; lia.
Qed.



End Js.
