(* ===== verification/Effects.v ===== *)
(** What the handlers do to the outside world, and the monad they are
    written in.

    A submit handler of [SwapComponent] runs synchronously up to its
    [await]: it may show an alert, call [e.preventDefault()], log, build
    library objects that may throw, and send one RPC.  After the RPC settles
    it logs and shows a toast, or, when the RPC rejects, the rejection is
    not caught anywhere.  [effect] lists these observable actions, in the
    order they happen; [js_error] the errors thrown by the library calls the
    handlers make.  [M] is a writer-and-exception monad: a computation
    yields the effects it performed and either a value or the error it
    threw, and a thrown error stops the rest of the computation, as a
    [throw] in the body of an [async function] does. *)

From Stdlib Require Import ZArith List String.
From S2P Require Import Prelude.
Import ListNotations.

Module Eff.

Inductive js_error : Type :=
| InvalidPublicKey (input : string)   (** [new PublicKey(s)] on a string that is not 32 base58 bytes *)
| BNAssertion                         (** [new BN(x)] with [x] NaN, infinite or of magnitude [>= 2^53] *)
| ByteArrayTooLong                    (** [toArrayLike] asked for fewer bytes than the value needs *)
| MaxSeedLengthExceeded               (** the [TypeError] of [createProgramAddressSync] *)
| InvalidSeedsOnCurve                 (** [createProgramAddressSync]: the hash is on the curve *)
| NoViableBump                        (** [findProgramAddressSync] found no nonce *)
| TokenOwnerOffCurve                  (** [getAssociatedTokenAddressSync] with an off-curve owner *)
| RangeError                          (** [DataView.getBigUint64] past the end of the buffer *)
| RpcError (reason : string)          (** a request to the cluster was rejected *)
| TypeError (what : string)           (** a property read on [undefined] *)
| AssertionError.                     (** [assert] of [node:assert] on a false condition;
                                          the tests import [node:console]'s, which does not throw *)

(** The two instructions of the swap program's interface, with their
    BN arguments. *)
Inductive instruction : Type :=
| IxMakeOffer (id token_a_offered token_b_wanted : Z)
| IxTakeOffer.

(** The RPC [program.methods.<ix>(...).accounts({...}).rpc()] sends: the
    instruction and the accounts object, in the order of its keys. *)
Record rpc_request : Type := {
  rq_ix : instruction;
  rq_accounts : list (string * list Byte.byte)
}.

Inductive effect : Type :=
| Alert (msg : string)
| PreventDefault
| Log (label : string)
| SendRpc (rq : rpc_request)
| Toast (msg : string)
| UnhandledRejection (e : js_error)
| NativeSubmit                        (** the form's default submission: a page load *)
| ConsoleError (msg : string).        (** [console.error(error)] *)

Inductive outcome (A : Type) : Type :=
| Ok (a : A)
| Err (e : js_error).
Arguments Ok {A} a.
Arguments Err {A} e.

Definition M (A : Type) : Type := (list effect * outcome A)%type.

Definition ret {A} (a : A) : M A := ([], Ok a).

Definition throw {A} (e : js_error) : M A := ([], Err e).

Definition emit (ef : effect) : M unit := ([ef], Ok tt).

Definition bind {A B} (c : M A) (k : A -> M B) : M B :=
  match c with
  | (w, Ok a) => let '(w', r) := k a in (w ++ w', r)
  | (w, Err e) => (w, Err e)
  end.

(** A library call that throws [e] where the model returns [None]. *)
Definition of_option {A} (e : js_error) (o : option A) : M A :=
  match o with
  | Some a => ret a
  | None => throw e
  end.

Definition effects_of {A} (c : M A) : list effect := fst c.
Definition result_of {A} (c : M A) : outcome A := snd c.

Module Notations.
Notation "x <- c ;; k" := (bind c (fun x => k))
  (at level 61, c at next level, right associativity) : swap_scope.
Notation "c ;;; k" := (bind c (fun _ => k))
  (at level 61, right associativity) : swap_scope.
End Notations.

(** ** Monad laws *)

Lemma bind_ret_l {A B} (a : A) (k : A -> M B) : bind (ret a) k = k a.
Proof. unfold bind, ret. destruct (k a); reflexivity. Qed.

Lemma bind_ret_r {A} (c : M A) : bind c ret = c.
Proof. destruct c as [w [a|e]]; simpl; rewrite ?app_nil_r; reflexivity. Qed.

Lemma bind_assoc {A B C} (c : M A) (k1 : A -> M B) (k2 : B -> M C) :
  bind (bind c k1) k2 = bind c (fun a => bind (k1 a) k2).
Proof.
  destruct c as [w [a|e]]; simpl; [|reflexivity].
  destruct (k1 a) as [w1 [b|e1]]; simpl.
  - destruct (k2 b) as [w2 r2]. now rewrite app_assoc.
  - reflexivity.
Qed.

Lemma bind_throw {A B} (e : js_error) (k : A -> M B) : bind (throw e) k = throw e.
Proof. reflexivity. Qed.

(** The effects of a sequence are those of its first part, then those of
    the rest. *)
Lemma effects_of_bind_ok {A B} (c : M A) (k : A -> M B) w a :
  c = (w, Ok a) -> effects_of (bind c k) = w ++ effects_of (k a).
Proof. intros ->. simpl. now destruct (k a). Qed.

Lemma result_of_bind_ok {A B} (c : M A) (k : A -> M B) w a :
  c = (w, Ok a) -> result_of (bind c k) = result_of (k a).
Proof. intros ->. simpl. now destruct (k a). Qed.

#[export] Hint Rewrite @bind_ret_l @bind_ret_r @bind_assoc @bind_throw : swap_rw.

(** ** Computations without effects

    The library calls of the handlers (key parsing, address derivation,
    BN conversion) perform no effect: they return or throw. *)
Definition pure {A} (c : M A) : Prop := effects_of c = [].

Lemma pure_cases {A} (c : M A) :
  pure c -> (exists a, c = ret a) \/ (exists e, c = throw e).
Proof.
  unfold pure, effects_of. destruct c as [w [a|e]]; simpl; intros ->.
  - left. now exists a.
  - right. now exists e.
Qed.

Lemma pure_ret {A} (a : A) : pure (ret a).
Proof. reflexivity. Qed.

Lemma pure_throw {A} (e : js_error) : pure (@throw A e).
Proof. reflexivity. Qed.

Lemma pure_of_option {A} e (o : option A) : pure (of_option e o).
Proof. destruct o; reflexivity. Qed.

Lemma pure_bind {A B} (c : M A) (k : A -> M B) :
  pure c -> (forall a, pure (k a)) -> pure (bind c k).
Proof.
  intros Hc Hk. destruct (pure_cases c Hc) as [[a ->]|[e ->]]; [|reflexivity].
  rewrite bind_ret_l. apply Hk.
Qed.

#[export] Hint Resolve pure_ret pure_throw pure_of_option pure_bind : swap.

Lemma of_option_ret {A} e (o : option A) a : of_option e o = ret a -> o = Some a.
Proof. destruct o; unfold of_option, ret, throw; intros H; inversion H; reflexivity. Qed.

Lemma of_option_throw {A} e (o : option A) e' : of_option e o = throw e' -> e' = e /\ o = None.
Proof. destruct o; simpl; unfold ret, throw; intros H; inversion H; auto. Qed.

(** Split the first pure computation bound in the goal into its two
    cases, a value or a thrown error. *)
Ltac pure_step :=
  match goal with
  | |- context [bind ?c _] =>
      let Hp := fresh "Hp" in
      assert (Hp : pure c) by (eauto with swap);
      let E := fresh "E" in
      destruct (pure_cases c Hp) as [[? E]|[? E]]; rewrite E; clear Hp;
      [rewrite bind_ret_l | rewrite bind_throw]
  end.

End Eff.
