(* ===== verification/Web3.v ===== *)
(** The [@solana/web3.js] and [@solana/spl-token] calls of the client.

    Public keys are 32 bytes.  The cryptography under them (base58
    decoding of a key string, sha256, the ed25519 on-curve test) stays
    abstract in the class [Crypto], with the two program ids the code
    imports; the logic around it is written out as the libraries have it:
    [new PublicKey(string)], [PublicKey.createProgramAddressSync] with its
    seed-length check, the bump search of [findProgramAddressSync] from 255
    down to 1, and [getAssociatedTokenAddressSync] with its
    [allowOwnerOffCurve] flag.  The theorems say what the client relies on:
    a derived address is off the curve, its bump is the first that works
    (the canonical bump the program checks), seeds of at most 32 bytes
    never raise the [TypeError], and a vault owned by a program address can
    only be derived with [allowOwnerOffCurve = true]. *)

From Stdlib Require Import String ZArith List Lia Bool.
From S2P Require Import Prelude Bytes Effects.
Import ListNotations Eff Eff.Notations.

Local Open Scope swap_scope.

Module Web3.

Definition pubkey := list Byte.byte.

Definition PUBLIC_KEY_LENGTH : nat := 32.
Definition MAX_SEED_LENGTH : nat := 32.

Class Crypto : Type := {
  base58_decode : string -> option (list Byte.byte);
  sha256 : list Byte.byte -> list Byte.byte;
  is_on_curve : list Byte.byte -> bool;
  TOKEN_2022_PROGRAM_ID : pubkey;
  ASSOCIATED_TOKEN_PROGRAM_ID : pubkey;
(** a digest, hence a derived address, is 32 bytes *)
sha256_length : forall bs, List.length (sha256 bs) = 32%nat;
token_2022_program_id_length : List.length TOKEN_2022_PROGRAM_ID = 32%nat
}.

Section WithCrypto.
Context {crypto : Crypto}.

(** [new PublicKey(s)]: the base58 decoding must give 32 bytes;
    [toBuffer()] gives them back. *)
Definition new_public_key (s : string) : M pubkey :=
  match base58_decode s with
  | Some bs => if Nat.eqb (List.length bs) PUBLIC_KEY_LENGTH then ret bs
               else throw (InvalidPublicKey s)
  | None => throw (InvalidPublicKey s)
  end.

Definition pda_marker : list Byte.byte := list_byte_of_string "ProgramDerivedAddress".

(** [PublicKey.createProgramAddressSync(seeds, programId)]. *)
Definition create_program_address (seeds : list (list Byte.byte)) (program_id : pubkey)
  : M pubkey :=
  if existsb (fun seed => MAX_SEED_LENGTH <? List.length seed)%nat seeds
  then throw MaxSeedLengthExceeded
  else
    let h := sha256 (concat seeds ++ program_id ++ pda_marker) in
    if is_on_curve h then throw InvalidSeedsOnCurve else ret h.

Definition nonce_seed (nonce : nat) : list Byte.byte := [LE.byte_of_Z (Z.of_nat nonce)].

(** The loop of [findProgramAddressSync] from [nonce] down to 1: a
    [TypeError] is rethrown, any other error tries the next nonce. *)
Fixpoint find_program_address_from (nonce : nat) (seeds : list (list Byte.byte))
    (program_id : pubkey) : M (pubkey * nat) :=
  match nonce with
  | O => throw NoViableBump
  | S n =>
      match create_program_address (seeds ++ [nonce_seed nonce]) program_id with
      | (_, Ok a) => ret (a, nonce)
      | (_, Err MaxSeedLengthExceeded) => throw MaxSeedLengthExceeded
      | (_, Err _) => find_program_address_from n seeds program_id
      end
  end.

(** [PublicKey.findProgramAddressSync(seeds, programId)]: the address
    and its bump. *)
Definition find_program_address_sync (seeds : list (list Byte.byte)) (program_id : pubkey)
  : M (pubkey * nat) :=
  find_program_address_from 255 seeds program_id.

(** [getAssociatedTokenAddressSync(mint, owner, allowOwnerOffCurve,
    programId)] with the default associated-token program. *)
Definition get_associated_token_address_sync (mint owner : pubkey)
    (allow_owner_off_curve : bool) (program_id : pubkey) : M pubkey :=
  if negb allow_owner_off_curve && negb (is_on_curve owner)
  then throw TokenOwnerOffCurve
  else
    pa <- find_program_address_sync [owner; program_id; mint] ASSOCIATED_TOKEN_PROGRAM_ID ;;
    ret (fst pa).

(** ** Lemmas *)

Lemma new_public_key_pure s : pure (new_public_key s).
Proof.
  unfold new_public_key. destruct (base58_decode s); [|reflexivity].
  destruct (Nat.eqb _ _); reflexivity.
Qed.

Lemma create_program_address_pure seeds pid : pure (create_program_address seeds pid).
Proof.
  unfold create_program_address. destruct (existsb _ _); [reflexivity|].
  destruct (is_on_curve _); reflexivity.
Qed.

Lemma find_program_address_from_pure n seeds pid :
  pure (find_program_address_from n seeds pid).
Proof.
  induction n as [|n IH]; cbn [find_program_address_from]; [reflexivity|].
  destruct (create_program_address _ _) as [w [a|[]]]; try reflexivity; exact IH.
Qed.

Lemma find_program_address_sync_pure seeds pid : pure (find_program_address_sync seeds pid).
Proof. apply find_program_address_from_pure. Qed.

Lemma get_ata_pure mint owner allow pid :
  pure (get_associated_token_address_sync mint owner allow pid).
Proof.
  unfold get_associated_token_address_sync. destruct (_ && _); [reflexivity|].
  apply pure_bind; [apply find_program_address_sync_pure | intros; reflexivity].
Qed.

#[local] Hint Resolve new_public_key_pure find_program_address_sync_pure get_ata_pure : swap.

Definition seeds_fit (seeds : list (list Byte.byte)) : Prop :=
  Forall (fun seed => (List.length seed <= MAX_SEED_LENGTH)%nat) seeds.

Lemma seeds_fit_existsb seeds :
  seeds_fit seeds <-> existsb (fun seed => MAX_SEED_LENGTH <? List.length seed)%nat seeds = false.
Proof.
  unfold seeds_fit. rewrite Forall_forall, <- Bool.not_true_iff_false, existsb_exists.
  split.
  - intros Hf (seed & Hin & Hlt). apply Nat.ltb_lt in Hlt. specialize (Hf seed Hin). lia.
  - intros Hn seed Hin. destruct (Nat.ltb_spec MAX_SEED_LENGTH (List.length seed)); [|lia].
    exfalso. apply Hn. exists seed. split; [exact Hin|]. now apply Nat.ltb_lt.
Qed.

Lemma seeds_fit_app s1 s2 : seeds_fit s1 -> seeds_fit s2 -> seeds_fit (s1 ++ s2).
Proof. intros. now apply Forall_app. Qed.

Lemma seeds_fit_nonce n : seeds_fit [nonce_seed n].
Proof. repeat constructor. Qed.

#[local] Hint Resolve seeds_fit_app seeds_fit_nonce : swap.

(** A created address has no effects, is off the curve, and its seeds
    fit. *)
Lemma create_program_address_ok seeds pid w a :
  create_program_address seeds pid = (w, Ok a) ->
  w = [] /\ is_on_curve a = false /\ seeds_fit seeds.
Proof.
  unfold create_program_address.
  destruct (existsb _ seeds) eqn:E; [discriminate|].
  destruct (is_on_curve _) eqn:C; [discriminate|].
  intros [= <- <-]. split; [reflexivity|]. split; [exact C|].
  now apply seeds_fit_existsb.
Qed.

Lemma create_program_address_err seeds pid w e :
  create_program_address seeds pid = (w, Err e) ->
  w = [] /\ (e = MaxSeedLengthExceeded /\ ~ seeds_fit seeds \/
             e = InvalidSeedsOnCurve /\ seeds_fit seeds).
Proof.
  unfold create_program_address.
  destruct (existsb _ seeds) eqn:E.
  - intros [= <- <-]. split; [reflexivity|]. left. split; [reflexivity|].
    rewrite seeds_fit_existsb, E. discriminate.
  - destruct (is_on_curve _); [|discriminate].
    intros [= <- <-]. split; [reflexivity|]. right. split; [reflexivity|].
    now apply seeds_fit_existsb.
Qed.

(** The bump search returns the first nonce, from [n] down, whose
    address is off the curve: every larger nonce up to [n] gave an
    on-curve hash. *)
Lemma find_program_address_from_ok n seeds pid w a k :
  find_program_address_from n seeds pid = (w, Ok (a, k)) ->
  w = [] /\ is_on_curve a = false /\ (1 <= k <= n)%nat /\
  create_program_address (seeds ++ [nonce_seed k]) pid = ([], Ok a) /\
  (forall j, (k < j <= n)%nat ->
     result_of (create_program_address (seeds ++ [nonce_seed j]) pid) = Err InvalidSeedsOnCurve).
Proof.
  revert w a k; induction n as [|n IH]; intros w a k; cbn [find_program_address_from];
    [discriminate|].
  destruct (create_program_address (seeds ++ [nonce_seed (S n)]) pid) as [w0 [a0|e0]] eqn:C.
  - intros [= <- <- <-]. pose proof (create_program_address_ok _ _ _ _ C) as (-> & Hc & _).
    repeat split; auto; [lia | intros j Hj; lia].
  - pose proof (create_program_address_err _ _ _ _ C) as (-> & He).
    destruct e0; try (destruct He as [[? ?]|[? ?]]; discriminate).
    intros Hf. destruct (IH _ _ _ Hf) as (-> & Hc & Hk & Hcr & Hprev).
    repeat split; auto; try lia.
    intros j Hj. destruct (Nat.eq_dec j (S n)) as [->|Hne]; [now rewrite C|].
    apply Hprev. lia.
Qed.

(** Seeds of at most 32 bytes never make the search throw the
    [TypeError]: it finds an address or runs out of nonces. *)
Lemma find_program_address_from_fit n seeds pid :
  seeds_fit seeds ->
  result_of (find_program_address_from n seeds pid) <> Err MaxSeedLengthExceeded.
Proof.
  intros Hfit. induction n as [|n IH]; cbn [find_program_address_from]; [discriminate|].
  destruct (create_program_address (seeds ++ [nonce_seed (S n)]) pid) as [w0 [a0|e0]] eqn:C;
    [discriminate|].
  pose proof (create_program_address_err _ _ _ _ C) as (_ & [[-> Hn]|[-> _]]).
  - exfalso. apply Hn. auto with swap.
  - exact IH.
Qed.

Lemma new_public_key_err s e : new_public_key s = throw e -> e = InvalidPublicKey s.
Proof.
  unfold new_public_key. destruct (base58_decode s) as [bs|]; [destruct (Nat.eqb _ _)|];
    unfold ret, throw; intros H; inversion H; reflexivity.
Qed.

(** The search throws the [TypeError] or runs out of nonces. *)
Lemma find_program_address_from_err n seeds pid e :
  find_program_address_from n seeds pid = throw e ->
  e = MaxSeedLengthExceeded \/ e = NoViableBump.
Proof.
  induction n as [|n IH]; cbn [find_program_address_from].
  - intros [= <-]. now right.
  - destruct (create_program_address _ _) as [w [a|[]]]; try discriminate; auto.
    intros [= <-]. now left.
Qed.

Lemma find_program_address_from_fit_err n seeds pid e :
  seeds_fit seeds -> find_program_address_from n seeds pid = throw e -> e = NoViableBump.
Proof.
  intros Hfit Hf.
  destruct (find_program_address_from_err _ _ _ _ Hf) as [-> | ->]; [|reflexivity].
  exfalso. apply (find_program_address_from_fit n seeds pid Hfit). now rewrite Hf.
Qed.

Lemma new_public_key_length s k : new_public_key s = ret k -> List.length k = 32%nat.
Proof.
  unfold new_public_key. destruct (base58_decode s) as [bs|]; [|discriminate].
  destruct (Nat.eqb_spec (List.length bs) PUBLIC_KEY_LENGTH) as [Hl|]; [|discriminate].
  intros [= <-]. exact Hl.
Qed.

Lemma find_program_address_from_length n seeds pid a k :
  find_program_address_from n seeds pid = ret (a, k) -> List.length a = 32%nat.
Proof.
  intros Hf. destruct (find_program_address_from_ok _ _ _ _ _ _ Hf) as (_ & _ & _ & Hc & _).
  unfold create_program_address in Hc.
  destruct (existsb _ _); [discriminate|]. destruct (is_on_curve _); [discriminate|].
  injection Hc as <-. apply sha256_length.
Qed.

(** With [allowOwnerOffCurve = false] an owner that is a program address
    (off the curve) is refused before any derivation. *)
Lemma get_ata_off_curve_owner_refused mint owner pid :
  is_on_curve owner = false ->
  get_associated_token_address_sync mint owner false pid = throw TokenOwnerOffCurve.
Proof. intros Hc. unfold get_associated_token_address_sync. now rewrite Hc. Qed.

(** With [allowOwnerOffCurve = true] the vault is the associated-token
    program address of [owner, programId, mint]. *)
Lemma get_ata_allow_off_curve mint owner pid :
  get_associated_token_address_sync mint owner true pid =
  bind (find_program_address_sync [owner; pid; mint] ASSOCIATED_TOKEN_PROGRAM_ID)
       (fun pa => ret (fst pa)).
Proof. reflexivity. Qed.

Lemma find_program_address_sync_fit_err seeds pid e :
  seeds_fit seeds -> find_program_address_sync seeds pid = throw e -> e = NoViableBump.
Proof. exact (find_program_address_from_fit_err 255 seeds pid e). Qed.

Lemma find_program_address_sync_length seeds pid p :
  find_program_address_sync seeds pid = ret p -> List.length (fst p) = 32%nat.
Proof. destruct p as [a k]. exact (find_program_address_from_length 255 seeds pid a k). Qed.

(** The vault derivation with [allowOwnerOffCurve = true] and 32-byte
    keys can only fail by running out of nonces. *)
Lemma get_ata_fit_err mint owner pid e :
  List.length mint = 32%nat -> List.length owner = 32%nat -> List.length pid = 32%nat ->
  get_associated_token_address_sync mint owner true pid = throw e -> e = NoViableBump.
Proof.
  intros Hm Ho Hp. rewrite get_ata_allow_off_curve. pure_step.
  - discriminate.
  - intros [= <-].
    apply (find_program_address_sync_fit_err [owner; pid; mint] ASSOCIATED_TOKEN_PROGRAM_ID);
      [|exact E].
    unfold seeds_fit, MAX_SEED_LENGTH; repeat (apply Forall_cons; [lia|]); apply Forall_nil.
Qed.

End WithCrypto.

#[export] Hint Resolve new_public_key_pure find_program_address_sync_pure get_ata_pure : swap.

(** ** A stand-in for the cryptography, for evaluating the model

    The witnesses of the development run the handlers on concrete
    inputs; they need some [Crypto].  [toy_crypto] is a deterministic
    stand-in, not sha256, ed25519 or base58: a key string is read as its
    own bytes; the "digest" spreads a rolling hash of the whole input over
    32 bytes, so that the addresses the witnesses derive from different
    seeds differ (the witnesses check it); a digest is "on the curve" when
    its first byte is zero. *)
Definition toy_round (salt : Z) (bs : list Byte.byte) : Z :=
  fold_left (fun h b => (h * 131 + LE.byte_val b + 1) mod 1000000007)%Z bs salt.

Definition toy_digest (bs : list Byte.byte) : list Byte.byte :=
  let h := toy_round 1 bs in
  map (fun i => LE.byte_of_Z ((h * (Z.of_nat i + 3) + Z.of_nat i * 7919) / 11)%Z) (seq 0 32).

Lemma toy_digest_length bs : List.length (toy_digest bs) = 32%nat.
Proof. unfold toy_digest. now rewrite length_map, length_seq. Qed.

Definition toy_crypto : Crypto := {|
  base58_decode := fun s => Some (list_byte_of_string s);
  sha256 := toy_digest;
  is_on_curve := fun bs => match bs with b :: _ => Byte.eqb b Byte.x00 | [] => true end;
  TOKEN_2022_PROGRAM_ID := repeat Byte.x02 32;
  ASSOCIATED_TOKEN_PROGRAM_ID := repeat Byte.x03 32;
  sha256_length := toy_digest_length;
  token_2022_program_id_length := eq_refl
|}.

End Web3.
