(* ===== verification/SwapForm.v ===== *)
(** [SwapComponent] of [src/frontend/src/components/swap.tsx]: its state,
    its mount effect, its form setters and its two submit handlers.

    The eight [useState] hooks and the wallet's [publicKey] are the record
    [form_state].  [generate_random_id] is the mount effect's
    [generateRandomId].  [on_change] is the [onChange] of each input of the
    JSX.  [handle_make_offer] and [handle_take_offer] are the two [async]
    handlers, from their guard to the [await] of [.rpc()], written in the
    monad [M] of [Effects] so that each effect, each library call that may
    throw and the order of both are those of the source; [after_rpc] is
    what runs once the awaited RPC settles.  The section's context is what
    the component receives from outside: the cryptography of [Web3] and the
    program id of the IDL ([program.programId]). *)

From Stdlib Require Import String ZArith List Lia Bool PrimFloat.
From S2P Require Import Prelude Bytes JsValue Effects Web3.
Import ListNotations Eff Eff.Notations.
Import (hints) Web3.

Local Open Scope string_scope.
Local Open Scope swap_scope.

Module Form.

Record form_state : Type := {
  publicKey : option Web3.pubkey;       (** [useWallet().publicKey] *)
  activeTab : string;                   (** ['make'] or ['take'] *)
  tokenMintA : string;
  tokenMintB : string;
  tokenASwapAmount : float;
  tokenBSwapAmount : float;
  offerMakerAccount : string;
  offerId : option Js.jnum;             (** [number | null] *)
  makerOfferId : option Js.jnum         (** [number | null] *)
}.

(** The state of a freshly mounted component (swap.tsx:16-23). *)
Definition initial_state (pk : option Web3.pubkey) : form_state := {|
  publicKey := pk; activeTab := "make"; tokenMintA := ""; tokenMintB := "";
  tokenASwapAmount := Js.float_of_Z 0; tokenBSwapAmount := Js.float_of_Z 0;
  offerMakerAccount := ""; offerId := None; makerOfferId := None |}.

(** ** The inputs of the JSX and their setters *)

Inductive field : Type :=
| FTokenMintA | FTokenMintB | FTokenASwapAmount | FTokenBSwapAmount
| FOfferMakerAccount | FMakerOfferId.

(** The [onChange] of the input [f] with the input's new value [v]: the
    amounts go through [parseFloat], the taker's offer id through
    [parseInt], the rest is stored as typed. *)
Definition on_change (f : field) (v : string) (st : form_state) : form_state :=
  let '{| publicKey := pk; activeTab := tab; tokenMintA := ma; tokenMintB := mb;
          tokenASwapAmount := aa; tokenBSwapAmount := ab; offerMakerAccount := oma;
          offerId := oid; makerOfferId := moid |} := st in
  match f with
  | FTokenMintA => Build_form_state pk tab v mb aa ab oma oid moid
  | FTokenMintB => Build_form_state pk tab ma v aa ab oma oid moid
  | FTokenASwapAmount => Build_form_state pk tab ma mb (Js.parse_float v) ab oma oid moid
  | FTokenBSwapAmount => Build_form_state pk tab ma mb aa (Js.parse_float v) oma oid moid
  | FOfferMakerAccount => Build_form_state pk tab ma mb aa ab v oid moid
  | FMakerOfferId => Build_form_state pk tab ma mb aa ab oma oid (Some (Js.parse_int v))
  end.

Definition set_active_tab (tab : string) (st : form_state) : form_state :=
  {| publicKey := publicKey st; activeTab := tab; tokenMintA := tokenMintA st;
     tokenMintB := tokenMintB st; tokenASwapAmount := tokenASwapAmount st;
     tokenBSwapAmount := tokenBSwapAmount st; offerMakerAccount := offerMakerAccount st;
     offerId := offerId st; makerOfferId := makerOfferId st |}.

Definition set_offer_id (id : Js.jnum) (st : form_state) : form_state :=
  {| publicKey := publicKey st; activeTab := activeTab st; tokenMintA := tokenMintA st;
     tokenMintB := tokenMintB st; tokenASwapAmount := tokenASwapAmount st;
     tokenBSwapAmount := tokenBSwapAmount st; offerMakerAccount := offerMakerAccount st;
     offerId := Some id; makerOfferId := makerOfferId st |}.

Definition set_public_key (pk : option Web3.pubkey) (st : form_state) : form_state :=
  {| publicKey := pk; activeTab := activeTab st; tokenMintA := tokenMintA st;
     tokenMintB := tokenMintB st; tokenASwapAmount := tokenASwapAmount st;
     tokenBSwapAmount := tokenBSwapAmount st; offerMakerAccount := offerMakerAccount st;
     offerId := offerId st; makerOfferId := makerOfferId st |}.

(** ** The mount effect: [generateRandomId] (swap.tsx:28-36)

    [rnd] is what [crypto.getRandomValues] writes into the
    [Uint8Array(8)]; the id is its little-endian value modulo
    [MAX_SAFE_INTEGER], converted back to a number. *)
Definition generate_random_id (rnd : list Byte.byte) : M Js.jnum :=
  v <- of_option RangeError (LE.get_big_uint64_le rnd) ;;
  ret (Js.JInt (Js.round_to_double (v mod Js.MAX_SAFE_INTEGER))).

Definition LAMPORTS_PER_SOL : Z := 1000000000.

Definition connect_wallet_msg : string := "Please connect your wallet".

(** Where the synchronous part of a handler ends: an early [return], or
    the [await] of the RPC it sent. *)
Inductive sync_end : Type :=
| Returned
| Awaiting (rq : rpc_request).

Section Handlers.
Context {crypto : Web3.Crypto}.
Variable program_id : Web3.pubkey.

(** [handleMakeOffer] (swap.tsx:38-64) up to its [await]. *)
Definition handle_make_offer (st : form_state) : M sync_end :=
  match publicKey st with
  | Some pk =>
      if Js.truthy (offerId st) then
        emit PreventDefault ;;;
        emit (Log "Making offer...") ;;;
        emit (Log "Offer Id:") ;;;
        id <- of_option BNAssertion (Js.bn_of_nullable (offerId st)) ;;
        amount_a <- of_option BNAssertion
                      (Js.bn_of_number (PrimFloat.mul (tokenASwapAmount st) (Js.float_of_Z 100))) ;;
        amount_b <- of_option BNAssertion
                      (Js.bn_of_number (PrimFloat.mul (tokenBSwapAmount st)
                                                      (Js.float_of_Z LAMPORTS_PER_SOL))) ;;
        mint_a <- Web3.new_public_key (tokenMintA st) ;;
        mint_b <- Web3.new_public_key (tokenMintB st) ;;
        let rq := {| rq_ix := IxMakeOffer id amount_a amount_b;
                     rq_accounts := [("maker", pk); ("tokenMintA", mint_a);
                                     ("tokenMintB", mint_b);
                                     ("tokenProgram", Web3.TOKEN_2022_PROGRAM_ID)] |} in
        emit (SendRpc rq) ;;;
        ret (Awaiting rq)
      else emit (Alert connect_wallet_msg) ;;; ret Returned
  | None => emit (Alert connect_wallet_msg) ;;; ret Returned
  end.

(** The three seeds of the offer address (swap.tsx:75-78). *)
Definition offer_seeds (maker : Web3.pubkey) (id_bytes : list Byte.byte)
  : list (list Byte.byte) :=
  [list_byte_of_string "offer"; maker; id_bytes].

(** [handleTakeOffer] (swap.tsx:66-111) up to its [await]. *)
Definition handle_take_offer (st : form_state) : M sync_end :=
  match publicKey st with
  | Some pk =>
      if Js.truthy (makerOfferId st) then
        emit PreventDefault ;;;
        emit (Log "offerId") ;;;
        maker <- Web3.new_public_key (offerMakerAccount st) ;;
        id <- of_option BNAssertion (Js.bn_of_nullable (makerOfferId st)) ;;
        id_bytes <- of_option ByteArrayTooLong (LE.to_array_like_le id 8) ;;
        pda <- Web3.find_program_address_sync (offer_seeds maker id_bytes) program_id ;;
        mint_a <- Web3.new_public_key (tokenMintA st) ;;
        vault <- Web3.get_associated_token_address_sync mint_a (fst pda) true
                   Web3.TOKEN_2022_PROGRAM_ID ;;
        maker' <- Web3.new_public_key (offerMakerAccount st) ;;
        mint_a' <- Web3.new_public_key (tokenMintA st) ;;
        mint_b <- Web3.new_public_key (tokenMintB st) ;;
        let accounts := [("taker", pk); ("maker", maker'); ("tokenMintA", mint_a');
                         ("tokenMintB", mint_b);
                         ("tokenProgram", Web3.TOKEN_2022_PROGRAM_ID);
                         ("offer", fst pda); ("vault", vault)] in
        emit (Log "accounts") ;;;
        emit (Log "Taking offer...") ;;;
        let rq := {| rq_ix := IxTakeOffer; rq_accounts := accounts |} in
        emit (SendRpc rq) ;;;
        ret (Awaiting rq)
      else emit (Alert connect_wallet_msg) ;;; ret Returned
  | None => emit (Alert connect_wallet_msg) ;;; ret Returned
  end.

End Handlers.

(** What follows the [await] in both handlers (swap.tsx:62-63,
    109-110): log and toast the signature when the RPC resolves; a
    rejection propagates out of the handler, and nothing catches it. *)
Definition after_rpc (done_label : string) (r : outcome string) : list effect :=
  match r with
  | Ok tx => [Log done_label; Toast ("Transaction Signature: " ++ tx)]
  | Err e => [UnhandledRejection e]
  end.

(** ** Theorems on the handlers *)

(** Compute a handler: unfold the monad on the effects and split each
    library call into its value or its error. *)
Ltac run_handler :=
  repeat (cbn [bind emit ret throw] in *; try pure_step; cbv beta).

(** The id of the mount effect, computed. *)
Lemma random_id_safe rnd :
  List.length rnd = 8%nat ->
  generate_random_id rnd = ret (Js.JInt (LE.le_decode rnd mod Js.MAX_SAFE_INTEGER)) /\
  (0 <= LE.le_decode rnd mod Js.MAX_SAFE_INTEGER < Js.MAX_SAFE_INTEGER)%Z.
Proof.
  intros Hl. unfold Js.MAX_SAFE_INTEGER.
  assert (Hb : (0 <= LE.le_decode rnd mod (2 ^ 53 - 1) < 2 ^ 53 - 1)%Z)
    by (apply Z.mod_pos_bound; lia).
  split; [|exact Hb].
  unfold generate_random_id, LE.get_big_uint64_le. rewrite Hl. cbn [Nat.leb of_option].
  rewrite firstn_length_eq by exact Hl. rewrite bind_ret_l.
  unfold Js.MAX_SAFE_INTEGER. rewrite Js.round_to_double_small by lia. reflexivity.
Qed.

(** C24: The mount effect always produces an id, a safe integer in
    [[0, MAX_SAFE_INTEGER)]: the little-endian value of the eight random
    bytes reduced modulo [MAX_SAFE_INTEGER]. *)
Theorem generate_random_id_range rnd :
  List.length rnd = 8%nat ->
  generate_random_id rnd = ret (Js.JInt (LE.le_decode rnd mod Js.MAX_SAFE_INTEGER)) /\
  (0 <= LE.le_decode rnd mod Js.MAX_SAFE_INTEGER < Js.MAX_SAFE_INTEGER)%Z.
Proof. intros Hl. exact (random_id_safe rnd Hl). Qed.

Section HandlerTheorems.
Context {crypto : Web3.Crypto}.
Variable program_id : Web3.pubkey.

(** The three runs of [handleMakeOffer], by its guard and the calls that may throw. *)
Lemma make_offer_runs st :
  handle_make_offer st = ([Alert connect_wallet_msg], Ok Returned) \/
  (exists rq, handle_make_offer st =
              ([PreventDefault; Log "Making offer..."; Log "Offer Id:"; SendRpc rq],
               Ok (Awaiting rq))) \/
  (exists e, handle_make_offer st =
             ([PreventDefault; Log "Making offer..."; Log "Offer Id:"], Err e)).
Proof.
  unfold handle_make_offer.
  destruct (publicKey st); [|left; reflexivity].
  destruct (Js.truthy (offerId st)); [|left; reflexivity].
  right. run_handler; first [left; eexists; reflexivity | right; eexists; reflexivity].
Qed.

(** C23: Every run of handleMakeOffer is one of: a single alert; preventDefault, two logs and exactly one RPC as its last effect, awaited; or preventDefault and two logs followed by a thrown error with no RPC. *)
Theorem handle_make_offer_shape st :
  handle_make_offer st = ([Alert connect_wallet_msg], Ok Returned) \/
  (exists rq, handle_make_offer st =
              ([PreventDefault; Log "Making offer..."; Log "Offer Id:"; SendRpc rq],
               Ok (Awaiting rq))) \/
  (exists e, handle_make_offer st =
             ([PreventDefault; Log "Making offer..."; Log "Offer Id:"], Err e)).
Proof. exact (make_offer_runs st). Qed.

(** [handleMakeOffer] when its guard fails. *)
Lemma make_offer_guard_alert st :
  publicKey st = None \/ Js.truthy (offerId st) = false ->
  handle_make_offer st = ([Alert connect_wallet_msg], Ok Returned).
Proof.
  unfold handle_make_offer. intros [-> | Hf]; [reflexivity|].
  destruct (publicKey st); [now rewrite Hf | reflexivity].
Qed.

(** C10: Without a wallet or without a truthy [offerId], [handleMakeOffer]
    shows one alert and returns: no RPC, and no [preventDefault]. *)
Theorem handle_make_offer_guard st :
  publicKey st = None \/ Js.truthy (offerId st) = false ->
  handle_make_offer st = ([Alert connect_wallet_msg], Ok Returned).
Proof. intros Hg. exact (make_offer_guard_alert st Hg). Qed.

(** The request [handleMakeOffer] sends when every call succeeds. *)
Lemma make_offer_request_sent st pk id amount_a amount_b mint_a mint_b :
  publicKey st = Some pk ->
  offerId st = Some (Js.JInt id) -> id <> 0%Z -> (Z.abs id < 2 ^ 53)%Z ->
  Js.bn_of_number (PrimFloat.mul (tokenASwapAmount st) (Js.float_of_Z 100)) = Some amount_a ->
  Js.bn_of_number (PrimFloat.mul (tokenBSwapAmount st) (Js.float_of_Z LAMPORTS_PER_SOL))
    = Some amount_b ->
  Web3.new_public_key (tokenMintA st) = ret mint_a ->
  Web3.new_public_key (tokenMintB st) = ret mint_b ->
  let rq := {| rq_ix := IxMakeOffer id amount_a amount_b;
               rq_accounts := [("maker", pk); ("tokenMintA", mint_a); ("tokenMintB", mint_b);
                               ("tokenProgram", Web3.TOKEN_2022_PROGRAM_ID)] |} in
  handle_make_offer st =
    ([PreventDefault; Log "Making offer..."; Log "Offer Id:"; SendRpc rq], Ok (Awaiting rq)).
Proof.
  intros Hpk Hid Hnz Hbd Ha Hb Hma Hmb rq. unfold handle_make_offer.
  rewrite Hpk, Hid. cbn [Js.truthy Js.truthy_num Js.bn_of_nullable Js.bn_of_jnum].
  rewrite (proj2 (Z.eqb_neq id 0) Hnz), (proj2 (Z.ltb_lt _ _) Hbd), Ha, Hb, Hma, Hmb.
  reflexivity.
Qed.

(** C1: With a wallet, a non-zero safe id, convertible amounts and two
    valid mints, [handleMakeOffer] sends exactly one [makeOffer] RPC
    carrying [(offerId, BN(amountA * 100), BN(amountB * 10^9))] and the
    four accounts of the source, and awaits it. *)
Theorem handle_make_offer_request st pk id amount_a amount_b mint_a mint_b :
  publicKey st = Some pk ->
  offerId st = Some (Js.JInt id) -> id <> 0%Z -> (Z.abs id < 2 ^ 53)%Z ->
  Js.bn_of_number (PrimFloat.mul (tokenASwapAmount st) (Js.float_of_Z 100)) = Some amount_a ->
  Js.bn_of_number (PrimFloat.mul (tokenBSwapAmount st) (Js.float_of_Z LAMPORTS_PER_SOL))
    = Some amount_b ->
  Web3.new_public_key (tokenMintA st) = ret mint_a ->
  Web3.new_public_key (tokenMintB st) = ret mint_b ->
  let rq := {| rq_ix := IxMakeOffer id amount_a amount_b;
               rq_accounts := [("maker", pk); ("tokenMintA", mint_a); ("tokenMintB", mint_b);
                               ("tokenProgram", Web3.TOKEN_2022_PROGRAM_ID)] |} in
  handle_make_offer st =
    ([PreventDefault; Log "Making offer..."; Log "Offer Id:"; SendRpc rq], Ok (Awaiting rq)).
Proof.
  intros Hpk Hid Hnz Hbd Ha Hb Hma Hmb rq.
  exact (make_offer_request_sent st pk id amount_a amount_b mint_a mint_b
           Hpk Hid Hnz Hbd Ha Hb Hma Hmb).
Qed.

(** C11: Without a wallet or without a truthy typed id, [handleTakeOffer]
    shows one alert and returns. *)
Theorem handle_take_offer_guard st :
  publicKey st = None \/ Js.truthy (makerOfferId st) = false ->
  handle_take_offer program_id st = ([Alert connect_wallet_msg], Ok Returned).
Proof.
  unfold handle_take_offer. intros [-> | Hf]; [reflexivity|].
  destruct (publicKey st); [now rewrite Hf | reflexivity].
Qed.

(** C2: With a wallet, a non-zero safe typed id and valid keys,
    [handleTakeOffer] derives the offer address from the seeds
    ["offer", maker, le8 |id|], the vault as the associated token
    account of mint A owned by that address under Token-2022, and sends
    exactly one [takeOffer] RPC with the seven accounts of the source. *)
Theorem handle_take_offer_request st pk id maker mint_a mint_b offer bump vault vbump :
  publicKey st = Some pk ->
  makerOfferId st = Some (Js.JInt id) -> id <> 0%Z -> (Z.abs id < 2 ^ 53)%Z ->
  Web3.new_public_key (offerMakerAccount st) = ret maker ->
  Web3.new_public_key (tokenMintA st) = ret mint_a ->
  Web3.new_public_key (tokenMintB st) = ret mint_b ->
  Web3.find_program_address_sync (offer_seeds maker (LE.le_encode 8 (Z.abs id))) program_id
    = ret (offer, bump) ->
  Web3.find_program_address_sync [offer; Web3.TOKEN_2022_PROGRAM_ID; mint_a]
    Web3.ASSOCIATED_TOKEN_PROGRAM_ID = ret (vault, vbump) ->
  let rq := {| rq_ix := IxTakeOffer;
               rq_accounts := [("taker", pk); ("maker", maker); ("tokenMintA", mint_a);
                               ("tokenMintB", mint_b);
                               ("tokenProgram", Web3.TOKEN_2022_PROGRAM_ID);
                               ("offer", offer); ("vault", vault)] |} in
  handle_take_offer program_id st =
    ([PreventDefault; Log "offerId"; Log "accounts"; Log "Taking offer..."; SendRpc rq],
     Ok (Awaiting rq)).
Proof.
  intros Hpk Hid Hnz Hbd Hmk Hma Hmb Hoff Hvault rq. unfold handle_take_offer.
  rewrite Hpk, Hid. cbn [Js.truthy Js.truthy_num Js.bn_of_nullable Js.bn_of_jnum].
  rewrite (proj2 (Z.eqb_neq id 0) Hnz), (proj2 (Z.ltb_lt _ _) Hbd).
  cbn [negb]. rewrite Hmk. cbn [bind of_option ret emit].
  rewrite (LE.to_array_like_le_fits id 8) by (try discriminate; cbn; lia).
  cbn [bind of_option ret]. rewrite Hoff.
  cbn [bind ret fst]. rewrite Hma. cbn [bind ret].
  rewrite Web3.get_ata_allow_off_curve, Hvault. cbn [bind ret fst].
  rewrite Hmb. reflexivity.
Qed.

Lemma take_id_bytes m v :
  of_option BNAssertion (Js.bn_of_nullable m) = ret v ->
  of_option ByteArrayTooLong (LE.to_array_like_le v 8) = ret (LE.le_encode 8 (Z.abs v)).
Proof.
  intros H. apply of_option_ret, Js.bn_of_nullable_bound in H.
  rewrite LE.to_array_like_le_fits by (try discriminate; cbn; lia). reflexivity.
Qed.

(** The offer seeds the taker builds are 5, 32 and 8 bytes long, within
    the 32-byte limit of [createProgramAddressSync]. *)
Lemma offer_seeds_fit maker z :
  List.length maker = 32%nat -> Web3.seeds_fit (offer_seeds maker (LE.le_encode 8 z)).
Proof.
  intros Hm. unfold Web3.seeds_fit, Web3.MAX_SEED_LENGTH, offer_seeds.
  repeat (apply Forall_cons; [rewrite ?Hm, ?LE.length_le_encode; cbn; lia|]). apply Forall_nil.
Qed.

(** C12: The errors [handleTakeOffer] can throw before its [await]: a key
    that does not parse, an id [new BN] refuses, or a derivation that
    runs out of nonces.  The id always fits its 8 bytes, the seeds their
    32-byte limit, and the vault owner is accepted off the curve, so
    [ByteArrayTooLong], [MaxSeedLengthExceeded] and [TokenOwnerOffCurve]
    never occur. *)
Theorem handle_take_offer_errors st e :
  result_of (handle_take_offer program_id st) = Err e ->
  (exists s, e = InvalidPublicKey s) \/ e = BNAssertion \/ e = NoViableBump.
Proof.
  unfold handle_take_offer.
  destruct (publicKey st); [|discriminate].
  destruct (Js.truthy (makerOfferId st)); [|discriminate].
  run_handler; cbn [result_of snd]; intros Hr; try discriminate Hr; injection Hr as <-;
    match goal with
    | E : Web3.new_public_key ?s = throw _ |- _ =>
        left; exists s; exact (Web3.new_public_key_err _ _ E)
    | E : of_option BNAssertion _ = throw _ |- _ =>
        right; left; exact (proj1 (of_option_throw _ _ _ E))
    | E : of_option ByteArrayTooLong _ = throw _, Eb : of_option BNAssertion _ = ret _ |- _ =>
        rewrite (take_id_bytes _ _ Eb) in E; discriminate E
    | E : Web3.find_program_address_sync _ _ = throw _,
      Eb : of_option BNAssertion _ = ret _,
      Ei : of_option ByteArrayTooLong _ = ret _,
      Em : Web3.new_public_key _ = ret _ |- _ =>
        rewrite (take_id_bytes _ _ Eb) in Ei; injection Ei as <-;
        right; right; eapply Web3.find_program_address_sync_fit_err; [|exact E];
        apply offer_seeds_fit; exact (Web3.new_public_key_length _ _ Em)
    | E : Web3.get_associated_token_address_sync _ _ true _ = throw _,
      Ep : Web3.find_program_address_sync _ _ = ret _,
      Ea : Web3.new_public_key (tokenMintA st) = ret _ |- _ =>
        right; right; eapply Web3.get_ata_fit_err; [| | |exact E];
        [exact (Web3.new_public_key_length _ _ Ea)
        |exact (Web3.find_program_address_sync_length _ _ _ Ep)
        |apply Web3.token_2022_program_id_length]
    end.
Qed.

Lemma truthy_bn_of_nullable x v :
  Js.truthy x = true -> Js.bn_of_nullable x = Some v -> x = Some (Js.JInt v).
Proof.
  destruct x as [[|z]|]; cbn; try discriminate.
  intros _. case_match_goal; [now intros [= ->] | intros [=]].
Qed.

(** Every RPC [handleMakeOffer] sends is a [makeOffer] carrying the
    component's [offerId]. *)
(** The request of a [handleMakeOffer] that reaches its [await]: the
    wallet's key, the BN of the offer id, the two amounts and the keys of
    the typed mints; the handler called [preventDefault] first. *)
Lemma handle_make_offer_awaiting st l rq :
  handle_make_offer st = (l, Ok (Awaiting rq)) ->
  exists pk id a b mint_a mint_b,
    publicKey st = Some pk /\ Js.bn_of_nullable (offerId st) = Some id /\
    Web3.new_public_key (tokenMintA st) = ret mint_a /\
    Web3.new_public_key (tokenMintB st) = ret mint_b /\
    rq = {| rq_ix := IxMakeOffer id a b;
            rq_accounts := [("maker", pk); ("tokenMintA", mint_a); ("tokenMintB", mint_b);
                            ("tokenProgram", Web3.TOKEN_2022_PROGRAM_ID)] |} /\
    l = [PreventDefault; Log "Making offer..."; Log "Offer Id:"; SendRpc rq].
Proof.
  unfold handle_make_offer.
  destruct (publicKey st) as [pk|]; [|cbn; intros H; inversion H].
  destruct (Js.truthy (offerId st)); [|cbn; intros H; inversion H].
  run_handler; intros H; inversion H; subst.
  do 6 eexists. repeat split; try eassumption. now apply of_option_ret in E.
Qed.

Lemma handle_make_offer_sent_id st rq :
  In (SendRpc rq) (effects_of (handle_make_offer st)) ->
  exists id a b, rq_ix rq = IxMakeOffer id a b /\ offerId st = Some (Js.JInt id).
Proof.
  unfold handle_make_offer.
  destruct (publicKey st); [|cbn; intuition discriminate].
  destruct (Js.truthy (offerId st)) eqn:Ht; [|cbn; intuition discriminate].
  run_handler; cbn [effects_of fst]; intros Hin; repeat (destruct Hin as [Hin|Hin]; try discriminate);
    try contradiction.
  injection Hin as <-. do 3 eexists. split; [reflexivity|].
  apply truthy_bn_of_nullable; [exact Ht|]. now apply of_option_ret in E.
Qed.

(** Every RPC [handleTakeOffer] sends is a [takeOffer]. *)
(** The request of a [handleTakeOffer] that reaches its [await]: the
    wallet's key, the typed maker and mints, and the offer and vault
    addresses derived from them and the BN of the typed id. *)
Lemma handle_take_offer_awaiting st l rq :
  handle_take_offer program_id st = (l, Ok (Awaiting rq)) ->
  exists pk maker id pda mint_a mint_b vault,
    publicKey st = Some pk /\ Web3.new_public_key (offerMakerAccount st) = ret maker /\
    Js.bn_of_nullable (makerOfferId st) = Some id /\
    Web3.find_program_address_sync (offer_seeds maker (LE.le_encode 8 (Z.abs id))) program_id
      = ret pda /\
    Web3.new_public_key (tokenMintA st) = ret mint_a /\
    Web3.new_public_key (tokenMintB st) = ret mint_b /\
    Web3.get_associated_token_address_sync mint_a (fst pda) true Web3.TOKEN_2022_PROGRAM_ID
      = ret vault /\
    rq = {| rq_ix := IxTakeOffer;
            rq_accounts := [("taker", pk); ("maker", maker); ("tokenMintA", mint_a);
                            ("tokenMintB", mint_b); ("tokenProgram", Web3.TOKEN_2022_PROGRAM_ID);
                            ("offer", fst pda); ("vault", vault)] |}.
Proof.
  unfold handle_take_offer.
  destruct (publicKey st) as [pk|]; [|intros H; cbn [bind emit ret] in H; inversion H].
  destruct (Js.truthy (makerOfferId st)); [|intros H; cbn [bind emit ret] in H; inversion H].
  run_handler; intros H; inversion H; subst.
  match goal with
  | Hi : of_option BNAssertion _ = ret ?v, Hb : of_option ByteArrayTooLong _ = ret _ |- _ =>
      rewrite (take_id_bytes _ _ Hi) in Hb; injection Hb as <-; apply of_option_ret in Hi
  end.
  repeat match goal with
  | H1 : Web3.new_public_key ?s = ret ?a, H2 : Web3.new_public_key ?s = ret ?b |- _ =>
      assert (a = b) by congruence; subst b; clear H2
  end.
  do 7 eexists. repeat split; eassumption.
Qed.

Lemma handle_take_offer_sent_take st rq :
  In (SendRpc rq) (effects_of (handle_take_offer program_id st)) -> rq_ix rq = IxTakeOffer.
Proof.
  unfold handle_take_offer.
  destruct (publicKey st); [|cbn; intuition discriminate].
  destruct (Js.truthy (makerOfferId st)); [|cbn; intuition discriminate].
  run_handler; cbn [effects_of fst]; intros Hin; repeat (destruct Hin as [Hin|Hin]; try discriminate);
    try contradiction.
  now injection Hin as <-.
Qed.

(** C16: A connected maker whose eight random bytes are a multiple of
    [MAX_SAFE_INTEGER] gets the id 0, which the guard [!offerId] reads
    as a missing id: the handler tells a connected user to connect the
    wallet, and since the id is drawn once per mount no offer can be
    made until the page is reloaded. *)
Theorem zero_offer_id_blocks_make_offer st rnd pk :
  publicKey st = Some pk -> List.length rnd = 8%nat ->
  (LE.le_decode rnd mod Js.MAX_SAFE_INTEGER = 0)%Z ->
  exists id, generate_random_id rnd = ret id /\
             handle_make_offer (set_offer_id id st) = ([Alert connect_wallet_msg], Ok Returned).
Proof.
  intros Hpk Hl H0. destruct (random_id_safe rnd Hl) as [Hg _].
  rewrite H0 in Hg. exists (Js.JInt 0). split; [exact Hg|].
  apply make_offer_guard_alert. right. reflexivity.
Qed.

End HandlerTheorems.

(** ** Witnesses: the theorems above at concrete inputs, with the
    stand-in cryptography of [Web3.toy_crypto] *)

Lemma handle_make_offer_guard_witness :
  let st := set_public_key None (initial_state None) in
  (publicKey st = None \/ Js.truthy (offerId st) = false) /\
  handle_make_offer (crypto := Web3.toy_crypto) st = ([Alert connect_wallet_msg], Ok Returned).
Proof.
  intros st. split; [left; reflexivity|]. apply handle_make_offer_guard. left; reflexivity.
Defined.

Lemma handle_make_offer_request_witness :
  let st := {| publicKey := Some (repeat Byte.x07 32); activeTab := "make";
               tokenMintA := "AAAAAAAAAAAAAAAAAAAAAAAAAAAAAAAA";
               tokenMintB := "BBBBBBBBBBBBBBBBBBBBBBBBBBBBBBBB";
               tokenASwapAmount := Js.parse_float "1.5"; tokenBSwapAmount := Js.parse_float "2";
               offerMakerAccount := ""; offerId := Some (Js.JInt 42); makerOfferId := None |} in
  Js.bn_of_number (PrimFloat.mul (tokenASwapAmount st) (Js.float_of_Z 100)) = Some 150%Z /\
  Js.bn_of_number (PrimFloat.mul (tokenBSwapAmount st) (Js.float_of_Z LAMPORTS_PER_SOL))
    = Some 2000000000%Z /\
  handle_make_offer (crypto := Web3.toy_crypto) st =
    ([PreventDefault; Log "Making offer..."; Log "Offer Id:";
      SendRpc {| rq_ix := IxMakeOffer 42 150 2000000000;
                 rq_accounts := [("maker", repeat Byte.x07 32);
                                 ("tokenMintA", list_byte_of_string "AAAAAAAAAAAAAAAAAAAAAAAAAAAAAAAA");
                                 ("tokenMintB", list_byte_of_string "BBBBBBBBBBBBBBBBBBBBBBBBBBBBBBBB");
                                 ("tokenProgram", repeat Byte.x02 32)] |}],
     Ok (Awaiting {| rq_ix := IxMakeOffer 42 150 2000000000;
                 rq_accounts := [("maker", repeat Byte.x07 32);
                                 ("tokenMintA", list_byte_of_string "AAAAAAAAAAAAAAAAAAAAAAAAAAAAAAAA");
                                 ("tokenMintB", list_byte_of_string "BBBBBBBBBBBBBBBBBBBBBBBBBBBBBBBB");
                                 ("tokenProgram", repeat Byte.x02 32)] |})).
Proof.
  intros st. split; [vm_compute; reflexivity|]. split; [vm_compute; reflexivity|].
  apply (@handle_make_offer_request Web3.toy_crypto st (repeat Byte.x07 32) 42 150 2000000000
           (list_byte_of_string "AAAAAAAAAAAAAAAAAAAAAAAAAAAAAAAA")
           (list_byte_of_string "BBBBBBBBBBBBBBBBBBBBBBBBBBBBBBBB"));
    try reflexivity; try lia; vm_compute; reflexivity.
Defined.

Lemma zero_offer_id_blocks_make_offer_witness :
  let st := set_public_key (Some (repeat Byte.x07 32)) (initial_state None) in
  let rnd := repeat Byte.x00 8 in
  publicKey st = Some (repeat Byte.x07 32) /\ List.length rnd = 8%nat /\
  (LE.le_decode rnd mod Js.MAX_SAFE_INTEGER = 0)%Z /\
  exists id, generate_random_id rnd = ret id /\
    handle_make_offer (crypto := Web3.toy_crypto) (set_offer_id id st)
      = ([Alert connect_wallet_msg], Ok Returned).
Proof.
  intros st rnd. split; [reflexivity|]. split; [reflexivity|]. split; [reflexivity|].
  apply (@zero_offer_id_blocks_make_offer Web3.toy_crypto st rnd (repeat Byte.x07 32));
    reflexivity.
Defined.

Lemma generate_random_id_range_witness :
  let rnd := [Byte.x01; Byte.x00; Byte.x00; Byte.x00; Byte.x00; Byte.x00; Byte.x00; Byte.x80] in
  List.length rnd = 8%nat /\
  generate_random_id rnd = ret (Js.JInt (LE.le_decode rnd mod Js.MAX_SAFE_INTEGER)) /\
  (0 <= LE.le_decode rnd mod Js.MAX_SAFE_INTEGER < Js.MAX_SAFE_INTEGER)%Z.
Proof.
  intros rnd. split; [reflexivity|]. apply generate_random_id_range. reflexivity.
Defined.

Lemma handle_take_offer_guard_witness :
  let st := on_change FMakerOfferId "abc" (set_public_key (Some (repeat Byte.x07 32))
                                             (initial_state None)) in
  (publicKey st = None \/ Js.truthy (makerOfferId st) = false) /\
  handle_take_offer (crypto := Web3.toy_crypto) (repeat Byte.x09 32) st
    = ([Alert connect_wallet_msg], Ok Returned).
Proof.
  intros st. split; [right; reflexivity|].
  apply (@handle_take_offer_guard Web3.toy_crypto). right; reflexivity.
Defined.

Lemma handle_take_offer_request_witness :
  let st := {| publicKey := Some (repeat Byte.x07 32); activeTab := "take";
               tokenMintA := "AAAAAAAAAAAAAAAAAAAAAAAAAAAAAAAA";
               tokenMintB := "BBBBBBBBBBBBBBBBBBBBBBBBBBBBBBBB";
               tokenASwapAmount := Js.float_of_Z 0; tokenBSwapAmount := Js.float_of_Z 0;
               offerMakerAccount := "MMMMMMMMMMMMMMMMMMMMMMMMMMMMMMMM";
               offerId := None; makerOfferId := Some (Js.JInt 42) |} in
  let maker := list_byte_of_string "MMMMMMMMMMMMMMMMMMMMMMMMMMMMMMMM" in
  let mint_a := list_byte_of_string "AAAAAAAAAAAAAAAAAAAAAAAAAAAAAAAA" in
  let mint_b := list_byte_of_string "BBBBBBBBBBBBBBBBBBBBBBBBBBBBBBBB" in
  exists offer vault : Web3.pubkey,
  offer <> vault /\
  handle_take_offer (crypto := Web3.toy_crypto) (repeat Byte.x09 32) st =
    ([PreventDefault; Log "offerId"; Log "accounts"; Log "Taking offer...";
      SendRpc {| rq_ix := IxTakeOffer;
                 rq_accounts := [("taker", repeat Byte.x07 32); ("maker", maker);
                                 ("tokenMintA", mint_a); ("tokenMintB", mint_b);
                                 ("tokenProgram", repeat Byte.x02 32);
                                 ("offer", offer); ("vault", vault)] |}],
     Ok (Awaiting {| rq_ix := IxTakeOffer;
                 rq_accounts := [("taker", repeat Byte.x07 32); ("maker", maker);
                                 ("tokenMintA", mint_a); ("tokenMintB", mint_b);
                                 ("tokenProgram", repeat Byte.x02 32);
                                 ("offer", offer); ("vault", vault)] |})).
Proof.
  intros st maker mint_a mint_b.
  pose (po := Web3.find_program_address_sync (crypto := Web3.toy_crypto)
                (offer_seeds maker (LE.le_encode 8 (Z.abs 42))) (repeat Byte.x09 32)).
  pose (p := match snd po with Ok p => p | Err _ => ([], 0%nat) end).
  assert (Ho : po = ret (fst p, snd p)) by (vm_compute; reflexivity).
  pose (pv := Web3.find_program_address_sync (crypto := Web3.toy_crypto)
                [fst p; @Web3.TOKEN_2022_PROGRAM_ID Web3.toy_crypto; mint_a]
                (@Web3.ASSOCIATED_TOKEN_PROGRAM_ID Web3.toy_crypto)).
  pose (q := match snd pv with Ok p => p | Err _ => ([], 0%nat) end).
  assert (Hv : pv = ret (fst q, snd q)) by (vm_compute; reflexivity).
  exists (fst p), (fst q). split.
  - vm_compute. intros H. discriminate H.
  - exact (@handle_take_offer_request Web3.toy_crypto (repeat Byte.x09 32) st
             (repeat Byte.x07 32) 42 maker mint_a mint_b (fst p) (snd p) (fst q) (snd q)
             eq_refl eq_refl ltac:(discriminate) ltac:(cbn; lia) eq_refl eq_refl eq_refl Ho Hv).
Defined.

Lemma handle_take_offer_errors_witness :
  let st := on_change FOfferMakerAccount "not-a-key"
              (on_change FMakerOfferId "42" (set_public_key (Some (repeat Byte.x07 32))
                                                (initial_state None))) in
  result_of (handle_take_offer (crypto := Web3.toy_crypto) (repeat Byte.x09 32) st)
    = Err (InvalidPublicKey "not-a-key") /\
  ((exists s, InvalidPublicKey "not-a-key" = InvalidPublicKey s) \/
   InvalidPublicKey "not-a-key" = BNAssertion \/ InvalidPublicKey "not-a-key" = NoViableBump).
Proof.
  intros st. split; [vm_compute; reflexivity|].
  apply (@handle_take_offer_errors Web3.toy_crypto (repeat Byte.x09 32) st).
  vm_compute; reflexivity.
Defined.

End Form.
