(* ===== verification/SwapUI.v ===== *)
(** [SwapComponent] as a state machine over the events of the page.

    The component's state ([Form.form_state]) is only part of what the
    user sees: the inputs of the two forms are uncontrolled (no [value]
    prop), so the browser keeps their text.  Both forms are a [<form>] at
    the same place of the JSX ternary (swap.tsx:148-250), with four
    [<div><label/><input/></div>] children each; React reconciles them by
    position and keeps the same four [<input>] elements when the tab
    changes, updating only their props ([type], [placeholder],
    [onChange]).  The model therefore keeps the DOM values by position
    ([dom]), sanitised when an input becomes [type="number"].

    [ui_state] adds to the component's state the DOM values, the number
    inputs that hold a bad input (typed text that is not a number, whose
    value is the empty string), whether the mount effect ran, and the RPCs
    being awaited.  [step] is one event: the mount effect, a wallet
    change, typing into an input, a tab click, a submit click (the
    [onClick] handler up to its [await], then the button's default action
    when [preventDefault] was not called: the browser's constraint
    validation, [badInput], [min="0"] and the default [step] of 1, and,
    for a valid form, a page load that discards everything), and the
    settlement of an awaited RPC.  [run] folds [step] over a list of events, so interleavings of
    clicks and settlements are explicit.  [render] is the JSX's view. *)

From Stdlib Require Import String Ascii ZArith List Lia Bool PrimFloat SpecFloat FloatOps.
From S2P Require Import Prelude Bytes JsValue Effects Web3 SwapForm.
Import ListNotations Eff Eff.Notations Form.
Import (hints) Web3.

Local Open Scope string_scope.
Local Open Scope list_scope.
Local Open Scope swap_scope.

Module UI.

(** ** The inputs by position *)

Inductive tab_button : Type :=
| MakeTab
| TakeTab.

Definition tab_name (b : tab_button) : string :=
  match b with
  | MakeTab => "make"
  | TakeTab => "take"
  end.

(** The field each of the four inputs of the displayed form sets. *)
Definition form_fields (tab : string) : list field :=
  if String.eqb tab "make"
  then [FTokenMintA; FTokenMintB; FTokenASwapAmount; FTokenBSwapAmount]
  else [FOfferMakerAccount; FMakerOfferId; FTokenMintA; FTokenMintB].

(** The two amount inputs of the make form are [type="number"]. *)
Definition is_number_input (tab : string) (pos : nat) : bool :=
  String.eqb tab "make" && (2 <=? pos)%nat.

(** ** Valid floating-point number strings (HTML) *)

Definition is_digit_char (c : ascii) : bool :=
  let n := Ascii.nat_of_ascii c in ((48 <=? n) && (n <=? 57))%nat.

Fixpoint digits_then (s : string) : nat * string :=
  match s with
  | String c r => if is_digit_char c then let '(n, r') := digits_then r in (S n, r') else (O, s)
  | EmptyString => (O, EmptyString)
  end.

(** An exponent [e|E [+|-] digits] to the end of the string. *)
Definition valid_exponent (s : string) : bool :=
  match s with
  | EmptyString => true
  | String c r =>
      ((c =? "e")%char || (c =? "E")%char) &&
      (let r1 := match r with
                 | String "+" r' => r'
                 | String "-" r' => r'
                 | _ => r
                 end in
       let '(n, rest) := digits_then r1 in
       (1 <=? n)%nat && String.eqb rest "")
  end.

(** [-]? (digits [. digits]? | . digits) exponent? *)
Definition valid_float_string (s : string) : bool :=
  let s1 := match s with String "-" r => r | _ => s end in
  let '(n1, r1) := digits_then s1 in
  match r1 with
  | String "." r2 =>
      let '(n2, r3) := digits_then r2 in
      (1 <=? n2)%nat && valid_exponent r3
  | _ => (1 <=? n1)%nat && valid_exponent r1
  end.

(** The value sanitisation of [type="number"]: anything but a valid
    floating-point number becomes the empty string. *)
Definition sanitize_number (v : string) : string :=
  if valid_float_string v then v else "".

(** The DOM values after the inputs take the types of [tab]. *)
Definition retype (tab : string) (dom : list string) : list string :=
  map (fun '(pos, v) => if is_number_input tab pos then sanitize_number v else v)
      (combine (seq 0 (length dom)) dom).

(** Constraint validation of the make form's amount inputs
    ([type="number"], [min="0"], no [step], so [step=1] with the step base
    [min]): an empty value is valid (the inputs are not [required]); a
    value below 0 suffers from a range underflow; a value that is not an
    integral number of steps from 0 suffers from a step mismatch. *)
Definition amount_in_range (v : string) : bool :=
  String.eqb v "" || negb (PrimFloat.ltb (Js.parse_float v) (Js.float_of_Z 0)).

(** [x] is an integer: a whole number of steps of 1 from the base 0. *)
Definition is_integral (x : float) : bool :=
  match Prim2SF x with
  | S754_zero _ => true
  | S754_finite _ m e => (0 <=? e)%Z || (Z.pos m mod 2 ^ (- e) =? 0)%Z
  | _ => false
  end.

Definition amount_step_ok (v : string) : bool :=
  String.eqb v "" || is_integral (Js.parse_float v).

(** The make form is valid when neither amount input has a bad input (a
    typed text that is not a number: [validity.badInput]), a range
    underflow or a step mismatch.  The take form has no constraints. *)
Definition form_valid (tab : string) (dom : list string) (bad : list nat) : bool :=
  if String.eqb tab "make"
  then forallb (fun pos => negb (existsb (Nat.eqb pos) bad) &&
                           amount_in_range (nth pos dom "") && amount_step_ok (nth pos dom ""))
               [2; 3]%nat
  else true.

(** The positions of the number inputs whose text is a bad input, after
    the user typed [v] into position [pos]. *)
Definition set_bad_input (tab : string) (pos : nat) (v : string) (bad : list nat) : list nat :=
  if is_number_input tab pos
  then let others := filter (fun p => negb (Nat.eqb p pos)) bad in
       if valid_float_string v then others else pos :: others
  else bad.

(** ** The page *)

Record ui_state : Type := {
  form : form_state;
  dom : list string;                      (** the four inputs' values, by position *)
  mounted : bool;                         (** the mount effect has run *)
  inflight : list (string * rpc_request); (** awaited RPCs and their log label *)
  bad_input : list nat                    (** number inputs holding a bad input *)
}.

(** A page just loaded: the component's initial state, empty inputs, no
    wallet yet (the adapter reconnects later), nothing awaited. *)
Definition fresh_page : ui_state := {|
  form := initial_state None; dom := [""; ""; ""; ""]; mounted := false; inflight := [];
  bad_input := [] |}.

Inductive ui_event : Type :=
| Mount (rnd : list Byte.byte)           (** [useEffect(..., [])] with the random bytes *)
| WalletChange (pk : option Web3.pubkey) (** [useWallet().publicKey] changes *)
| Input (pos : nat) (v : string)         (** the user edits input [pos] to [v] *)
| ClickTab (b : tab_button)
| SubmitMake
| SubmitTake
| Settle (i : nat) (r : outcome string). (** the [i]-th awaited RPC settles *)

Definition with_form (f : form_state) (s : ui_state) : ui_state :=
  {| form := f; dom := dom s; mounted := mounted s; inflight := inflight s;
     bad_input := bad_input s |}.

Definition is_prevent_default (ef : effect) : bool :=
  match ef with PreventDefault => true | _ => false end.

(** A click on a submit button: the handler's synchronous part, then the
    form's default action unless [preventDefault] was called or the
    form is invalid.  An awaited RPC joins [inflight]; an error thrown
    before the [await] rejects the handler's promise, which nothing
    handles. *)
Definition submit (label : string) (c : M sync_end) (s : ui_state) : ui_state * list effect :=
  let '(w, r) := c in
  let w' := match r with Err e => w ++ [UnhandledRejection e] | Ok _ => w end in
  let s1 := match r with
            | Ok (Awaiting rq) =>
                {| form := form s; dom := dom s; mounted := mounted s;
                   inflight := inflight s ++ [(label, rq)]; bad_input := bad_input s |}
            | _ => s
            end in
  if existsb is_prevent_default w || negb (form_valid (activeTab (form s)) (dom s) (bad_input s))
  then (s1, w')
  else (fresh_page, w' ++ [NativeSubmit]).

Section Step.
Context {crypto : Web3.Crypto}.
Variable program_id : Web3.pubkey.

(** One event; [None] when it cannot happen in this state (the mount
    effect runs once, only the four inputs exist, only awaited RPCs
    settle). *)
Definition step (s : ui_state) (ev : ui_event) : option (ui_state * list effect) :=
  match ev with
  | Mount rnd =>
      if mounted s then None
      else match generate_random_id rnd with
           | (w, Ok id) =>
               Some ({| form := set_offer_id id (form s); dom := dom s; mounted := true;
                        inflight := inflight s; bad_input := bad_input s |}, w)
           | (_, Err _) => None
           end
  | WalletChange pk => Some (with_form (set_public_key pk (form s)) s, [])
  | Input pos v =>
      let tab := activeTab (form s) in
      match nth_error (form_fields tab) pos with
      | Some f =>
          let v' := if is_number_input tab pos then sanitize_number v else v in
          Some ({| form := on_change f v' (form s); dom := firstn pos (dom s) ++ v' :: skipn (S pos) (dom s);
                   mounted := mounted s; inflight := inflight s;
                   bad_input := set_bad_input tab pos v (bad_input s) |}, [])
      | None => None
      end
  | ClickTab b =>
      let t := tab_name b in
      if String.eqb t (activeTab (form s)) then Some (s, [])
      else Some ({| form := set_active_tab t (form s); dom := retype t (dom s);
                    mounted := mounted s; inflight := inflight s; bad_input := [] |}, [])
  | SubmitMake =>
      if String.eqb (activeTab (form s)) "make"
      then Some (submit "Offer made:" (handle_make_offer (form s)) s) else None
  | SubmitTake =>
      if String.eqb (activeTab (form s)) "make"
      then None else Some (submit "Offer taken:" (handle_take_offer program_id (form s)) s)
  | Settle i r =>
      match nth_error (inflight s) i with
      | Some (label, _) =>
          Some ({| form := form s; dom := dom s; mounted := mounted s;
                   inflight := firstn i (inflight s) ++ skipn (S i) (inflight s);
                   bad_input := bad_input s |},
                after_rpc label r)
      | None => None
      end
  end.

(** A sequence of events, with the effects in the order they happen. *)
Fixpoint run (s : ui_state) (evs : list ui_event) : option (ui_state * list effect) :=
  match evs with
  | [] => Some (s, [])
  | ev :: evs' =>
      match step s ev with
      | Some (s1, w1) =>
          match run s1 evs' with
          | Some (s2, w2) => Some (s2, w1 ++ w2)
          | None => None
          end
      | None => None
      end
  end.

(** The states a page reaches from a fresh load. *)
Inductive reachable : ui_state -> Prop :=
| reach_fresh : reachable fresh_page
| reach_step s ev s' w : reachable s -> step s ev = Some (s', w) -> reachable s'.

End Step.

(** ** The view (swap.tsx:113-130) *)

Inductive wallet_control : Type :=
| ShowWalletButton            (** [<WalletButton />]: connect *)
| ShowDisconnectButton.       (** [<WalletDisconnectButton />] *)

Record view : Type := {
  v_wallet : wallet_control;
  v_banner : option string;   (** ["OfferId : " ++ offerId] on the make tab *)
  v_fields : list field;      (** what the four inputs are labelled as *)
  v_values : list string      (** what they show *)
}.

(** React renders [null] as nothing. *)
Definition render_offer_id (x : option Js.jnum) : string :=
  match x with
  | Some (Js.JInt z) => Js.number_to_string z
  | Some Js.JNaN => "NaN"
  | None => ""
  end.

Definition render (s : ui_state) : view := {|
  v_wallet := match publicKey (form s) with
              | Some _ => ShowDisconnectButton
              | None => ShowWalletButton
              end;
  v_banner := if String.eqb (activeTab (form s)) "make"
              then Some ("OfferId : " ++ render_offer_id (offerId (form s)))%string
              else None;
  v_fields := form_fields (activeTab (form s));
  v_values := dom s |}.

(** ** Fixtures for the witnesses: a maker's page, mounted with the id
    42, a wallet and a filled make form; a taker's page on the take tab *)

Definition demo_pk : Web3.pubkey := repeat Byte.x07 32.
Definition demo_mint_a : string := "AAAAAAAAAAAAAAAAAAAAAAAAAAAAAAAA".
Definition demo_mint_b : string := "BBBBBBBBBBBBBBBBBBBBBBBBBBBBBBBB".

Definition demo_maker_page : ui_state := {|
  form := on_change FTokenBSwapAmount "2" (on_change FTokenASwapAmount "1.5"
            (on_change FTokenMintB demo_mint_b (on_change FTokenMintA demo_mint_a
              (set_offer_id (Js.JInt 42) (set_public_key (Some demo_pk) (initial_state None))))));
  dom := [demo_mint_a; demo_mint_b; "1.5"; "2"]; mounted := true; inflight := []; bad_input := [] |}.

Definition demo_taker_page : ui_state := {|
  form := set_active_tab "take" (set_offer_id (Js.JInt 7) (set_public_key (Some demo_pk)
                                                            (initial_state None)));
  dom := [""; ""; ""; ""]; mounted := true; inflight := []; bad_input := [] |}.

(** ** Theorems on the page *)

Lemma on_change_offerId f v st : offerId (on_change f v st) = offerId st.
Proof. destruct st, f; reflexivity. Qed.

Lemma submit_cases label c s s1 w :
  submit label c s = (s1, w) ->
  (In NativeSubmit w /\ s1 = fresh_page) \/
  (form s1 = form s /\ mounted s1 = mounted s /\
   forall ef, In ef w -> In ef (effects_of c) \/ exists e, ef = UnhandledRejection e).
Proof.
  unfold submit. destruct c as [w0 r].
  set (w' := match r with Err e => (w0 ++ [UnhandledRejection e])%list | Ok _ => w0 end).
  assert (Hw' : forall ef, In ef w' -> In ef w0 \/ exists e, ef = UnhandledRejection e).
  { intros ef Hin. subst w'. destruct r; [now left|].
    apply in_app_or in Hin as [Hin|[<-|[]]]; [now left | right; eauto]. }
  destruct (_ || _); intros [= <- <-].
  - right. destruct r as [[|rq]|e]; cbn; repeat split; auto.
  - left. split; [apply in_or_app; right; now left | reflexivity].
Qed.

Lemma retype_text k d :
  map (fun '(pos, v) => if is_number_input "take" pos then sanitize_number v else v)
      (combine (seq k (length d)) d) = d.
Proof. revert k; induction d as [|v d IH]; intros k; [reflexivity|]. cbn. now rewrite IH. Qed.

Lemma generate_random_id_ok rnd w id :
  generate_random_id rnd = (w, Ok id) ->
  exists z, id = Js.JInt z /\ (0 <= z < Js.MAX_SAFE_INTEGER)%Z.
Proof.
  unfold generate_random_id.
  destruct (LE.get_big_uint64_le rnd) as [v|]; cbn [of_option bind ret throw]; [|discriminate].
  intros H. injection H as _ <-. unfold Js.MAX_SAFE_INTEGER.
  pose proof (Z.mod_pos_bound v (2 ^ 53 - 1) ltac:(lia)).
  rewrite Js.round_to_double_small by lia. eexists; split; [reflexivity | lia].
Qed.

Section PageTheorems.
Context {crypto : Web3.Crypto}.
Variable program_id : Web3.pubkey.

(** One event of a mounted page that does not reload it keeps the page
    mounted and its [offerId], and every [makeOffer] it sends carries
    that id. *)
Lemma step_session s ev s1 w :
  step program_id s ev = Some (s1, w) -> ~ In NativeSubmit w -> mounted s = true ->
  mounted s1 = true /\ offerId (form s1) = offerId (form s) /\
  (forall rq id a b, In (SendRpc rq) w -> rq_ix rq = IxMakeOffer id a b ->
                     offerId (form s) = Some (Js.JInt id)).
Proof.
  intros Hstep Hno Hm. destruct ev as [rnd|pk|pos v|b| | |i r]; cbn [step] in Hstep.
  - rewrite Hm in Hstep. discriminate.
  - injection Hstep as <- <-. repeat split; [exact Hm | intros ? ? ? ? []].
  - destruct (nth_error _ pos); [|discriminate]. injection Hstep as <- <-.
    repeat split; [exact Hm | apply on_change_offerId | intros ? ? ? ? []].
  - destruct (String.eqb _ _); injection Hstep as <- <-;
      repeat split; (exact Hm || reflexivity || intros ? ? ? ? []).
  - destruct (String.eqb _ _); [|discriminate]. injection Hstep as Hs.
    destruct (submit_cases _ _ _ _ _ Hs) as [[Hin _]|(Hf & Hms & Hw)]; [contradiction|].
    rewrite Hf, Hms. repeat split; [exact Hm|].
    intros rq id a b Hin Hix. destruct (Hw _ Hin) as [Hin'|[e He]]; [|discriminate].
    destruct (handle_make_offer_sent_id _ _ Hin') as (id' & a' & b' & Hix' & Hid).
    rewrite Hix in Hix'. injection Hix' as -> -> ->. exact Hid.
  - destruct (String.eqb _ _); [discriminate|]. injection Hstep as Hs.
    destruct (submit_cases _ _ _ _ _ Hs) as [[Hin _]|(Hf & Hms & Hw)]; [contradiction|].
    rewrite Hf, Hms. repeat split; [exact Hm|].
    intros rq id a b Hin Hix. destruct (Hw _ Hin) as [Hin'|[e He]]; [|discriminate].
    rewrite (handle_take_offer_sent_take _ _ _ Hin') in Hix. discriminate.
  - destruct (nth_error _ i) as [[label rq0]|]; [|discriminate]. injection Hstep as <- <-.
    repeat split; [exact Hm|]. intros rq id a b Hin.
    destruct r; cbn in Hin; intuition discriminate.
Qed.

(** C8: One offer id per page load: along any sequence of events of a
    mounted page that does not reload it, every [makeOffer] RPC carries
    the page's [offerId], which does not change.  A second offer made from
    the same page reuses the id, hence the offer address, of the first. *)
Theorem make_offer_ids_per_session s evs s' w :
  run program_id s evs = Some (s', w) -> ~ In NativeSubmit w -> mounted s = true ->
  offerId (form s') = offerId (form s) /\
  (forall rq id a b, In (SendRpc rq) w -> rq_ix rq = IxMakeOffer id a b ->
                     offerId (form s) = Some (Js.JInt id)).
Proof.
  revert s w; induction evs as [|ev evs IH]; intros s w Hrun Hno Hm; cbn [run] in Hrun.
  - injection Hrun as <- <-. split; [reflexivity | intros ? ? ? ? []].
  - destruct (step program_id s ev) as [[s1 w1]|] eqn:Hs; [|discriminate].
    destruct (run program_id s1 evs) as [[s2 w2]|] eqn:Hr; [|discriminate].
    injection Hrun as <- <-.
    assert (Hno1 : ~ In NativeSubmit w1) by (intros H; apply Hno, in_or_app; now left).
    assert (Hno2 : ~ In NativeSubmit w2) by (intros H; apply Hno, in_or_app; now right).
    destruct (step_session _ _ _ _ Hs Hno1 Hm) as (Hm1 & Hid1 & Hw1).
    destruct (IH _ _ Hr Hno2 Hm1) as (Hid2 & Hw2).
    split; [congruence|].
    intros rq id a b Hin Hix. apply in_app_or in Hin as [Hin|Hin]; [eauto|].
    rewrite <- Hid1. eauto.
Qed.

(** C21: The page's id is [null] until the mount effect runs and a safe
    integer in [[0, MAX_SAFE_INTEGER)] from then on, in every reachable
    state. *)
Theorem reachable_offer_id s :
  reachable program_id s ->
  (mounted s = false /\ offerId (form s) = None) \/
  (mounted s = true /\ exists id, offerId (form s) = Some (Js.JInt id) /\
                                  (0 <= id < Js.MAX_SAFE_INTEGER)%Z).
Proof.
  induction 1 as [|s ev s' w _ IH Hstep]; [left; split; reflexivity|].
  destruct ev as [rnd|pk|pos v|b| | |i r]; cbn [step] in Hstep.
  - destruct (mounted s); [discriminate|].
    destruct (generate_random_id rnd) as [w0 [id|e]] eqn:Hg; [|discriminate].
    injection Hstep as <- <-. right. split; [reflexivity|].
    destruct (generate_random_id_ok _ _ _ Hg) as (z & -> & Hz). now exists z.
  - injection Hstep as <- <-. exact IH.
  - destruct (nth_error _ pos); [|discriminate]. injection Hstep as <- <-.
    cbn. now rewrite on_change_offerId.
  - destruct (String.eqb _ _); injection Hstep as <- <-; exact IH.
  - destruct (String.eqb _ _); [|discriminate]. injection Hstep as Hs.
    destruct (submit_cases _ _ _ _ _ Hs) as [[_ ->]|(Hf & Hms & _)];
      [left; split; reflexivity | now rewrite Hf, Hms].
  - destruct (String.eqb _ _); [discriminate|]. injection Hstep as Hs.
    destruct (submit_cases _ _ _ _ _ Hs) as [[_ ->]|(Hf & Hms & _)];
      [left; split; reflexivity | now rewrite Hf, Hms].
  - destruct (nth_error _ i) as [[label rq0]|]; [|discriminate]. injection Hstep as <- <-.
    exact IH.
Qed.


Lemma step_submit_make_awaiting s w rq :
  activeTab (form s) = "make" ->
  handle_make_offer (form s) = (w, Ok (Awaiting rq)) ->
  step program_id s SubmitMake =
    Some ({| form := form s; dom := dom s; mounted := mounted s;
             inflight := inflight s ++ [("Offer made:", rq)]; bad_input := bad_input s |}, w).
Proof.
  intros Htab Hh.
  assert (Hw : w = [PreventDefault; Log "Making offer..."; Log "Offer Id:"; SendRpc rq]).
  { destruct (make_offer_runs (form s)) as [H|[[rq' H]|[e H]]]; rewrite Hh in H;
      inversion H; subst; reflexivity. }
  cbn [step]. rewrite Htab. cbn [String.eqb Ascii.eqb Bool.eqb].
  unfold submit. rewrite Hh, Hw. reflexivity.
Qed.

(** C19: Nothing disables the submit button while an RPC is awaited: two
    clicks send the same [makeOffer] twice and both are awaited. *)
Theorem double_submit_sends_twice s w rq :
  activeTab (form s) = "make" ->
  handle_make_offer (form s) = (w, Ok (Awaiting rq)) ->
  run program_id s [SubmitMake; SubmitMake] =
    Some ({| form := form s; dom := dom s; mounted := mounted s;
             inflight := inflight s ++ [("Offer made:", rq); ("Offer made:", rq)];
             bad_input := bad_input s |}, w ++ w).
Proof.
  intros Htab Hh. cbn [run]. rewrite (step_submit_make_awaiting s w rq Htab Hh).
  rewrite (step_submit_make_awaiting
             {| form := form s; dom := dom s; mounted := mounted s;
                inflight := inflight s ++ [("Offer made:", rq)]; bad_input := bad_input s |}
             w rq Htab Hh).
  cbn [inflight]. rewrite <- app_assoc, app_nil_r. reflexivity.
Qed.

(** C17: The two forms share their four [<input>] elements: after a switch
    from the make tab to the take tab, the take form shows the text typed
    into the make form, under the labels Offer Maker Account, Offer Id,
    Token Mint A and Token Mint B, while the component's state for those
    fields is what it was. *)
Theorem tab_switch_keeps_input_text s :
  activeTab (form s) = "make" ->
  exists s', step program_id s (ClickTab TakeTab) = Some (s', []) /\
    v_fields (render s') = [FOfferMakerAccount; FMakerOfferId; FTokenMintA; FTokenMintB] /\
    v_values (render s') = dom s /\
    form s' = set_active_tab "take" (form s).
Proof.
  intros Htab. cbn [step tab_name]. rewrite Htab. cbn [String.eqb Ascii.eqb Bool.eqb].
  eexists; split; [reflexivity|]. split; [reflexivity|]. split; [|reflexivity].
  apply retype_text.
Qed.

(** C20: An awaited RPC that rejects is reported only as an unhandled
    rejection: no alert, no toast, the form as it was. *)
Theorem rejected_rpc_is_silent s i label rq e :
  nth_error (inflight s) i = Some (label, rq) ->
  exists s', step program_id s (Settle i (Err e)) = Some (s', [UnhandledRejection e]) /\
             form s' = form s /\ length (inflight s') = pred (length (inflight s)).
Proof.
  intros Hi. cbn [step]. rewrite Hi. eexists; split; [reflexivity|]. split; [reflexivity|].
  cbn [inflight]. pose proof (nth_error_Some (inflight s) i) as Hl.
  rewrite Hi in Hl. assert (i < length (inflight s))%nat by (apply Hl; discriminate).
  rewrite length_app, length_firstn, length_skipn. lia.
Qed.

(** C18: The taker reads the id off the maker's banner: typing the banner's
    number into the Offer Id input sets [makerOfferId] to the maker's
    [offerId]. *)
Theorem banner_id_read_back s t id :
  activeTab (form s) = "make" -> offerId (form s) = Some (Js.JInt id) ->
  (0 <= id < Js.MAX_SAFE_INTEGER)%Z -> activeTab (form t) = "take" ->
  exists str t', v_banner (render s) = Some ("OfferId : " ++ str)%string /\
                 step program_id t (Input 1 str) = Some (t', []) /\
                 makerOfferId (form t') = Some (Js.JInt id).
Proof.
  intros Hs Hid Hb Ht. exists (Js.number_to_string id).
  cbn [step]. rewrite Ht. cbn [form_fields String.eqb Ascii.eqb Bool.eqb nth_error is_number_input].
  eexists; split; [|split; [reflexivity|]].
  - unfold render. rewrite Hs, Hid. reflexivity.
  - destruct (form t); cbn. rewrite Js.parse_int_to_string_safe; [reflexivity|].
    unfold Js.MAX_SAFE_INTEGER in Hb. lia.
Qed.

(** Typing [v] into the TokenA Swap Amount input, then clicking Create
    Offer on a page with a wallet, a truthy id and parsable mints, sends
    the [makeOffer] whose amount A is [new BN] of the input's value
    times 100. *)
Lemma input_amount_a_then_submit s pk id a b ma mb v :
  activeTab (form s) = "make" -> publicKey (form s) = Some pk ->
  offerId (form s) = Some (Js.JInt id) -> id <> 0%Z -> (Z.abs id < 2 ^ 53)%Z ->
  Js.bn_of_number (PrimFloat.mul (Js.parse_float (sanitize_number v)) (Js.float_of_Z 100))
    = Some a ->
  Js.bn_of_number (PrimFloat.mul (tokenBSwapAmount (form s)) (Js.float_of_Z LAMPORTS_PER_SOL))
    = Some b ->
  Web3.new_public_key (tokenMintA (form s)) = ret ma ->
  Web3.new_public_key (tokenMintB (form s)) = ret mb ->
  exists s' w, run program_id s [Input 2 v; SubmitMake] = Some (s', w) /\
    In (SendRpc {| rq_ix := IxMakeOffer id a b;
                   rq_accounts := [("maker", pk); ("tokenMintA", ma); ("tokenMintB", mb);
                                   ("tokenProgram", Web3.TOKEN_2022_PROGRAM_ID)] |}) w.
Proof.
  intros Htab Hpk Hid Hnz Hbd Ha Hb Hma Hmb.
  set (v' := sanitize_number v).
  set (s1 := {| form := on_change FTokenASwapAmount v' (form s);
                dom := firstn 2 (dom s) ++ v' :: skipn 3 (dom s);
                mounted := mounted s; inflight := inflight s;
                bad_input := set_bad_input "make" 2 v (bad_input s) |}).
  assert (Hstep1 : step program_id s (Input 2 v) = Some (s1, [])).
  { cbn [step]. rewrite Htab. reflexivity. }
  pose proof (make_offer_request_sent (form s1) pk id a b ma mb) as Hh.
  cbn zeta in Hh. destruct s as [f d m fl bd]; cbn [form] in *.
  destruct f; cbn in Htab, Hpk, Hid, Hb, Hma, Hmb, Hh.
  specialize (Hh Hpk Hid Hnz Hbd Ha Hb Hma Hmb).
  assert (Ht : activeTab (form s1) = "make") by exact Htab.
  eexists _, _. split.
  - cbn [run]. rewrite Hstep1, (step_submit_make_awaiting s1 _ _ Ht Hh). reflexivity.
  - cbn. right; right; right; left; reflexivity.
Qed.

(** C13: The amount typed is scaled in binary floating point and truncated by
    [new BN]: a maker typing 0.29 into the TokenA Swap Amount input offers
    28 base units, not 29, because [0.29 * 100] is [28.999999999999996]. *)
Theorem typed_amount_truncated s pk id b ma mb :
  activeTab (form s) = "make" -> publicKey (form s) = Some pk ->
  offerId (form s) = Some (Js.JInt id) -> id <> 0%Z -> (Z.abs id < 2 ^ 53)%Z ->
  Js.bn_of_number (PrimFloat.mul (tokenBSwapAmount (form s)) (Js.float_of_Z LAMPORTS_PER_SOL))
    = Some b ->
  Web3.new_public_key (tokenMintA (form s)) = ret ma ->
  Web3.new_public_key (tokenMintB (form s)) = ret mb ->
  exists s' w rq, run program_id s [Input 2 "0.29"; SubmitMake] = Some (s', w) /\
    In (SendRpc rq) w /\ rq_ix rq = IxMakeOffer id 28 b.
Proof.
  intros Htab Hpk Hid Hnz Hbd Hb Hma Hmb.
  destruct (input_amount_a_then_submit s pk id 28 b ma mb "0.29") as (s' & w & Hrun & Hin);
    try assumption; [vm_compute; reflexivity|].
  eexists s', w, _. split; [exact Hrun|]. split; [exact Hin|reflexivity].
Qed.

(** C14: An amount that cannot be read is offered as 0: when the TokenA
    Swap Amount input is emptied, or holds a text that is not a number
    (a bad input, whose value the browser reports as the empty string),
    [parseFloat] gives NaN, [NaN * 100] is NaN, and [new BN(NaN)] is
    [new BN(NaN || 0)], so the page sends a [makeOffer] of 0 token A.  The
    click's handler runs before any constraint validation and its
    [preventDefault] cancels it, so nothing blocks the request. *)
Theorem unreadable_amount_offers_zero s pk id b ma mb v :
  activeTab (form s) = "make" -> publicKey (form s) = Some pk ->
  offerId (form s) = Some (Js.JInt id) -> id <> 0%Z -> (Z.abs id < 2 ^ 53)%Z ->
  valid_float_string v = false ->
  Js.bn_of_number (PrimFloat.mul (tokenBSwapAmount (form s)) (Js.float_of_Z LAMPORTS_PER_SOL))
    = Some b ->
  Web3.new_public_key (tokenMintA (form s)) = ret ma ->
  Web3.new_public_key (tokenMintB (form s)) = ret mb ->
  exists s' w rq, run program_id s [Input 2 v; SubmitMake] = Some (s', w) /\
    In (SendRpc rq) w /\ rq_ix rq = IxMakeOffer id 0 b.
Proof.
  intros Htab Hpk Hid Hnz Hbd Hv Hb Hma Hmb.
  destruct (input_amount_a_then_submit s pk id 0 b ma mb v) as (s' & w & Hrun & Hin);
    try assumption; [unfold sanitize_number; rewrite Hv; vm_compute; reflexivity|].
  eexists s', w, _. split; [exact Hrun|]. split; [exact Hin|reflexivity].
Qed.

End PageTheorems.

(** ** Witnesses, with the stand-in cryptography *)

Lemma typed_amount_truncated_witness :
  activeTab (form demo_maker_page) = "make" /\
  exists s' w rq, run (crypto := Web3.toy_crypto) demo_pk demo_maker_page [Input 2 "0.29"; SubmitMake]
                    = Some (s', w) /\ In (SendRpc rq) w /\ rq_ix rq = IxMakeOffer 42 28 2000000000.
Proof.
  split; [reflexivity|].
  apply (typed_amount_truncated demo_pk demo_maker_page demo_pk 42 2000000000
           (list_byte_of_string demo_mint_a) (list_byte_of_string demo_mint_b));
    try reflexivity; try lia; vm_compute; reflexivity.
Defined.

Lemma unreadable_amount_offers_zero_witness :
  valid_float_string "1e" = false /\
  exists s' w rq, run (crypto := Web3.toy_crypto) demo_pk demo_maker_page [Input 2 "1e"; SubmitMake]
                    = Some (s', w) /\ In (SendRpc rq) w /\ rq_ix rq = IxMakeOffer 42 0 2000000000.
Proof.
  split; [reflexivity|].
  apply (unreadable_amount_offers_zero demo_pk demo_maker_page demo_pk 42 2000000000
           (list_byte_of_string demo_mint_a) (list_byte_of_string demo_mint_b));
    try reflexivity; try lia; vm_compute; reflexivity.
Defined.

Lemma make_offer_ids_per_session_witness :
  let evs := [SubmitMake; Settle 0 (Ok "sig"); Input 2 "3"; SubmitMake] in
  exists s' w,
    run (crypto := Web3.toy_crypto) demo_pk demo_maker_page evs = Some (s', w) /\
    ~ In NativeSubmit w /\ mounted demo_maker_page = true /\
    offerId (form s') = offerId (form demo_maker_page) /\
    (forall rq id a b, In (SendRpc rq) w -> rq_ix rq = IxMakeOffer id a b ->
                       offerId (form demo_maker_page) = Some (Js.JInt id)).
Proof.
  intros evs.
  destruct (run (crypto := Web3.toy_crypto) demo_pk demo_maker_page evs) as [[s' w]|] eqn:Hrun;
    [|vm_compute in Hrun; discriminate Hrun].
  assert (Hno : ~ In NativeSubmit w)
    by (vm_compute in Hrun; injection Hrun as _ <-; cbn; intuition discriminate).
  exists s', w. split; [reflexivity|]. split; [exact Hno|]. split; [reflexivity|].
  exact (make_offer_ids_per_session demo_pk demo_maker_page evs s' w Hrun Hno eq_refl).
Defined.

Lemma reachable_offer_id_witness :
  let rnd := [Byte.x2a; Byte.x00; Byte.x00; Byte.x00; Byte.x00; Byte.x00; Byte.x00; Byte.x00] in
  let s := {| form := set_offer_id (Js.JInt 42) (initial_state None); dom := [""; ""; ""; ""];
              mounted := true; inflight := []; bad_input := [] |} in
  reachable (crypto := Web3.toy_crypto) demo_pk s /\
  ((mounted s = false /\ offerId (form s) = None) \/
   (mounted s = true /\ exists id, offerId (form s) = Some (Js.JInt id) /\
                                   (0 <= id < Js.MAX_SAFE_INTEGER)%Z)).
Proof.
  intros rnd s.
  assert (Hr : reachable (crypto := Web3.toy_crypto) demo_pk s)
    by (apply (reach_step demo_pk fresh_page (Mount rnd) s []);
        [constructor | vm_compute; reflexivity]).
  split; [exact Hr|]. exact (reachable_offer_id demo_pk s Hr).
Defined.


Lemma double_submit_sends_twice_witness :
  exists w rq,
    activeTab (form demo_maker_page) = "make" /\
    handle_make_offer (crypto := Web3.toy_crypto) (form demo_maker_page) = (w, Ok (Awaiting rq)) /\
    run (crypto := Web3.toy_crypto) demo_pk demo_maker_page [SubmitMake; SubmitMake] =
      Some ({| form := form demo_maker_page; dom := dom demo_maker_page;
               mounted := mounted demo_maker_page;
               inflight := inflight demo_maker_page ++ [("Offer made:", rq); ("Offer made:", rq)];
               bad_input := bad_input demo_maker_page |},
            w ++ w).
Proof.
  destruct (handle_make_offer (crypto := Web3.toy_crypto) (form demo_maker_page))
    as [w [[|rq]|e]] eqn:Hh; [vm_compute in Hh; discriminate Hh| |vm_compute in Hh; discriminate Hh].
  exists w, rq. split; [reflexivity|]. split; [reflexivity|].
  exact (double_submit_sends_twice demo_pk demo_maker_page w rq eq_refl Hh).
Defined.

Lemma tab_switch_keeps_input_text_witness :
  activeTab (form demo_maker_page) = "make" /\
  exists s', step (crypto := Web3.toy_crypto) demo_pk demo_maker_page (ClickTab TakeTab) = Some (s', []) /\
    v_fields (render s') = [FOfferMakerAccount; FMakerOfferId; FTokenMintA; FTokenMintB] /\
    v_values (render s') = dom demo_maker_page /\
    form s' = set_active_tab "take" (form demo_maker_page).
Proof. split; [reflexivity|]. apply tab_switch_keeps_input_text. reflexivity. Defined.

Lemma rejected_rpc_is_silent_witness :
  let rq := {| rq_ix := IxTakeOffer; rq_accounts := [] |} in
  let s := {| form := form demo_taker_page; dom := dom demo_taker_page; mounted := true;
              inflight := [("Offer taken:", rq)]; bad_input := [] |} in
  nth_error (inflight s) 0 = Some ("Offer taken:", rq) /\
  exists s', step (crypto := Web3.toy_crypto) demo_pk s (Settle 0 (Err (RpcError "blockhash")))
               = Some (s', [UnhandledRejection (RpcError "blockhash")]) /\
             form s' = form s /\ length (inflight s') = pred (length (inflight s)).
Proof. intros rq s. split; [reflexivity|]. apply (rejected_rpc_is_silent demo_pk s 0 "Offer taken:" rq). reflexivity. Defined.

Lemma banner_id_read_back_witness :
  activeTab (form demo_maker_page) = "make" /\ offerId (form demo_maker_page) = Some (Js.JInt 42) /\
  (0 <= 42 < Js.MAX_SAFE_INTEGER)%Z /\ activeTab (form demo_taker_page) = "take" /\
  exists str t', v_banner (render demo_maker_page) = Some ("OfferId : " ++ str)%string /\
    step (crypto := Web3.toy_crypto) demo_pk demo_taker_page (Input 1 str) = Some (t', []) /\
    makerOfferId (form t') = Some (Js.JInt 42).
Proof.
  split; [reflexivity|]. split; [reflexivity|]. split; [unfold Js.MAX_SAFE_INTEGER; lia|].
  split; [reflexivity|].
  apply banner_id_read_back; [reflexivity | reflexivity | unfold Js.MAX_SAFE_INTEGER; lia | reflexivity].
Defined.

End UI.
