(* ===== verification/Provider.v ===== *)
(** [src/frontend/src/components/solana/solana-provider.tsx]: the wallet
    buttons, the [SolanaProvider] context tree and [useAnchorProvider].

    [WalletButton] and [WalletDisconnectButton] are [next/dynamic] imports
    with [ssr: false]: [dynamic_no_ssr] says what such a component renders
    in each phase of a page load.  [solana_provider] is the tree
    [SolanaProvider] returns, with its props: the endpoint of the devnet
    cluster, an empty wallet list, the [onError] callback and
    [autoConnect].  [use_anchor_provider] is the hook the page calls on
    each render: an [AnchorProvider] over the context's connection and the
    [useWallet()] context cast to an [AnchorWallet], with commitment
    ['confirmed']. *)

From Stdlib Require Import String List.
From S2P Require Import Prelude Effects Web3 SwapForm SwapUI.
Import ListNotations.

Local Open Scope string_scope.

Module Provider.

Import Eff.

(** ** [WalletButton] and [WalletDisconnectButton] (lines 19-29) *)

(** The phases of a page load: the server render, the client before the
    dynamically imported chunk has loaded, and after. *)
Inductive render_phase : Type :=
| ServerRender
| ClientLoading
| ClientLoaded.

(** [dynamic(async () => (await import(m)).C, { ssr: false })]: nothing on
    the server and while the chunk loads (no [loading] option), [C] once
    it has loaded. *)
Definition dynamic_no_ssr {A} (c : A) (ph : render_phase) : option A :=
  match ph with
  | ClientLoaded => Some c
  | ServerRender | ClientLoading => None
  end.

(** The components of [@solana/wallet-adapter-react-ui] the buttons load. *)
Inductive wallet_ui_component : Type :=
| WalletMultiButton
| WalletDisconnectButtonUI.

Definition WalletButton : render_phase -> option wallet_ui_component :=
  dynamic_no_ssr WalletMultiButton.

Definition WalletDisconnectButton : render_phase -> option wallet_ui_component :=
  dynamic_no_ssr WalletDisconnectButtonUI.

(** What the page's wallet control (swap.tsx:115-124) shows in a phase. *)
Definition render_wallet_control (w : UI.wallet_control) (ph : render_phase)
  : option wallet_ui_component :=
  match w with
  | UI.ShowWalletButton => WalletButton ph
  | UI.ShowDisconnectButton => WalletDisconnectButton ph
  end.

(** ** [SolanaProvider] (lines 31-47) *)

(** [WalletAdapterNetwork] of [@solana/wallet-adapter-base]. *)
Inductive wallet_adapter_network : Type :=
| Mainnet
| Testnet
| Devnet.

(** [clusterApiUrl] of [@solana/web3.js] for the three public clusters. *)
Definition cluster_api_url (n : wallet_adapter_network) : string :=
  match n with
  | Mainnet => "https://api.mainnet-beta.solana.com"
  | Testnet => "https://api.testnet.solana.com"
  | Devnet => "https://api.devnet.solana.com"
  end.

Definition network : wallet_adapter_network := Devnet.

(** [useMemo(() => clusterApiUrl(network), [network])] *)
Definition endpoint : string := cluster_api_url network.

(** [onError]: the wallet error is printed, and nothing else happens. *)
Definition on_error (error : string) : list effect := [ConsoleError error].

(** The props of [<WalletProvider>]. *)
Record wallet_provider_props : Type := {
  wp_wallets : list string;
  wp_on_error : string -> list effect;
  wp_auto_connect : bool
}.

(** The tree [SolanaProvider] renders around its children:
    [ConnectionProvider] with the endpoint, [WalletProvider] with its
    props, then [WalletModalProvider]. *)
Record provider_tree : Type := {
  pt_endpoint : string;
  pt_wallet : wallet_provider_props;
  pt_modal : bool
}.

Definition solana_provider : provider_tree := {|
  pt_endpoint := endpoint;
  pt_wallet := {| wp_wallets := []; wp_on_error := on_error; wp_auto_connect := true |};
  pt_modal := true |}.

(** ** [useAnchorProvider] (lines 49-56) *)

(** [useConnection().connection]: the connection [ConnectionProvider]
    opened on its endpoint. *)
Record connection : Type := { conn_endpoint : string }.

Definition use_connection (t : provider_tree) : connection := {| conn_endpoint := pt_endpoint t |}.

(** [useWallet()]: the part of the wallet context the provider uses. *)
Record wallet_context : Type := {
  wc_public_key : option Web3.pubkey;
  wc_connected : bool
}.

Inductive commitment : Type :=
| Processed
| Confirmed
| Finalized.

Record anchor_provider : Type := {
  ap_connection : connection;
  ap_wallet : wallet_context;   (** [wallet as AnchorWallet]: a cast, no check *)
  ap_commitment : commitment
}.

Definition use_anchor_provider (t : provider_tree) (w : wallet_context) : anchor_provider := {|
  ap_connection := use_connection t;
  ap_wallet := w;
  ap_commitment := Confirmed |}.

End Provider.
