(* ===== verification/Escrow.v ===== *)
(** The on-chain swap program the page and the test script call.

    The program is not part of the repository: [swap.tsx] and
    [tests/swap.ts] only hold its interface ([makeOffer(id, a, b)],
    [takeOffer()] and their accounts).  This file models it from what the
    interface and the specification say of it, so that the test script's
    assertions and the page's requests can be run against something: the
    ledger of token accounts and offer accounts ([chain]), the token
    transfer the program performs ([transfer]), the address derivations it
    checks (the offer at ["offer", maker, id as 8 little-endian bytes], the
    vault as the associated token account of mint A owned by the offer) and
    the two instructions.  Token accounts are kept in a [gmap] from their
    address; the balance of a mint summed over the ledger is [supply].
    The results: every instruction preserves the supply of every mint and
    keeps balances within [u64]; [make_offer] escrows the offered amount in
    the vault and records the offer; a second offer with the same maker and
    id is refused; [take_offer] pays the maker the wanted amount and the
    taker the vault's balance. *)

From Stdlib Require Import ZArith List String.
From Stdlib Require Strings.Byte.
From stdpp Require Import base countable gmap.
From S2P Require Import Prelude Bytes Effects Web3.
Import ListNotations.

(** Public keys are byte strings; stdpp's maps need them countable. *)
#[export] Instance byte_eq_decision : EqDecision Byte.byte := Byte.byte_eq_dec.

Definition byte_of_N_total (n : N) : Byte.byte :=
  match Byte.of_N n with Some b => b | None => Byte.x00 end.

Lemma byte_of_N_total_to_N b : byte_of_N_total (Byte.to_N b) = b.
Proof. unfold byte_of_N_total. now rewrite Byte.of_to_N. Qed.

#[export] Instance byte_countable : Countable Byte.byte :=
  inj_countable' Byte.to_N byte_of_N_total byte_of_N_total_to_N.

Module Escrow.

Import Web3.

Definition u64_max : Z := (2 ^ 64 - 1)%Z.

(** An [u64] field: what Borsh can serialise for the instruction data. *)
Definition u64_ok (z : Z) : bool := (0 <=? z)%Z && (z <=? u64_max)%Z.

(** An SPL token account: its mint, its owner (the authority of
    transfers out of it) and its balance. *)
Record token_account : Type := {
  ta_mint : pubkey;
  ta_owner : pubkey;
  ta_amount : Z
}.

(** The program's [Offer] account. *)
Record offer : Type := {
  of_id : Z;
  of_maker : pubkey;
  of_token_mint_a : pubkey;
  of_token_mint_b : pubkey;
  of_token_b_wanted_amount : Z;
  of_bump : nat
}.

Record chain : Type := {
  tokens : gmap pubkey token_account;
  offers : gmap pubkey offer
}.

Inductive program_error : Type :=
| AccountNotProvided (name : string)
| AccountInUse
| AccountNotInitialized
| ConstraintSeeds
| ConstraintHasOne
| MissingSigner
| OwnerMismatch
| MintMismatch
| InsufficientFunds
| Overflow
| NonZeroBalance
| InstructionDidNotDeserialize
| DerivationFailed.

(** A transaction either commits a new ledger or fails with an error and
    leaves the ledger as it was. *)
Inductive res (A : Type) : Type :=
| OK (a : A)
| Fail (e : program_error).
Arguments OK {A} a.
Arguments Fail {A} e.

Definition rbind {A B} (r : res A) (k : A -> res B) : res B :=
  match r with OK a => k a | Fail e => Fail e end.

Definition guard (b : bool) (e : program_error) : res unit :=
  if b then OK tt else Fail e.

Module Notations.
Notation "x <-? r ;; k" := (rbind r (fun x => k))
  (at level 100, r at next level, right associativity) : swap_scope.
End Notations.
Import Notations.
Local Open Scope swap_scope.
Local Open Scope string_scope.

(** ** Token transfers *)

(** [spl_token::transfer] of [amt] from [src] to [dst], signed by
    [authority]: both accounts exist, the authority owns the source, the
    mints agree, the source holds enough and the destination does not
    overflow. *)
Definition transfer (src dst authority : pubkey) (amt : Z) (c : chain) : res chain :=
  match tokens c !! src, tokens c !! dst with
  | Some s, Some d =>
      _ <-? guard (bool_decide (ta_owner s = authority)) OwnerMismatch ;;
      _ <-? guard (bool_decide (ta_mint s = ta_mint d)) MintMismatch ;;
      _ <-? guard (amt <=? ta_amount s)%Z InsufficientFunds ;;
      if bool_decide (src = dst) then OK c else
      _ <-? guard (ta_amount d + amt <=? u64_max)%Z Overflow ;;
      OK {| tokens := <[dst := {| ta_mint := ta_mint d; ta_owner := ta_owner d;
                                  ta_amount := ta_amount d + amt |}]>
                        (<[src := {| ta_mint := ta_mint s; ta_owner := ta_owner s;
                                     ta_amount := ta_amount s - amt |}]> (tokens c));
            offers := offers c |}
  | _, _ => Fail AccountNotInitialized
  end.

(** [init] of a token account: fails when the address is in use. *)
Definition init_token_account (addr mint owner : pubkey) (c : chain) : res chain :=
  match tokens c !! addr with
  | Some _ => Fail AccountInUse
  | None => OK {| tokens := <[addr := {| ta_mint := mint; ta_owner := owner; ta_amount := 0 |}]>
                              (tokens c);
                  offers := offers c |}
  end.

(** [init_if_needed]: an existing account is kept as it is. *)
Definition init_if_needed (addr mint owner : pubkey) (c : chain) : chain :=
  match tokens c !! addr with
  | Some _ => c
  | None => {| tokens := <[addr := {| ta_mint := mint; ta_owner := owner; ta_amount := 0 |}]>
                           (tokens c);
               offers := offers c |}
  end.

(** [close_account]: only an empty token account can be closed. *)
Definition close_token_account (addr : pubkey) (c : chain) : res chain :=
  match tokens c !! addr with
  | Some a => _ <-? guard (ta_amount a =? 0)%Z NonZeroBalance ;;
              OK {| tokens := delete addr (tokens c); offers := offers c |}
  | None => Fail AccountNotInitialized
  end.

(** ** Supply of a mint *)

Definition contrib (mint : pubkey) (a : token_account) : Z :=
  if bool_decide (ta_mint a = mint) then ta_amount a else 0.

Definition supply (mint : pubkey) (m : gmap pubkey token_account) : Z :=
  map_fold (fun _ a s => contrib mint a + s)%Z 0%Z m.

(** Every balance of the ledger is an [u64]. *)
Definition balances_ok (m : gmap pubkey token_account) : Prop :=
  map_Forall (fun _ a => (0 <= ta_amount a <= u64_max)%Z) m.

(** The balance [getTokenAccountBalance] reports; a missing account
    holds nothing. *)
Definition balance (m : gmap pubkey token_account) (k : pubkey) : Z :=
  match m !! k with Some a => ta_amount a | None => 0%Z end.

(** Every recorded offer wants an [u64] amount. *)
Definition offers_ok (m : gmap pubkey offer) : Prop :=
  map_Forall (fun _ o => u64_ok (of_token_b_wanted_amount o) = true) m.

(** The ledger invariant. *)
Definition wf (c : chain) : Prop := balances_ok (tokens c) /\ offers_ok (offers c).

(** ** The instructions *)

(** The accounts object of a request, looked up by name. *)
Definition account_of (accs : list (string * pubkey)) (name : string) : option pubkey :=
  option_map snd (find (fun p => String.eqb (fst p) name) accs).

(** An account the instruction cannot derive: it must be given. *)
Definition required (accs : list (string * pubkey)) (name : string) : res pubkey :=
  match account_of accs name with
  | Some k => OK k
  | None => Fail (AccountNotProvided name)
  end.

(** An account the client derives when it is not given ([Anchor]'s
    account resolution) and the program checks when it is. *)
Definition resolved (accs : list (string * pubkey)) (name : string) (derived : pubkey)
  : res pubkey :=
  match account_of accs name with
  | None => OK derived
  | Some k => if bool_decide (k = derived) then OK k else Fail ConstraintSeeds
  end.

Definition is_free {A} (m : gmap pubkey A) (k : pubkey) : bool :=
  match m !! k with Some _ => false | None => true end.

Definition lookup_or {A} (m : gmap pubkey A) (k : pubkey) : res A :=
  match m !! k with Some a => OK a | None => Fail AccountNotInitialized end.

Section Program.
Context {crypto : Crypto}.
Variable program_id : pubkey.

Definition of_m {A} (c : Eff.M A) : res A :=
  match snd c with Eff.Ok a => OK a | Eff.Err _ => Fail DerivationFailed end.

(** [seeds = [b"offer", maker.key().as_ref(), id.to_le_bytes().as_ref()]] *)
Definition offer_seeds (maker : pubkey) (id : Z) : list (list Byte.byte) :=
  [list_byte_of_string "offer"; maker; LE.le_encode 8 id].

Definition offer_address (maker : pubkey) (id : Z) : res (pubkey * nat) :=
  of_m (find_program_address_sync (offer_seeds maker id) program_id).

Definition associated_address (mint owner token_program : pubkey) : res pubkey :=
  of_m (get_associated_token_address_sync mint owner true token_program).

(** The accounts of [make_offer] once Anchor has resolved and checked them. *)
Record make_accounts : Type := {
  mk_maker : pubkey;
  mk_token_mint_a : pubkey;
  mk_token_mint_b : pubkey;
  mk_maker_token_account_a : pubkey;
  mk_offer : pubkey;
  mk_bump : nat;
  mk_vault : pubkey
}.

(** The [MakeOffer] accounts: the maker signs, the maker's account of
    mint A is its associated token account, the offer is at its seeds and
    the vault is the offer's associated token account of mint A. *)
Definition make_offer_accounts (signer : pubkey) (accs : list (string * pubkey)) (id : Z)
  : res make_accounts :=
  maker <-? required accs "maker" ;;
  _ <-? guard (bool_decide (maker = signer)) MissingSigner ;;
  mint_a <-? required accs "tokenMintA" ;;
  mint_b <-? required accs "tokenMintB" ;;
  tp <-? required accs "tokenProgram" ;;
  maker_ata <-? associated_address mint_a maker tp ;;
  maker_ta <-? resolved accs "makerTokenAccountA" maker_ata ;;
  pda <-? offer_address maker id ;;
  offer_key <-? resolved accs "offer" (fst pda) ;;
  vault_ata <-? associated_address mint_a offer_key tp ;;
  vault <-? resolved accs "vault" vault_ata ;;
  OK {| mk_maker := maker; mk_token_mint_a := mint_a; mk_token_mint_b := mint_b;
        mk_maker_token_account_a := maker_ta; mk_offer := offer_key; mk_bump := snd pda;
        mk_vault := vault |}.

(** [make_offer(id, token_a_offered_amount, token_b_wanted_amount)]: the
    instruction data is deserialised, the accounts are checked, the offer
    and the vault are created ([init]), the offered amount moves from the
    maker's account of mint A to the vault, and the offer is recorded. *)
Definition make_offer (signer : pubkey) (accs : list (string * pubkey))
    (id token_a_offered_amount token_b_wanted_amount : Z) (c : chain) : res chain :=
  _ <-? guard (u64_ok id && u64_ok token_a_offered_amount && u64_ok token_b_wanted_amount)
              InstructionDidNotDeserialize ;;
  k <-? make_offer_accounts signer accs id ;;
  _ <-? guard (is_free (offers c) (mk_offer k)) AccountInUse ;;
  c1 <-? init_token_account (mk_vault k) (mk_token_mint_a k) (mk_offer k) c ;;
  c2 <-? transfer (mk_maker_token_account_a k) (mk_vault k) (mk_maker k)
                  token_a_offered_amount c1 ;;
  OK {| tokens := tokens c2;
        offers := <[mk_offer k := {| of_id := id; of_maker := mk_maker k;
                                     of_token_mint_a := mk_token_mint_a k;
                                     of_token_mint_b := mk_token_mint_b k;
                                     of_token_b_wanted_amount := token_b_wanted_amount;
                                     of_bump := mk_bump k |}]> (offers c2) |}.

(** The accounts of [take_offer] once resolved and checked. *)
Record take_accounts : Type := {
  tk_taker : pubkey;
  tk_maker : pubkey;
  tk_token_mint_a : pubkey;
  tk_token_mint_b : pubkey;
  tk_taker_token_account_a : pubkey;
  tk_taker_token_account_b : pubkey;
  tk_maker_token_account_b : pubkey;
  tk_offer : pubkey;
  tk_vault : pubkey
}.

(** The [TakeOffer] accounts: the taker signs; the offer exists and
    [has_one = maker, token_mint_a, token_mint_b]; it is at its seeds; the
    token accounts are the associated ones. *)
Definition take_offer_accounts (signer : pubkey) (accs : list (string * pubkey))
    (offers : gmap pubkey offer) : res (take_accounts * offer) :=
  taker <-? required accs "taker" ;;
  _ <-? guard (bool_decide (taker = signer)) MissingSigner ;;
  maker <-? required accs "maker" ;;
  mint_a <-? required accs "tokenMintA" ;;
  mint_b <-? required accs "tokenMintB" ;;
  tp <-? required accs "tokenProgram" ;;
  offer_key <-? required accs "offer" ;;
  o <-? lookup_or offers offer_key ;;
  _ <-? guard (bool_decide (of_maker o = maker) && bool_decide (of_token_mint_a o = mint_a)
               && bool_decide (of_token_mint_b o = mint_b)) ConstraintHasOne ;;
  pda <-? offer_address maker (of_id o) ;;
  _ <-? guard (bool_decide (fst pda = offer_key)) ConstraintSeeds ;;
  taker_ata_a <-? associated_address mint_a taker tp ;;
  taker_a <-? resolved accs "takerTokenAccountA" taker_ata_a ;;
  taker_ata_b <-? associated_address mint_b taker tp ;;
  taker_b <-? resolved accs "takerTokenAccountB" taker_ata_b ;;
  maker_ata_b <-? associated_address mint_b maker tp ;;
  maker_b <-? resolved accs "makerTokenAccountB" maker_ata_b ;;
  vault_ata <-? associated_address mint_a offer_key tp ;;
  vault <-? resolved accs "vault" vault_ata ;;
  OK ({| tk_taker := taker; tk_maker := maker; tk_token_mint_a := mint_a;
         tk_token_mint_b := mint_b; tk_taker_token_account_a := taker_a;
         tk_taker_token_account_b := taker_b; tk_maker_token_account_b := maker_b;
         tk_offer := offer_key; tk_vault := vault |}, o).

(** [take_offer()]: the taker's account of mint A and the maker's of
    mint B are created if needed, the wanted amount moves from the taker to
    the maker, the vault's balance moves to the taker, and the vault and
    the offer are closed. *)
Definition take_offer (signer : pubkey) (accs : list (string * pubkey)) (c : chain)
  : res chain :=
  ko <-? take_offer_accounts signer accs (offers c) ;;
  let (k, o) := ko in
  let c1 := init_if_needed (tk_maker_token_account_b k) (tk_token_mint_b k) (tk_maker k)
              (init_if_needed (tk_taker_token_account_a k) (tk_token_mint_a k) (tk_taker k) c) in
  c2 <-? transfer (tk_taker_token_account_b k) (tk_maker_token_account_b k) (tk_taker k)
                  (of_token_b_wanted_amount o) c1 ;;
  v <-? lookup_or (tokens c2) (tk_vault k) ;;
  c3 <-? transfer (tk_vault k) (tk_taker_token_account_a k) (tk_offer k) (ta_amount v) c2 ;;
  c4 <-? close_token_account (tk_vault k) c3 ;;
  OK {| tokens := tokens c4; offers := delete (tk_offer k) (offers c4) |}.

(** The program derives what the client derives. *)
Lemma associated_address_ret mint owner tp x :
  get_associated_token_address_sync mint owner true tp = Eff.ret x ->
  associated_address mint owner tp = OK x.
Proof. unfold associated_address, of_m. intros ->. reflexivity. Qed.

Lemma offer_address_ret maker id p :
  find_program_address_sync (offer_seeds maker id) program_id = Eff.ret p ->
  offer_address maker id = OK p.
Proof. unfold offer_address, of_m. intros ->. reflexivity. Qed.

End Program.

(** ** The error monad *)

Lemma rbind_OK {A B} (r : res A) (k : A -> res B) b :
  rbind r k = OK b <-> exists a, r = OK a /\ k a = OK b.
Proof.
  split.
  - destruct r as [a|e]; cbn; [eauto | discriminate].
  - intros (a & -> & H). exact H.
Qed.

Lemma guard_OK b e u : guard b e = OK u <-> b = true.
Proof. unfold guard. destruct b, u; split; intros H; solve [reflexivity | discriminate H]. Qed.

Lemma guard_Fail b e e' : guard b e = Fail e' -> b = false /\ e' = e.
Proof. destruct b; cbn; intros H; inversion H; auto. Qed.

(** Invert a successful run into the successful runs of its parts. *)
Ltac res_inv :=
  repeat match goal with
  | H : rbind _ _ = OK _ |- _ =>
      apply rbind_OK in H; let H' := fresh "Hr" in destruct H as (? & H' & H)
  | H : guard _ _ = OK _ |- _ => apply guard_OK in H
  | H : bool_decide _ = true |- _ => apply bool_decide_eq_true in H
  | H : (_ && _)%bool = true |- _ => apply andb_prop in H; destruct H
  | H : (_ <=? _)%Z = true |- _ => apply Z.leb_le in H
  | H : (_ =? _)%Z = true |- _ => apply Z.eqb_eq in H
  | H : OK _ = OK _ |- _ => injection H as H
  | H : Fail _ = OK _ |- _ => discriminate H
  | H : tt = _ |- _ => clear H
  end.

(** ** Account resolution *)

Lemma required_OK accs name k : required accs name = OK k <-> account_of accs name = Some k.
Proof. unfold required. destruct (account_of accs name); split; intros H; congruence. Qed.

(** A resolved account is the derived one, whether the client gave it or not. *)
Lemma resolved_OK accs name d k : resolved accs name d = OK k -> k = d.
Proof.
  unfold resolved. destruct (account_of accs name); intros H; res_inv; [|congruence].
  case_bool_decide; res_inv; congruence.
Qed.

Lemma resolved_derived accs name d : account_of accs name = None \/ account_of accs name = Some d ->
  resolved accs name d = OK d.
Proof. unfold resolved. intros [-> | ->]; [reflexivity|]. now rewrite bool_decide_eq_true_2. Qed.

Lemma lookup_or_OK {A} (m : gmap pubkey A) k a : lookup_or m k = OK a <-> m !! k = Some a.
Proof. unfold lookup_or. destruct (m !! k); split; intros H; congruence. Qed.

Lemma is_free_insert {A} (m : gmap pubkey A) k a : is_free (<[k:=a]> m) k = false.
Proof. unfold is_free. now rewrite lookup_insert_eq. Qed.

Ltac res_inv_accounts :=
  repeat match goal with
  | H : required _ _ = OK _ |- _ => apply required_OK in H
  | H : resolved _ _ _ = OK _ |- _ => apply resolved_OK in H; subst
  | H : lookup_or _ _ = OK _ |- _ => apply lookup_or_OK in H
  end.

(** ** Supply lemmas *)

Section Supply.
Variable mint : pubkey.

Lemma supply_insert_fresh m k a :
  m !! k = None -> supply mint (<[k:=a]> m) = (contrib mint a + supply mint m)%Z.
Proof.
  intros Hk. unfold supply.
  apply (map_fold_insert_L (fun _ a s => contrib mint a + s)%Z); [intros; lia | exact Hk].
Qed.

Lemma supply_delete m k a :
  m !! k = Some a -> supply mint m = (contrib mint a + supply mint (delete k m))%Z.
Proof.
  intros Hk. unfold supply.
  apply (map_fold_delete_L (fun _ a s => contrib mint a + s)%Z); [intros; lia | exact Hk].
Qed.

(** Replacing an account changes the supply by the difference of the two
    accounts' contributions. *)
Lemma supply_update m k a a' :
  m !! k = Some a ->
  supply mint (<[k:=a']> m) = (supply mint m - contrib mint a + contrib mint a')%Z.
Proof.
  intros Hk. rewrite <- insert_delete_eq, supply_insert_fresh by apply lookup_delete_eq.
  rewrite (supply_delete m k a Hk). lia.
Qed.

Lemma contrib_empty mint' owner : contrib mint {| ta_mint := mint'; ta_owner := owner; ta_amount := 0 |} = 0%Z.
Proof. unfold contrib. now case_bool_decide. Qed.

End Supply.

(** ** The ledger operations *)

Lemma transfer_OK src dst auth amt c c' :
  transfer src dst auth amt c = OK c' ->
  exists s d, tokens c !! src = Some s /\ tokens c !! dst = Some d /\
    ta_owner s = auth /\ ta_mint s = ta_mint d /\ (amt <= ta_amount s)%Z /\
    ((src = dst /\ c' = c) \/
     (src <> dst /\ (ta_amount d + amt <= u64_max)%Z /\
      c' = {| tokens := <[dst := {| ta_mint := ta_mint d; ta_owner := ta_owner d;
                                    ta_amount := ta_amount d + amt |}]>
                          (<[src := {| ta_mint := ta_mint s; ta_owner := ta_owner s;
                                       ta_amount := ta_amount s - amt |}]> (tokens c));
              offers := offers c |})).
Proof.
  unfold transfer. intros H.
  destruct (tokens c !! src) as [s|] eqn:Hs; [|discriminate H].
  destruct (tokens c !! dst) as [d|] eqn:Hd; [|discriminate H].
  res_inv. exists s, d. do 5 (split; [first [reflexivity | assumption]|]).
  case_bool_decide; res_inv; subst; [left | right]; auto.
Qed.

(** A transfer moves tokens: the supply of every mint is unchanged. *)
Lemma transfer_supply mint src dst auth amt c c' :
  transfer src dst auth amt c = OK c' -> supply mint (tokens c') = supply mint (tokens c).
Proof.
  intros H.
  destruct (transfer_OK _ _ _ _ _ _ H)
    as (s & d & Hs & Hd & _ & Hm & _ & [[_ ->] | (Hne & _ & ->)]); [reflexivity|].
  cbn. rewrite (supply_update _ _ dst d) by (rewrite lookup_insert_ne; auto).
  rewrite (supply_update _ _ src s _ Hs). unfold contrib; cbn. rewrite Hm.
  case_bool_decide; lia.
Qed.

Lemma transfer_offers src dst auth amt c c' :
  transfer src dst auth amt c = OK c' -> offers c' = offers c.
Proof.
  intros H. now destruct (transfer_OK _ _ _ _ _ _ H)
    as (? & ? & _ & _ & _ & _ & _ & [[_ ->] | (_ & _ & ->)]).
Qed.

Lemma transfer_balances_ok src dst auth amt c c' :
  balances_ok (tokens c) -> (0 <= amt)%Z ->
  transfer src dst auth amt c = OK c' -> balances_ok (tokens c').
Proof.
  intros Hb Ha H.
  destruct (transfer_OK _ _ _ _ _ _ H)
    as (s & d & Hs & Hd & _ & _ & Hle & [[_ ->] | (Hne & Hov & ->)]); [exact Hb|].
  pose proof (map_Forall_lookup_1 _ _ _ _ Hb Hs). pose proof (map_Forall_lookup_1 _ _ _ _ Hb Hd).
  cbn in *. apply map_Forall_insert_2; [cbn; lia|].
  apply map_Forall_insert_2; [cbn; lia | exact Hb].
Qed.

(** The balances after a transfer between two distinct accounts. *)
Lemma transfer_lookup src dst auth amt c c' k :
  transfer src dst auth amt c = OK c' -> src <> dst ->
  tokens c' !! k =
    if bool_decide (k = dst) then
      option_map (fun d => {| ta_mint := ta_mint d; ta_owner := ta_owner d;
                              ta_amount := ta_amount d + amt |}) (tokens c !! dst)
    else if bool_decide (k = src) then
      option_map (fun s => {| ta_mint := ta_mint s; ta_owner := ta_owner s;
                              ta_amount := ta_amount s - amt |}) (tokens c !! src)
    else tokens c !! k.
Proof.
  intros H Hne.
  destruct (transfer_OK _ _ _ _ _ _ H)
    as (s & d & Hs & Hd & _ & _ & _ & [[? _] | (_ & _ & ->)]); [contradiction|].
  cbn. rewrite Hs, Hd. cbn. repeat case_bool_decide; subst; by simplify_map_eq.
Qed.

Lemma init_token_account_OK addr mint owner c c' :
  init_token_account addr mint owner c = OK c' ->
  tokens c !! addr = None /\
  c' = {| tokens := <[addr := {| ta_mint := mint; ta_owner := owner; ta_amount := 0 |}]> (tokens c);
          offers := offers c |}.
Proof.
  unfold init_token_account. destruct (tokens c !! addr); intros H; res_inv; auto.
Qed.

Lemma init_token_account_supply mint addr mint' owner c c' :
  init_token_account addr mint' owner c = OK c' -> supply mint (tokens c') = supply mint (tokens c).
Proof.
  intros H. destruct (init_token_account_OK _ _ _ _ _ H) as [Hn ->]. cbn.
  rewrite supply_insert_fresh, contrib_empty by exact Hn. lia.
Qed.

Lemma init_if_needed_supply mint addr mint' owner c :
  supply mint (tokens (init_if_needed addr mint' owner c)) = supply mint (tokens c).
Proof.
  unfold init_if_needed. destruct (tokens c !! addr) eqn:Hn; [reflexivity|]. cbn.
  rewrite supply_insert_fresh, contrib_empty by exact Hn. lia.
Qed.

Lemma close_token_account_OK addr c c' :
  close_token_account addr c = OK c' ->
  exists a, tokens c !! addr = Some a /\ ta_amount a = 0%Z /\
            c' = {| tokens := delete addr (tokens c); offers := offers c |}.
Proof.
  unfold close_token_account. destruct (tokens c !! addr) as [a|]; intros H; res_inv; eauto.
Qed.

(** Only an empty account is closed: no token disappears with it. *)
Lemma close_token_account_supply mint addr c c' :
  close_token_account addr c = OK c' -> supply mint (tokens c') = supply mint (tokens c).
Proof.
  intros H. destruct (close_token_account_OK _ _ _ H) as (a & Ha & H0 & ->). cbn.
  rewrite (supply_delete mint (tokens c) addr a Ha). unfold contrib. rewrite H0.
  case_bool_decide; lia.
Qed.

(** ** Balances and the invariant through the ledger operations *)

Lemma NoDup4 {A} (a b c d : A) :
  NoDup [a; b; c; d] -> a <> b /\ a <> c /\ a <> d /\ b <> c /\ b <> d /\ c <> d.
Proof. intros H. repeat rewrite NoDup_cons in H. set_solver. Qed.

Lemma u64_ok_spec z : u64_ok z = true <-> (0 <= z <= u64_max)%Z.
Proof. unfold u64_ok. rewrite andb_true_iff, Z.leb_le, Z.leb_le. tauto. Qed.

Lemma balance_init_if_needed addr mint owner c x :
  balance (tokens (init_if_needed addr mint owner c)) x = balance (tokens c) x.
Proof.
  unfold init_if_needed, balance. destruct (tokens c !! addr) eqn:E; [reflexivity|]. cbn.
  destruct (decide (x = addr)) as [->|]; simplify_map_eq; rewrite ?E; reflexivity.
Qed.

Lemma balance_transfer src dst auth amt c c' x :
  transfer src dst auth amt c = OK c' -> src <> dst ->
  balance (tokens c') x =
    if bool_decide (x = dst) then (balance (tokens c) x + amt)%Z
    else if bool_decide (x = src) then (balance (tokens c) x - amt)%Z
    else balance (tokens c) x.
Proof.
  intros H Hne. unfold balance. rewrite (transfer_lookup _ _ _ _ _ _ x H Hne).
  destruct (transfer_OK _ _ _ _ _ _ H) as (s & d & Hs & Hd & _).
  repeat case_bool_decide; subst; rewrite ?Hs, ?Hd; reflexivity.
Qed.

Lemma balance_close addr c c' x :
  close_token_account addr c = OK c' ->
  balance (tokens c') x = if bool_decide (x = addr) then 0%Z else balance (tokens c) x.
Proof.
  intros H. destruct (close_token_account_OK _ _ _ H) as (a & Ha & H0 & ->). unfold balance. cbn.
  case_bool_decide; subst; [now rewrite lookup_delete_eq | rewrite lookup_delete_ne; congruence].
Qed.

Lemma init_if_needed_offers addr mint owner c : offers (init_if_needed addr mint owner c) = offers c.
Proof. unfold init_if_needed. now destruct (tokens c !! addr). Qed.

Lemma init_if_needed_wf addr mint owner c : wf c -> wf (init_if_needed addr mint owner c).
Proof.
  unfold init_if_needed. intros [Hb Ho]. destruct (tokens c !! addr); [now split|].
  split; [|exact Ho]. apply map_Forall_insert_2; [cbn; unfold u64_max; lia | exact Hb].
Qed.

Lemma init_token_account_wf addr mint owner c c' :
  wf c -> init_token_account addr mint owner c = OK c' -> wf c'.
Proof.
  intros [Hb Ho] H. destruct (init_token_account_OK _ _ _ _ _ H) as [_ ->].
  split; [|exact Ho]. apply map_Forall_insert_2; [cbn; unfold u64_max; lia | exact Hb].
Qed.

Lemma transfer_wf src dst auth amt c c' :
  wf c -> (0 <= amt)%Z -> transfer src dst auth amt c = OK c' -> wf c'.
Proof.
  intros [Hb Ho] Ha H. split; [exact (transfer_balances_ok _ _ _ _ _ _ Hb Ha H)|].
  now rewrite (transfer_offers _ _ _ _ _ _ H).
Qed.

Lemma close_token_account_wf addr c c' : wf c -> close_token_account addr c = OK c' -> wf c'.
Proof.
  intros [Hb Ho] H. destruct (close_token_account_OK _ _ _ H) as (? & _ & _ & ->).
  split; [apply map_Forall_delete, Hb | exact Ho].
Qed.

Lemma close_token_account_offers addr c c' :
  close_token_account addr c = OK c' -> offers c' = offers c.
Proof. intros H. now destruct (close_token_account_OK _ _ _ H) as (? & _ & _ & ->). Qed.

Lemma init_token_account_offers addr mint owner c c' :
  init_token_account addr mint owner c = OK c' -> offers c' = offers c.
Proof. intros H. now destruct (init_token_account_OK _ _ _ _ _ H) as [_ ->]. Qed.

Lemma wf_balance_nonneg c k : wf c -> (0 <= balance (tokens c) k)%Z.
Proof.
  intros [Hb _]. unfold balance. destruct (tokens c !! k) eqn:E; [|lia].
  pose proof (map_Forall_lookup_1 _ _ _ _ Hb E). cbn in *. lia.
Qed.

(** ** When the instructions succeed *)

Lemma transfer_succeeds src dst auth amt c s d :
  tokens c !! src = Some s -> tokens c !! dst = Some d -> src <> dst ->
  ta_owner s = auth -> ta_mint s = ta_mint d -> (amt <= ta_amount s)%Z ->
  (ta_amount d + amt <= u64_max)%Z ->
  transfer src dst auth amt c =
    OK {| tokens := <[dst := {| ta_mint := ta_mint d; ta_owner := ta_owner d;
                                ta_amount := ta_amount d + amt |}]>
                      (<[src := {| ta_mint := ta_mint s; ta_owner := ta_owner s;
                                   ta_amount := ta_amount s - amt |}]> (tokens c));
          offers := offers c |}.
Proof.
  intros Hs Hd Hne Ho Hm Ha Hov. unfold transfer. rewrite Hs, Hd. cbn [rbind guard].
  rewrite bool_decide_eq_true_2 by exact Ho. cbn [rbind].
  rewrite bool_decide_eq_true_2 by exact Hm. cbn [rbind].
  rewrite (proj2 (Z.leb_le _ _) Ha). cbn [rbind].
  rewrite bool_decide_eq_false_2 by exact Hne.
  rewrite (proj2 (Z.leb_le _ _) Hov). reflexivity.
Qed.

(** The account [init_if_needed] leaves at its address: the existing one,
    or a new empty one. *)
Definition account_after_init (m : gmap pubkey token_account) (addr mint owner : pubkey)
  : token_account :=
  match m !! addr with
  | Some t => t
  | None => {| ta_mint := mint; ta_owner := owner; ta_amount := 0 |}
  end.

Lemma init_if_needed_lookup addr mint owner c x :
  tokens (init_if_needed addr mint owner c) !! x =
    if bool_decide (x = addr) then Some (account_after_init (tokens c) addr mint owner)
    else tokens c !! x.
Proof.
  unfold init_if_needed, account_after_init.
  case_bool_decide; subst; destruct (tokens c !! addr) eqn:E; cbn; simplify_map_eq; congruence.
Qed.

Lemma account_after_init_amount m addr mint owner :
  ta_amount (account_after_init m addr mint owner) = balance m addr.
Proof. unfold account_after_init, balance. now destruct (m !! addr). Qed.

Lemma account_after_init_mint m addr mint owner :
  (forall t, m !! addr = Some t -> ta_mint t = mint) ->
  ta_mint (account_after_init m addr mint owner) = mint.
Proof. unfold account_after_init. destruct (m !! addr) eqn:E; auto. Qed.

Lemma init_if_needed_lookup_ne addr mint owner c x :
  x <> addr -> tokens (init_if_needed addr mint owner c) !! x = tokens c !! x.
Proof. intros Hne. rewrite init_if_needed_lookup. now rewrite bool_decide_eq_false_2. Qed.

Lemma init_if_needed_lookup_eq addr mint owner c :
  tokens (init_if_needed addr mint owner c) !! addr = Some (account_after_init (tokens c) addr mint owner).
Proof. rewrite init_if_needed_lookup. now rewrite bool_decide_eq_true_2. Qed.

Lemma init_token_account_fresh addr mint owner c :
  tokens c !! addr = None ->
  init_token_account addr mint owner c =
    OK {| tokens := <[addr := {| ta_mint := mint; ta_owner := owner; ta_amount := 0 |}]> (tokens c);
          offers := offers c |}.
Proof. intros H. unfold init_token_account. now rewrite H. Qed.

Lemma close_token_account_succeeds addr c a :
  tokens c !! addr = Some a -> ta_amount a = 0%Z ->
  close_token_account addr c = OK {| tokens := delete addr (tokens c); offers := offers c |}.
Proof. intros H H0. unfold close_token_account. rewrite H, H0. reflexivity. Qed.

Lemma transfer_is_Some src dst auth amt c c' x :
  transfer src dst auth amt c = OK c' -> is_Some (tokens c !! x) -> is_Some (tokens c' !! x).
Proof.
  intros H Hx. destruct (transfer_OK _ _ _ _ _ _ H)
    as (? & ? & _ & _ & _ & _ & _ & [[_ ->] | (_ & _ & ->)]); [exact Hx|].
  cbn. rewrite !lookup_insert_is_Some'. tauto.
Qed.

Lemma init_if_needed_is_Some addr mint owner c x :
  is_Some (tokens c !! x) -> is_Some (tokens (init_if_needed addr mint owner c) !! x).
Proof. intros Hx. rewrite init_if_needed_lookup. case_bool_decide; [eexists; reflexivity | exact Hx]. Qed.

Lemma close_token_account_is_Some addr c c' x :
  close_token_account addr c = OK c' -> x <> addr ->
  is_Some (tokens c !! x) -> is_Some (tokens c' !! x).
Proof.
  intros H Hne Hx. destruct (close_token_account_OK _ _ _ H) as (? & _ & _ & ->). cbn.
  rewrite lookup_delete_ne by congruence. exact Hx.
Qed.

(** ** Runs of the instructions *)

Section ProgramRuns.
Context {crypto : Crypto}.
Variable program_id : pubkey.

(** The run lemmas treat the derivations as black boxes: unfolding them on
    symbolic keys only makes the unifier work for nothing. *)
Local Opaque offer_address associated_address transfer init_if_needed close_token_account init_token_account.

(** The derivations are hashes: the lemmas below treat them as black
    boxes and never compute them. *)
#[local] Opaque offer_address associated_address.

(** What the [MakeOffer] accounts are once checked. *)
Lemma make_offer_accounts_OK signer accs id k :
  make_offer_accounts program_id signer accs id = OK k ->
  mk_maker k = signer /\
  account_of accs "maker" = Some (mk_maker k) /\
  account_of accs "tokenMintA" = Some (mk_token_mint_a k) /\
  account_of accs "tokenMintB" = Some (mk_token_mint_b k) /\
  exists tp, account_of accs "tokenProgram" = Some tp /\
    associated_address (mk_token_mint_a k) (mk_maker k) tp = OK (mk_maker_token_account_a k) /\
    offer_address program_id (mk_maker k) id = OK (mk_offer k, mk_bump k) /\
    associated_address (mk_token_mint_a k) (mk_offer k) tp = OK (mk_vault k).
Proof.
  unfold make_offer_accounts. intros H. res_inv. res_inv_accounts. try subst k. cbn.
  match goal with p : (pubkey * nat)%type |- _ => destruct p end. cbn in *.
  repeat (split; [eassumption || reflexivity|]). eexists. repeat split; eassumption.
Qed.

(** What the [TakeOffer] accounts are once checked. *)
Lemma take_offer_accounts_OK signer accs offs k o :
  take_offer_accounts program_id signer accs offs = OK (k, o) ->
  tk_taker k = signer /\
  account_of accs "maker" = Some (tk_maker k) /\
  account_of accs "offer" = Some (tk_offer k) /\
  offs !! tk_offer k = Some o /\
  of_maker o = tk_maker k /\ of_token_mint_a o = tk_token_mint_a k /\
  of_token_mint_b o = tk_token_mint_b k /\
  (exists bump, offer_address program_id (tk_maker k) (of_id o) = OK (tk_offer k, bump)) /\
  exists tp, account_of accs "tokenProgram" = Some tp /\
    associated_address (tk_token_mint_a k) (tk_taker k) tp = OK (tk_taker_token_account_a k) /\
    associated_address (tk_token_mint_b k) (tk_taker k) tp = OK (tk_taker_token_account_b k) /\
    associated_address (tk_token_mint_b k) (tk_maker k) tp = OK (tk_maker_token_account_b k) /\
    associated_address (tk_token_mint_a k) (tk_offer k) tp = OK (tk_vault k).
Proof.
  unfold take_offer_accounts. intros H. res_inv. res_inv_accounts.
  match goal with p : (pubkey * nat)%type |- _ => destruct p end. cbn [fst snd] in *.
  subst. cbn.
  repeat (split; [eassumption || reflexivity|]). split; [eexists; eassumption|].
  eexists. repeat split; eassumption.
Qed.

(** A successful [make_offer] in terms of its steps. *)
Lemma make_offer_OK signer accs id a w c c' :
  make_offer program_id signer accs id a w c = OK c' ->
  exists k c1 c2,
    u64_ok id = true /\ u64_ok a = true /\ u64_ok w = true /\
    make_offer_accounts program_id signer accs id = OK k /\
    is_free (offers c) (mk_offer k) = true /\
    init_token_account (mk_vault k) (mk_token_mint_a k) (mk_offer k) c = OK c1 /\
    transfer (mk_maker_token_account_a k) (mk_vault k) (mk_maker k) a c1 = OK c2 /\
    c' = {| tokens := tokens c2;
            offers := <[mk_offer k := {| of_id := id; of_maker := mk_maker k;
                                         of_token_mint_a := mk_token_mint_a k;
                                         of_token_mint_b := mk_token_mint_b k;
                                         of_token_b_wanted_amount := w;
                                         of_bump := mk_bump k |}]> (offers c2) |}.
Proof.
  unfold make_offer. intros H. res_inv.
  do 3 eexists. repeat (split; [eassumption|]). symmetry. eassumption.
Qed.

(** A successful [take_offer] in terms of its steps. *)
Lemma take_offer_OK signer accs c c' :
  take_offer program_id signer accs c = OK c' ->
  exists k o v c2 c3 c4,
    take_offer_accounts program_id signer accs (offers c) = OK (k, o) /\
    transfer (tk_taker_token_account_b k) (tk_maker_token_account_b k) (tk_taker k)
      (of_token_b_wanted_amount o)
      (init_if_needed (tk_maker_token_account_b k) (tk_token_mint_b k) (tk_maker k)
         (init_if_needed (tk_taker_token_account_a k) (tk_token_mint_a k) (tk_taker k) c))
      = OK c2 /\
    tokens c2 !! tk_vault k = Some v /\
    transfer (tk_vault k) (tk_taker_token_account_a k) (tk_offer k) (ta_amount v) c2 = OK c3 /\
    close_token_account (tk_vault k) c3 = OK c4 /\
    c' = {| tokens := tokens c4; offers := delete (tk_offer k) (offers c4) |}.
Proof.
  unfold take_offer. intros H. res_inv.
  match goal with p : (take_accounts * offer)%type |- _ => destruct p as [k o] end.
  res_inv. res_inv_accounts.
  do 6 eexists. repeat (split; [eassumption|]). symmetry. eassumption.
Qed.

(** The supply of every mint is the same after a [make_offer]. *)
Lemma make_offer_supply mint signer accs id a w c c' :
  make_offer program_id signer accs id a w c = OK c' ->
  supply mint (tokens c') = supply mint (tokens c).
Proof.
  intros H. destruct (make_offer_OK _ _ _ _ _ _ _ H)
    as (k & c1 & c2 & _ & _ & _ & _ & _ & Hi & Ht & ->). cbn [tokens].
  rewrite (transfer_supply mint _ _ _ _ _ _ Ht). exact (init_token_account_supply mint _ _ _ _ _ Hi).
Qed.

(** The supply of every mint is the same after a [take_offer]. *)
Lemma take_offer_supply mint signer accs c c' :
  take_offer program_id signer accs c = OK c' ->
  supply mint (tokens c') = supply mint (tokens c).
Proof.
  intros H. destruct (take_offer_OK _ _ _ _ H)
    as (k & o & v & c2 & c3 & c4 & _ & Ht1 & _ & Ht2 & Hc & ->). cbn [tokens].
  rewrite (close_token_account_supply mint _ _ _ Hc), (transfer_supply mint _ _ _ _ _ _ Ht2),
    (transfer_supply mint _ _ _ _ _ _ Ht1), !init_if_needed_supply.
  reflexivity.
Qed.

Lemma make_offer_wf signer accs id a w c c' :
  wf c -> make_offer program_id signer accs id a w c = OK c' -> wf c'.
Proof.
  intros Hwf H. destruct (make_offer_OK _ _ _ _ _ _ _ H)
    as (k & c1 & c2 & _ & Ha & Hw & _ & _ & Hi & Ht & ->).
  apply u64_ok_spec in Ha.
  destruct (transfer_wf _ _ _ _ _ _ (init_token_account_wf _ _ _ _ _ Hwf Hi) (proj1 Ha) Ht)
    as [Hb Ho].
  split; [exact Hb|]. apply map_Forall_insert_2; [exact Hw | exact Ho].
Qed.

Lemma take_offer_wf signer accs c c' :
  wf c -> take_offer program_id signer accs c = OK c' -> wf c'.
Proof.
  intros Hwf H. destruct (take_offer_OK _ _ _ _ H)
    as (k & o & v & c2 & c3 & c4 & Hk & Ht1 & Hv & Ht2 & Hc & ->).
  destruct (take_offer_accounts_OK _ _ _ _ _ Hk) as (_ & _ & _ & Ho & _).
  pose proof (map_Forall_lookup_1 _ _ _ _ (proj2 Hwf) Ho) as Hw. cbn in Hw.
  apply u64_ok_spec in Hw.
  assert (Hwf2 : wf c2)
    by (eapply transfer_wf; [apply init_if_needed_wf, init_if_needed_wf, Hwf | | exact Ht1]; lia).
  assert (Hv0 : (0 <= ta_amount v)%Z)
    by (pose proof (wf_balance_nonneg _ (tk_vault k) Hwf2) as Hn; unfold balance in Hn;
        rewrite Hv in Hn; exact Hn).
  destruct (close_token_account_wf _ _ _ (transfer_wf _ _ _ _ _ _ Hwf2 Hv0 Ht2) Hc) as [Hb Hof].
  split; [exact Hb | apply map_Forall_delete, Hof].
Qed.

(** The [MakeOffer] accounts check when the object names the maker, who
    signs, the mints and the token program, and gives the derived
    accounts, if at all, as derived. *)
Lemma make_offer_accounts_succeeds signer accs id mint_a mint_b tp maker_ta offer_key bump vault :
  account_of accs "maker" = Some signer ->
  account_of accs "tokenMintA" = Some mint_a -> account_of accs "tokenMintB" = Some mint_b ->
  account_of accs "tokenProgram" = Some tp ->
  associated_address mint_a signer tp = OK maker_ta ->
  offer_address program_id signer id = OK (offer_key, bump) ->
  associated_address mint_a offer_key tp = OK vault ->
  account_of accs "makerTokenAccountA" = None \/ account_of accs "makerTokenAccountA" = Some maker_ta ->
  account_of accs "offer" = None \/ account_of accs "offer" = Some offer_key ->
  account_of accs "vault" = None \/ account_of accs "vault" = Some vault ->
  make_offer_accounts program_id signer accs id =
    OK {| mk_maker := signer; mk_token_mint_a := mint_a; mk_token_mint_b := mint_b;
          mk_maker_token_account_a := maker_ta; mk_offer := offer_key; mk_bump := bump;
          mk_vault := vault |}.
Proof.
  intros Hm Hma Hmb Htp Hata Hoff Hv Hr1 Hr2 Hr3. unfold make_offer_accounts, required.
  rewrite Hm. cbn [rbind guard]. rewrite bool_decide_eq_true_2 by reflexivity. cbn [rbind].
  rewrite Hma, Hmb, Htp. cbn [rbind]. rewrite Hata. cbn [rbind].
  rewrite (resolved_derived _ _ _ Hr1). cbn [rbind]. rewrite Hoff. cbn [rbind fst snd].
  rewrite (resolved_derived _ _ _ Hr2). cbn [rbind]. rewrite Hv. cbn [rbind].
  rewrite (resolved_derived _ _ _ Hr3). reflexivity.
Qed.

(** The [TakeOffer] accounts check likewise, for a recorded offer at its
    seeds whose maker and mints are the ones named. *)
Lemma take_offer_accounts_succeeds signer accs offs o maker mint_a mint_b tp offer_key bump
    taker_a taker_b maker_b vault :
  account_of accs "taker" = Some signer -> account_of accs "maker" = Some maker ->
  account_of accs "tokenMintA" = Some mint_a -> account_of accs "tokenMintB" = Some mint_b ->
  account_of accs "tokenProgram" = Some tp -> account_of accs "offer" = Some offer_key ->
  offs !! offer_key = Some o ->
  of_maker o = maker -> of_token_mint_a o = mint_a -> of_token_mint_b o = mint_b ->
  offer_address program_id maker (of_id o) = OK (offer_key, bump) ->
  associated_address mint_a signer tp = OK taker_a ->
  associated_address mint_b signer tp = OK taker_b ->
  associated_address mint_b maker tp = OK maker_b ->
  associated_address mint_a offer_key tp = OK vault ->
  account_of accs "takerTokenAccountA" = None \/ account_of accs "takerTokenAccountA" = Some taker_a ->
  account_of accs "takerTokenAccountB" = None \/ account_of accs "takerTokenAccountB" = Some taker_b ->
  account_of accs "makerTokenAccountB" = None \/ account_of accs "makerTokenAccountB" = Some maker_b ->
  account_of accs "vault" = None \/ account_of accs "vault" = Some vault ->
  take_offer_accounts program_id signer accs offs =
    OK ({| tk_taker := signer; tk_maker := maker; tk_token_mint_a := mint_a;
           tk_token_mint_b := mint_b; tk_taker_token_account_a := taker_a;
           tk_taker_token_account_b := taker_b; tk_maker_token_account_b := maker_b;
           tk_offer := offer_key; tk_vault := vault |}, o).
Proof.
  intros Ht Hm Hma Hmb Htp Hof Ho Hom Hoa Hob Hoff H1 H2 H3 H4 R1 R2 R3 R4.
  unfold take_offer_accounts, required, lookup_or.
  rewrite Ht. cbn [rbind guard]. rewrite bool_decide_eq_true_2 by reflexivity. cbn [rbind].
  rewrite Hm, Hma, Hmb, Htp, Hof. cbn [rbind]. rewrite Ho. cbn [rbind].
  rewrite !bool_decide_eq_true_2 by assumption. cbn [andb guard rbind].
  rewrite Hoff. cbn [rbind fst]. rewrite bool_decide_eq_true_2 by reflexivity. cbn [rbind].
  rewrite H1. cbn [rbind]. rewrite (resolved_derived _ _ _ R1). cbn [rbind].
  rewrite H2. cbn [rbind]. rewrite (resolved_derived _ _ _ R2). cbn [rbind].
  rewrite H3. cbn [rbind]. rewrite (resolved_derived _ _ _ R3). cbn [rbind].
  rewrite H4. cbn [rbind]. rewrite (resolved_derived _ _ _ R4). reflexivity.
Qed.

(** A [make_offer] whose accounts check, on a ledger where the offer and
    the vault are free and the maker holds enough of mint A, succeeds; the
    resulting ledger is given exactly. *)
Lemma make_offer_succeeds signer accs id a w c k ma :
  make_offer_accounts program_id signer accs id = OK k ->
  u64_ok id = true -> u64_ok a = true -> u64_ok w = true ->
  offers c !! mk_offer k = None -> tokens c !! mk_vault k = None ->
  tokens c !! mk_maker_token_account_a k = Some ma ->
  ta_owner ma = mk_maker k -> ta_mint ma = mk_token_mint_a k -> (a <= ta_amount ma)%Z ->
  make_offer program_id signer accs id a w c =
    OK {| tokens :=
            <[mk_vault k := {| ta_mint := mk_token_mint_a k; ta_owner := mk_offer k; ta_amount := a |}]>
            (<[mk_maker_token_account_a k := {| ta_mint := ta_mint ma; ta_owner := ta_owner ma;
                                               ta_amount := ta_amount ma - a |}]>
             (<[mk_vault k := {| ta_mint := mk_token_mint_a k; ta_owner := mk_offer k;
                                 ta_amount := 0 |}]> (tokens c)));
          offers := <[mk_offer k := {| of_id := id; of_maker := mk_maker k;
                                       of_token_mint_a := mk_token_mint_a k;
                                       of_token_mint_b := mk_token_mint_b k;
                                       of_token_b_wanted_amount := w; of_bump := mk_bump k |}]>
                      (offers c) |}.
Proof.
  intros Hk Hid Ha Hw Ho Hv Hm Hown Hmint Hle.
  assert (Hne : mk_maker_token_account_a k <> mk_vault k) by congruence.
  apply u64_ok_spec in Ha as Ha'.
  unfold make_offer. rewrite Hid, Ha, Hw. cbn [andb guard rbind]. rewrite Hk. cbn [rbind].
  unfold is_free. rewrite Ho. cbn [guard rbind].
  rewrite (init_token_account_fresh _ _ _ _ Hv). cbn [rbind].
  rewrite (transfer_succeeds _ _ _ _ _ ma
             {| ta_mint := mk_token_mint_a k; ta_owner := mk_offer k; ta_amount := 0 |});
    cbn [tokens offers ta_mint ta_owner ta_amount];
    [reflexivity | rewrite lookup_insert_ne; congruence | apply lookup_insert_eq
    | exact Hne | exact Hown | exact Hmint | exact Hle | lia].
Qed.

(** A [take_offer] whose accounts check succeeds when the taker holds the
    wanted amount of mint B, the vault is the offer's account of mint A,
    the accounts to be credited (created if needed) are of the right mints
    and do not overflow, and the four token accounts are distinct. *)
Lemma take_offer_succeeds signer accs c k o tb va :
  take_offer_accounts program_id signer accs (offers c) = OK (k, o) ->
  NoDup [tk_taker_token_account_a k; tk_taker_token_account_b k;
         tk_maker_token_account_b k; tk_vault k] ->
  tokens c !! tk_taker_token_account_b k = Some tb -> ta_owner tb = tk_taker k ->
  ta_mint tb = tk_token_mint_b k -> (of_token_b_wanted_amount o <= ta_amount tb)%Z ->
  tokens c !! tk_vault k = Some va -> ta_owner va = tk_offer k -> ta_mint va = tk_token_mint_a k ->
  (forall t, tokens c !! tk_maker_token_account_b k = Some t -> ta_mint t = tk_token_mint_b k) ->
  (forall t, tokens c !! tk_taker_token_account_a k = Some t -> ta_mint t = tk_token_mint_a k) ->
  (balance (tokens c) (tk_maker_token_account_b k) + of_token_b_wanted_amount o <= u64_max)%Z ->
  (balance (tokens c) (tk_taker_token_account_a k) + ta_amount va <= u64_max)%Z ->
  exists c', take_offer program_id signer accs c = OK c'.
Proof.
  intros Hk Hnd Htb Htbo Htbm Hwant Hva Hvao Hvam Hmb Hta Hovb Hova.
  destruct (NoDup4 _ _ _ _ Hnd) as (Hab & Hamb & Hav & Hbmb & Hbv & Hmbv).
  unfold take_offer. rewrite Hk. cbn [rbind].
  set (c0 := init_if_needed (tk_taker_token_account_a k) (tk_token_mint_a k) (tk_taker k) c).
  set (c1 := init_if_needed (tk_maker_token_account_b k) (tk_token_mint_b k) (tk_maker k) c0).
  set (mb := account_after_init (tokens c) (tk_maker_token_account_b k) (tk_token_mint_b k) (tk_maker k)).
  set (ta := account_after_init (tokens c) (tk_taker_token_account_a k) (tk_token_mint_a k) (tk_taker k)).
  assert (Hc1mb : tokens c1 !! tk_maker_token_account_b k = Some mb).
  { subst c1 mb. rewrite init_if_needed_lookup_eq. unfold account_after_init.
    subst c0. now rewrite init_if_needed_lookup_ne by congruence. }
  assert (Hc1 : forall x, x <> tk_maker_token_account_b k -> x <> tk_taker_token_account_a k ->
                          tokens c1 !! x = tokens c !! x).
  { intros x H1 H2. subst c1 c0. now rewrite !init_if_needed_lookup_ne. }
  assert (Hc1ta : tokens c1 !! tk_taker_token_account_a k = Some ta).
  { subst c1. rewrite init_if_needed_lookup_ne by congruence. apply init_if_needed_lookup_eq. }
  rewrite (transfer_succeeds _ _ _ _ _ tb mb); cycle 1.
  { rewrite Hc1; congruence. } { exact Hc1mb. } { congruence. } { exact Htbo. }
  { subst mb. rewrite account_after_init_mint; auto. }
  { exact Hwant. } { subst mb. rewrite account_after_init_amount. exact Hovb. }
  cbn [rbind tokens offers]. unfold lookup_or.
  rewrite lookup_insert_ne, lookup_insert_ne, Hc1, Hva by congruence. cbn [rbind].
  rewrite (transfer_succeeds _ _ _ _ _ va ta); cycle 1.
  { cbn [tokens]. rewrite lookup_insert_ne, lookup_insert_ne, Hc1, Hva by congruence. reflexivity. }
  { cbn [tokens]. rewrite lookup_insert_ne, lookup_insert_ne by congruence. exact Hc1ta. }
  { congruence. } { exact Hvao. }
  { subst ta. rewrite account_after_init_mint; auto. }
  { lia. } { subst ta. rewrite account_after_init_amount. exact Hova. }
  cbn [rbind tokens offers].
  rewrite (close_token_account_succeeds _ _
             {| ta_mint := ta_mint va; ta_owner := ta_owner va; ta_amount := ta_amount va - ta_amount va |});
    [eexists; reflexivity | cbn [tokens]; rewrite lookup_insert_ne by congruence; apply lookup_insert_eq
    | cbn; lia].
Qed.

(** A [take_offer] closes the vault and no other token account. *)
Lemma take_offer_keeps signer accs c c' k o x :
  take_offer_accounts program_id signer accs (offers c) = OK (k, o) ->
  take_offer program_id signer accs c = OK c' ->
  x <> tk_vault k -> is_Some (tokens c !! x) -> is_Some (tokens c' !! x).
Proof.
  intros Hk H Hne Hx. destruct (take_offer_OK _ _ _ _ H)
    as (k' & o' & v & c2 & c3 & c4 & Hk' & Ht1 & _ & Ht2 & Hc & ->).
  rewrite Hk in Hk'. injection Hk' as <- <-. cbn [tokens].
  eapply close_token_account_is_Some; [exact Hc | exact Hne|].
  eapply transfer_is_Some; [exact Ht2|]. eapply transfer_is_Some; [exact Ht1|].
  now apply init_if_needed_is_Some, init_if_needed_is_Some.
Qed.

(** [make_offer] escrows the offered amount.  The vault is a new
    account of mint A owned by the offer holding exactly the offered
    amount, the maker's account of mint A is debited by it, and the offer
    records the maker, the mints and the wanted amount. *)
Theorem make_offer_escrows signer accs id a w c c' k :
  make_offer_accounts program_id signer accs id = OK k ->
  mk_maker_token_account_a k <> mk_vault k ->
  make_offer program_id signer accs id a w c = OK c' ->
  balance (tokens c) (mk_vault k) = 0%Z /\
  tokens c' !! mk_vault k =
    Some {| ta_mint := mk_token_mint_a k; ta_owner := mk_offer k; ta_amount := a |} /\
  balance (tokens c') (mk_maker_token_account_a k) =
    (balance (tokens c) (mk_maker_token_account_a k) - a)%Z /\
  offers c' !! mk_offer k =
    Some {| of_id := id; of_maker := mk_maker k; of_token_mint_a := mk_token_mint_a k;
            of_token_mint_b := mk_token_mint_b k; of_token_b_wanted_amount := w;
            of_bump := mk_bump k |}.
Proof.
  intros Hk Hne H. destruct (make_offer_OK _ _ _ _ _ _ _ H)
    as (k' & c1 & c2 & _ & _ & _ & Hk' & _ & Hi & Ht & ->).
  rewrite Hk in Hk'. injection Hk' as <-.
  destruct (init_token_account_OK _ _ _ _ _ Hi) as [Hfresh ->].
  split; [unfold balance; now rewrite Hfresh|].
  split; [|split].
  - cbn [tokens]. rewrite (transfer_lookup _ _ _ _ _ _ _ Ht Hne).
    rewrite bool_decide_eq_true_2 by reflexivity. cbn. now rewrite lookup_insert_eq.
  - cbn [tokens]. rewrite (balance_transfer _ _ _ _ _ _ _ Ht Hne).
    rewrite bool_decide_eq_false_2, bool_decide_eq_true_2 by congruence.
    unfold balance. cbn. now rewrite lookup_insert_ne by congruence.
  - cbn [offers]. now rewrite lookup_insert_eq.
Qed.

(** the same [make_offer] request sent again, whatever its
    amounts, is refused with [AccountInUse]: the offer address depends only
    on the maker and the id. *)
Theorem make_offer_again_in_use signer accs id a w a' w' c c' :
  u64_ok a' = true -> u64_ok w' = true ->
  make_offer program_id signer accs id a w c = OK c' ->
  make_offer program_id signer accs id a' w' c' = Fail AccountInUse.
Proof.
  intros Ha' Hw' H. destruct (make_offer_OK _ _ _ _ _ _ _ H)
    as (k & c1 & c2 & Hid & _ & _ & Hk & _ & _ & _ & ->).
  unfold make_offer. rewrite Hid, Ha', Hw'. cbn [andb guard rbind]. rewrite Hk.
  cbn [rbind offers]. now rewrite is_free_insert.
Qed.

(** Whatever the amounts of the second call, a repeated [make_offer] with
    the accounts and id of a successful one fails: on the amounts' decoding
    when one of them is not a [u64], on the offer account otherwise. *)
Lemma make_offer_again_fails signer accs id a w a' w' c c' :
  make_offer program_id signer accs id a w c = OK c' ->
  make_offer program_id signer accs id a' w' c' =
    Fail (if u64_ok a' && u64_ok w' then AccountInUse else InstructionDidNotDeserialize).
Proof.
  intros H. destruct (u64_ok a') eqn:Ea, (u64_ok w') eqn:Ew;
    [exact (make_offer_again_in_use _ _ _ _ _ _ _ _ _ Ea Ew H)|..];
    destruct (make_offer_OK _ _ _ _ _ _ _ H) as (k & c1 & c2 & Hid & _);
    unfold make_offer; rewrite Hid, Ea; try rewrite Ew; reflexivity.
Qed.

(** The offer account of [make_offer] is fixed by the signer and the id:
    two successful account checks with the same signer and id, whatever
    the other accounts, resolve the same offer. *)
Lemma make_offer_accounts_same_offer signer accs accs' id k k' :
  make_offer_accounts program_id signer accs id = OK k ->
  make_offer_accounts program_id signer accs' id = OK k' ->
  mk_offer k' = mk_offer k.
Proof.
  intros H H'.
  destruct (make_offer_accounts_OK _ _ _ _ H) as (Hm & _ & _ & _ & tp & _ & _ & Ho & _).
  destruct (make_offer_accounts_OK _ _ _ _ H') as (Hm' & _ & _ & _ & tp' & _ & _ & Ho' & _).
  rewrite Hm in Ho. rewrite Hm' in Ho'. rewrite Ho in Ho'. congruence.
Qed.

(** After a successful [make_offer], every [make_offer] signed by the same
    maker with the same id is refused, whatever its other accounts (mints,
    token program) and amounts. *)
Lemma make_offer_refused_after signer accs accs' id a w a' w' c c' :
  make_offer program_id signer accs id a w c = OK c' ->
  exists e, make_offer program_id signer accs' id a' w' c' = Fail e.
Proof.
  intros H. destruct (make_offer_OK _ _ _ _ _ _ _ H) as (k & c1 & c2 & _ & _ & _ & Hk & _ & _ & _ & ->).
  unfold make_offer.
  destruct (u64_ok id && u64_ok a' && u64_ok w'); cbn [guard rbind]; [|eauto].
  destruct (make_offer_accounts program_id signer accs' id) as [k'|] eqn:Hk'; cbn [rbind]; [|eauto].
  rewrite (make_offer_accounts_same_offer _ _ _ _ _ _ Hk Hk'). cbn [offers].
  rewrite is_free_insert. eauto.
Qed.

(** [take_offer] swaps.  The maker's account of mint B gains the
    wanted amount, which the taker's account of mint B loses; the taker's
    account of mint A gains what the vault held; the vault and the offer
    are closed. *)
Theorem take_offer_swaps signer accs c c' k o :
  take_offer_accounts program_id signer accs (offers c) = OK (k, o) ->
  NoDup [tk_taker_token_account_a k; tk_taker_token_account_b k;
         tk_maker_token_account_b k; tk_vault k] ->
  take_offer program_id signer accs c = OK c' ->
  balance (tokens c') (tk_maker_token_account_b k) =
    (balance (tokens c) (tk_maker_token_account_b k) + of_token_b_wanted_amount o)%Z /\
  balance (tokens c') (tk_taker_token_account_b k) =
    (balance (tokens c) (tk_taker_token_account_b k) - of_token_b_wanted_amount o)%Z /\
  balance (tokens c') (tk_taker_token_account_a k) =
    (balance (tokens c) (tk_taker_token_account_a k) + balance (tokens c) (tk_vault k))%Z /\
  tokens c' !! tk_vault k = None /\ offers c' !! tk_offer k = None.
Proof.
  intros Hk Hnd H. destruct (take_offer_OK _ _ _ _ H)
    as (k' & o' & v & c2 & c3 & c4 & Hk' & Ht1 & Hv & Ht2 & Hc & ->).
  rewrite Hk in Hk'. injection Hk' as <- <-.
  destruct (NoDup4 _ _ _ _ Hnd) as (Hab & Hamb & Hav & Hbmb & Hbv & Hmbv).
  assert (Hva : ta_amount v = balance (tokens c) (tk_vault k)).
  { transitivity (balance (tokens c2) (tk_vault k)); [unfold balance; now rewrite Hv|].
    rewrite (balance_transfer _ _ _ _ _ _ _ Ht1), !balance_init_if_needed by congruence.
    repeat case_bool_decide; congruence. }
  cbn [tokens offers]. split; [|split; [|split; [|split]]].
  1-3: rewrite (balance_close _ _ _ _ Hc), (balance_transfer _ _ _ _ _ _ _ Ht2),
         (balance_transfer _ _ _ _ _ _ _ Ht1), !balance_init_if_needed by congruence;
       repeat case_bool_decide; try congruence; lia.
  - destruct (close_token_account_OK _ _ _ Hc) as (? & _ & _ & ->). apply lookup_delete_eq.
  - apply lookup_delete_eq.
Qed.

(** ** The program as a state machine *)

Inductive step : chain -> chain -> Prop :=
| step_make_offer signer accs id a w c c' :
    make_offer program_id signer accs id a w c = OK c' -> step c c'
| step_take_offer signer accs c c' :
    take_offer program_id signer accs c = OK c' -> step c c'.

Inductive reachable (genesis : chain) : chain -> Prop :=
| reachable_genesis : reachable genesis genesis
| reachable_step c c' : reachable genesis c -> step c c' -> reachable genesis c'.

(** Along any sequence of successful instructions the supply
    of every mint stays what it was at genesis. *)
Theorem reachable_supply genesis c mint :
  reachable genesis c -> supply mint (tokens c) = supply mint (tokens genesis).
Proof.
  induction 1 as [|c c' _ IH Hs]; [reflexivity|]. rewrite <- IH.
  destruct Hs; eauto using make_offer_supply, take_offer_supply.
Qed.

(** Every balance stays an [u64] and every offer wants an [u64]. *)
Theorem reachable_wf genesis c : wf genesis -> reachable genesis c -> wf c.
Proof.
  intros Hg. induction 1 as [|c c' _ IH Hs]; [exact Hg|].
  destruct Hs; eauto using make_offer_wf, take_offer_wf.
Qed.

End ProgramRuns.

(** ** A concrete run, for the witnesses

    The addresses are derived with [toy_crypto]; the maker holds 1000 of
    mint A, the taker 500 of mint B; the maker offers 100 of A for 50 of B
    under id 7, then the taker takes the offer. *)

Definition res_default {A} (d : A) (r : res A) : A :=
  match r with OK a => a | Fail _ => d end.

Definition is_ok {A} (r : res A) : bool := match r with OK _ => true | Fail _ => false end.

(** A run that succeeds returns its value: checking [is_ok] by evaluation
    computes a boolean, not the ledger. *)
Lemma res_ok_default {A} (d : A) r : is_ok r = true -> r = OK (res_default d r).
Proof. destruct r; cbn; congruence. Qed.

Definition demo_pid : pubkey := repeat Byte.x09 32.
Definition demo_maker : pubkey := repeat Byte.x41 32.
Definition demo_taker : pubkey := repeat Byte.x42 32.
Definition demo_mint_a : pubkey := repeat Byte.x4d 32.
Definition demo_mint_b : pubkey := repeat Byte.x4e 32.
Definition demo_tp : pubkey := @TOKEN_2022_PROGRAM_ID toy_crypto.

Definition demo_ata (mint owner : pubkey) : pubkey :=
  res_default [] (associated_address (crypto := toy_crypto) mint owner demo_tp).

Definition demo_genesis : chain :=
  {| tokens := <[demo_ata demo_mint_b demo_taker :=
                   {| ta_mint := demo_mint_b; ta_owner := demo_taker; ta_amount := 500 |}]>
               (<[demo_ata demo_mint_a demo_maker :=
                    {| ta_mint := demo_mint_a; ta_owner := demo_maker; ta_amount := 1000 |}]> ∅);
     offers := ∅ |}.

Definition demo_make_accs : list (string * pubkey) :=
  [("maker", demo_maker); ("tokenMintA", demo_mint_a); ("tokenMintB", demo_mint_b);
   ("tokenProgram", demo_tp)].

Definition demo_make_accounts : make_accounts :=
  res_default {| mk_maker := []; mk_token_mint_a := []; mk_token_mint_b := [];
                 mk_maker_token_account_a := []; mk_offer := []; mk_bump := 0;
                 mk_vault := [] |}
    (make_offer_accounts (crypto := toy_crypto) demo_pid demo_maker demo_make_accs 7).

Definition demo_after_make : chain :=
  res_default demo_genesis
    (make_offer (crypto := toy_crypto) demo_pid demo_maker demo_make_accs 7 100 50 demo_genesis).

Definition demo_take_accs : list (string * pubkey) :=
  [("taker", demo_taker); ("maker", demo_maker); ("tokenMintA", demo_mint_a);
   ("tokenMintB", demo_mint_b); ("tokenProgram", demo_tp); ("offer", mk_offer demo_make_accounts)].

Definition demo_take_accounts : take_accounts * offer :=
  res_default ({| tk_taker := []; tk_maker := []; tk_token_mint_a := []; tk_token_mint_b := [];
                  tk_taker_token_account_a := []; tk_taker_token_account_b := [];
                  tk_maker_token_account_b := []; tk_offer := []; tk_vault := [] |},
               {| of_id := 0; of_maker := []; of_token_mint_a := []; of_token_mint_b := [];
                  of_token_b_wanted_amount := 0; of_bump := 0 |})
    (take_offer_accounts (crypto := toy_crypto) demo_pid demo_taker demo_take_accs
       (offers demo_after_make)).

Definition demo_after_take : chain :=
  res_default demo_after_make
    (take_offer (crypto := toy_crypto) demo_pid demo_taker demo_take_accs demo_after_make).

Lemma make_offer_escrows_witness :
  balance (tokens demo_genesis) (mk_vault demo_make_accounts) = 0%Z /\
  tokens demo_after_make !! mk_vault demo_make_accounts =
    Some {| ta_mint := mk_token_mint_a demo_make_accounts; ta_owner := mk_offer demo_make_accounts;
            ta_amount := 100 |} /\
  balance (tokens demo_after_make) (mk_maker_token_account_a demo_make_accounts) =
    (balance (tokens demo_genesis) (mk_maker_token_account_a demo_make_accounts) - 100)%Z /\
  offers demo_after_make !! mk_offer demo_make_accounts =
    Some {| of_id := 7; of_maker := mk_maker demo_make_accounts;
            of_token_mint_a := mk_token_mint_a demo_make_accounts;
            of_token_mint_b := mk_token_mint_b demo_make_accounts;
            of_token_b_wanted_amount := 50; of_bump := mk_bump demo_make_accounts |}.
Proof.
  apply (@make_offer_escrows toy_crypto demo_pid demo_maker demo_make_accs 7 100 50 demo_genesis).
  - apply res_ok_default. vm_compute. reflexivity.
  - vm_compute. intros H. discriminate H.
  - apply res_ok_default. vm_compute. reflexivity.
Defined.

Lemma make_offer_again_in_use_witness :
  make_offer (crypto := toy_crypto) demo_pid demo_maker demo_make_accs 7 1 1 demo_after_make
    = Fail AccountInUse.
Proof.
  apply (@make_offer_again_in_use toy_crypto demo_pid demo_maker demo_make_accs 7 100 50 1 1
           demo_genesis); [reflexivity | reflexivity |].
  apply res_ok_default. vm_compute. reflexivity.
Defined.

Lemma take_offer_swaps_witness :
  let k := fst demo_take_accounts in
  let o := snd demo_take_accounts in
  balance (tokens demo_after_take) (tk_maker_token_account_b k) =
    (balance (tokens demo_after_make) (tk_maker_token_account_b k) + of_token_b_wanted_amount o)%Z /\
  balance (tokens demo_after_take) (tk_taker_token_account_b k) =
    (balance (tokens demo_after_make) (tk_taker_token_account_b k) - of_token_b_wanted_amount o)%Z /\
  balance (tokens demo_after_take) (tk_taker_token_account_a k) =
    (balance (tokens demo_after_make) (tk_taker_token_account_a k) +
     balance (tokens demo_after_make) (tk_vault k))%Z /\
  tokens demo_after_take !! tk_vault k = None /\ offers demo_after_take !! tk_offer k = None.
Proof.
  apply (@take_offer_swaps toy_crypto demo_pid demo_taker demo_take_accs demo_after_make).
  - rewrite <- surjective_pairing. apply res_ok_default. vm_compute. reflexivity.
  - apply (bool_decide_unpack _). vm_compute. reflexivity.
  - apply res_ok_default. vm_compute. reflexivity.
Defined.

Lemma demo_reachable : reachable (crypto := toy_crypto) demo_pid demo_genesis demo_after_take.
Proof.
  apply (reachable_step _ _ demo_after_make); [apply (reachable_step _ _ demo_genesis)|].
  - apply reachable_genesis.
  - apply (step_make_offer _ demo_maker demo_make_accs 7 100 50).
    apply res_ok_default. vm_compute. reflexivity.
  - apply (step_take_offer _ demo_taker demo_take_accs).
    apply res_ok_default. vm_compute. reflexivity.
Defined.

Lemma reachable_supply_witness :
  supply demo_mint_a (tokens demo_after_take) = supply demo_mint_a (tokens demo_genesis) /\
  supply demo_mint_a (tokens demo_genesis) = 1000%Z.
Proof.
  split; [exact (@reachable_supply toy_crypto demo_pid _ _ demo_mint_a demo_reachable)|].
  vm_compute. reflexivity.
Defined.

Lemma demo_genesis_wf : wf demo_genesis.
Proof.
  split; [|apply map_Forall_empty].
  repeat apply map_Forall_insert_2; cbn; try (unfold u64_max; lia). apply map_Forall_empty.
Qed.

Lemma reachable_wf_witness : wf demo_after_take.
Proof. exact (@reachable_wf toy_crypto demo_pid _ _ demo_genesis_wf demo_reachable). Defined.

End Escrow.
