(* ===== verification/SwapTest.v ===== *)
(** The integration test [tests/swap.ts] and the cluster it runs against.

    [Cluster] is the interface the test script (and the page) see of the
    chain: sending a request signed by a key, reading the balance of a
    token account, fetching an [Offer] account, and the helper library's
    creation of funded token accounts.  [escrow_cluster] implements it with
    the ledger and the instructions of [Escrow], after Anchor's coder has
    written the [u64] arguments ([encode_u64]: the magnitude of the BN in
    8 little-endian bytes).

    The script is modelled as it is written: a mocha suite whose [before]
    hook and two [it] blocks share the mutable [accounts] object and the
    chain ([world]); each block runs in [T], a state, writer and exception
    monad, so that a block that throws after its RPC leaves the chain as
    the RPC made it for the next block.  The assertions are the ones of
    [node:console]: [console.assert] prints and never throws.  [report]
    is what mocha prints of the tests' durations: [.slow(...)] is chained
    on the second test only. *)

From Stdlib Require Import ZArith List String.
From stdpp Require Import base gmap.
From S2P Require Import Prelude Bytes Effects Web3 Escrow.
Import ListNotations.

Module Suite.

Import Web3 Eff.

(** What the script and the page see of the chain. *)
Class Cluster : Type := {
  cl_state : Type;
  (** [program.methods.<ix>(...).accounts(...).signers([k]).rpc()]: the
      transaction lands, or the promise rejects *)
  cl_send : pubkey -> rpc_request -> cl_state -> option cl_state;
  (** [connection.getTokenAccountBalance(k)] *)
  cl_token_balance : cl_state -> pubkey -> option Z;
  (** [program.account.offer.fetch(k)] *)
  cl_fetch_offer : cl_state -> pubkey -> option Escrow.offer;
  (** the helpers' creation of the token account of a mint for an owner,
      funded with an amount; it returns the account's address *)
  cl_create_token_account : cl_state -> pubkey -> pubkey -> Z -> option (cl_state * pubkey)
}.

(** ** The cluster of the escrow program *)

Section EscrowCluster.
Context {crypto : Crypto}.
Variable program_id : pubkey.

Definition option_of_res {A} (r : Escrow.res A) : option A :=
  match r with Escrow.OK a => Some a | Escrow.Fail _ => None end.

(** Anchor's instruction coder writes a [u64] argument with
    [BN.toArrayLike(Buffer, 'le', 8)]: the magnitude of the BN, the sign
    dropped; a magnitude of [2^64] or more fails the assertion and the
    [.rpc()] promise rejects before anything is sent.  The program reads
    the 8 bytes back as an unsigned integer. *)
Definition encode_u64 (x : Z) : option Z :=
  option_map LE.le_decode (LE.to_array_like_le x 8).

Arguments encode_u64 : simpl never.

Definition escrow_send (signer : pubkey) (rq : rpc_request) (c : Escrow.chain)
  : option Escrow.chain :=
  match rq_ix rq with
  | IxMakeOffer id a b =>
      match encode_u64 id, encode_u64 a, encode_u64 b with
      | Some id', Some a', Some b' =>
          option_of_res (Escrow.make_offer program_id signer (rq_accounts rq) id' a' b' c)
      | _, _, _ => None
      end
  | IxTakeOffer => option_of_res (Escrow.take_offer program_id signer (rq_accounts rq) c)
  end.

(** The helper creates the associated token account (Token-2022) and
    mints the amount to it. *)
Definition escrow_create_token_account (c : Escrow.chain) (mint owner : pubkey) (amount : Z)
  : option (Escrow.chain * pubkey) :=
  match Escrow.associated_address mint owner TOKEN_2022_PROGRAM_ID with
  | Escrow.OK k =>
      match Escrow.tokens c !! k with
      | Some _ => None
      | None => Some ({| Escrow.tokens := <[k := {| Escrow.ta_mint := mint; Escrow.ta_owner := owner;
                                                  Escrow.ta_amount := amount |}]> (Escrow.tokens c);
                         Escrow.offers := Escrow.offers c |}, k)
      end
  | Escrow.Fail _ => None
  end.

Definition escrow_cluster : Cluster := {|
  cl_state := Escrow.chain;
  cl_send := escrow_send;
  cl_token_balance := fun c k => option_map Escrow.ta_amount (Escrow.tokens c !! k);
  cl_fetch_offer := fun c k => Escrow.offers c !! k;
  cl_create_token_account := escrow_create_token_account
|}.

End EscrowCluster.

(** ** The script's monad *)

Section Script.
Context {crypto : Crypto} {cl : Cluster}.

(** The chain and the [accounts] object the hooks and tests share. *)
Record world : Type := {
  w_chain : cl_state;
  w_accounts : list (string * pubkey)
}.

Definition T (A : Type) : Type := world -> list effect * world * outcome A.

Definition tret {A} (a : A) : T A := fun w => ([], w, Ok a).

Definition tthrow {A} (e : js_error) : T A := fun w => ([], w, Err e).

Definition tbind {A B} (m : T A) (k : A -> T B) : T B := fun w =>
  match m w with
  | (l, w', Ok a) => let '(l', w'', r) := k a w' in (l ++ l', w'', r)
  | (l, w', Err e) => (l, w', Err e)
  end.

(** A library call of the [Eff] monad inside a test. *)
Definition tlift {A} (c : M A) : T A := fun w => (effects_of c, w, result_of c).

(** [obj.name = k]: an existing property keeps its place, a new one is
    added last. *)
Fixpoint js_set (o : list (string * pubkey)) (name : string) (k : pubkey)
  : list (string * pubkey) :=
  match o with
  | [] => [(name, k)]
  | (n, v) :: o' => if String.eqb n name then (n, k) :: o' else (n, v) :: js_set o' name k
  end.

Definition set_account (name : string) (k : pubkey) : T unit := fun w =>
  ([], {| w_chain := w_chain w; w_accounts := js_set (w_accounts w) name k |}, Ok tt).

(** [accounts.name.toBuffer()] and the like: [undefined] has no property. *)
Definition get_account (name : string) : T pubkey := fun w =>
  match Escrow.account_of (w_accounts w) name with
  | Some k => ([], w, Ok k)
  | None => ([], w, Err (TypeError name))
  end.

Definition rpc (signer : pubkey) (ix : instruction) : T unit := fun w =>
  let rq := {| rq_ix := ix; rq_accounts := w_accounts w |} in
  match cl_send signer rq (w_chain w) with
  | Some s => ([SendRpc rq], {| w_chain := s; w_accounts := w_accounts w |}, Ok tt)
  | None => ([SendRpc rq], w, Err (RpcError "transaction failed"))
  end.

Definition get_token_balance (k : pubkey) : T Z := fun w =>
  match cl_token_balance (w_chain w) k with
  | Some z => ([], w, Ok z)
  | None => ([], w, Err (RpcError "could not find account"))
  end.

Definition fetch_offer (k : pubkey) : T Escrow.offer := fun w =>
  match cl_fetch_offer (w_chain w) k with
  | Some o => ([], w, Ok o)
  | None => ([], w, Err (RpcError "Account does not exist"))
  end.

Definition create_token_account (mint owner : pubkey) (amount : Z) : T pubkey := fun w =>
  match cl_create_token_account (w_chain w) mint owner amount with
  | Some (s, k) => ([], {| w_chain := s; w_accounts := w_accounts w |}, Ok k)
  | None => ([], w, Err (RpcError "could not create token account"))
  end.

(** [assert] of [node:console]: a false condition is printed, nothing is
    thrown. *)
Definition console_assert (b : bool) : T unit := fun w =>
  if b then ([], w, Ok tt) else ([Log "Assertion failed"], w, Ok tt).

Lemma console_assert_ok b w :
  console_assert b w = (if b then [] else [Log "Assertion failed"], w, Ok tt).
Proof. now destruct b. Qed.

End Script.

Declare Scope test_scope.
Notation "x <-- c ;; k" := (tbind c (fun x => k))
  (at level 100, c at next level, right associativity) : test_scope.
Notation "c ;;; k" := (tbind c (fun _ => k))
  (at level 100, right associativity) : test_scope.

(** ** The script *)

Section TestScript.
Context {crypto : Crypto} {cl : Cluster}.
Variable program_id : pubkey.
Local Open Scope test_scope.
Local Open Scope string_scope.

(** [const TOKEN_PROGRAM = TOKEN_2022_PROGRAM_ID] *)
Definition TOKEN_PROGRAM : pubkey := TOKEN_2022_PROGRAM_ID.

Definition tokenAOfferedAmount : Z := 1000000.
Definition tokenBWantedAmount : Z := 1000000.

(** [const accounts = { tokenProgram: TOKEN_PROGRAM }] *)
Definition initial_accounts : list (string * pubkey) := [("tokenProgram", TOKEN_PROGRAM)].

(** [createAccountsMintsAndTokenAccounts(balances, ...)] of the helpers:
    for each user, one funded token account per mint; the users' and the
    mints' keypairs are fresh random keys, given here. *)
Fixpoint create_token_accounts (owner : pubkey) (mints : list pubkey) (amounts : list Z)
  : T (list pubkey) :=
  match mints, amounts with
  | m :: ms, a :: amts =>
      k <-- create_token_account m owner a ;;
      ks <-- create_token_accounts owner ms amts ;;
      tret (k :: ks)
  | _, _ => tret []
  end.

Fixpoint create_accounts_mints_and_token_accounts (users mints : list pubkey)
    (balances : list (list Z)) : T (list (list pubkey)) :=
  match users, balances with
  | u :: us, b :: bs =>
      ks <-- create_token_accounts u mints b ;;
      kss <-- create_accounts_mints_and_token_accounts us mints bs ;;
      tret (ks :: kss)
  | _, _ => tret []
  end.

(** The [before] hook (swap.ts:51-100). *)
Definition before_hook (alice bob mint_a mint_b : pubkey) : T unit :=
  token_accounts <-- create_accounts_mints_and_token_accounts [alice; bob] [mint_a; mint_b]
                       [[1000000000; 0]; [0; 1000000000]]%Z ;;
  match token_accounts with
  | [[alice_a; alice_b]; [bob_a; bob_b]] =>
      set_account "maker" alice ;;; set_account "taker" bob ;;;
      set_account "tokenMintA" mint_a ;;; set_account "tokenMintB" mint_b ;;;
      set_account "makerTokenAccountA" alice_a ;;; set_account "makerTokenAccountB" alice_b ;;;
      set_account "takerTokenAccountA" bob_a ;;; set_account "takerTokenAccountB" bob_b
  | _ => tthrow (TypeError "tokenAccounts")
  end.

(** [new BN(randomBytes(8))]: a BN built from a buffer reads it big-endian. *)
Definition offer_id_of_bytes (rnd : list Byte.byte) : Z := LE.le_decode (rev rnd).

(** The first test (swap.ts:102-150). *)
Definition make_offer_test (rnd : list Byte.byte) (alice mint_a mint_b : pubkey) : T unit :=
  let offer_id := offer_id_of_bytes rnd in
  maker <-- get_account "maker" ;;
  id_bytes <-- tlift (of_option ByteArrayTooLong (LE.to_array_like_le offer_id 8)) ;;
  pda <-- tlift (find_program_address_sync [list_byte_of_string "offer"; maker; id_bytes]
                   program_id) ;;
  let offer := fst pda in
  token_mint_a <-- get_account "tokenMintA" ;;
  vault <-- tlift (get_associated_token_address_sync token_mint_a offer true TOKEN_PROGRAM) ;;
  set_account "offer" offer ;;;
  set_account "vault" vault ;;;
  rpc alice (IxMakeOffer offer_id tokenAOfferedAmount tokenBWantedAmount) ;;;
  vault_balance <-- get_token_balance vault ;;
  console_assert (vault_balance =? tokenAOfferedAmount)%Z ;;;
  offer_account <-- fetch_offer offer ;;
  console_assert (bool_decide (Escrow.of_maker offer_account = alice)) ;;;
  console_assert (Escrow.of_token_b_wanted_amount offer_account =? tokenBWantedAmount)%Z ;;;
  console_assert (bool_decide (Escrow.of_token_mint_a offer_account = mint_a)) ;;;
  console_assert (bool_decide (Escrow.of_token_mint_b offer_account = mint_b)).

(** The second test (swap.ts:152-172). *)
Definition take_offer_test (bob : pubkey) : T unit :=
  rpc bob IxTakeOffer ;;;
  maker_b <-- get_account "makerTokenAccountB" ;;
  alice_b <-- get_token_balance maker_b ;;
  taker_a <-- get_account "takerTokenAccountA" ;;
  bob_a <-- get_token_balance taker_a ;;
  console_assert (alice_b =? tokenBWantedAmount)%Z ;;;
  console_assert (bob_a =? tokenAOfferedAmount)%Z.

(** What mocha reports of a block. *)
Inductive verdict : Type :=
| Passed
| Failed (e : js_error)
| HookFailed (e : js_error).

Definition verdict_of {A} (r : outcome A) : verdict :=
  match r with Ok _ => Passed | Err e => Failed e end.

(** The suite (swap.ts:27-174): the hook, then both tests in order on the
    world the previous block left, whether it passed or not; a failed hook
    skips the tests. *)
Definition run_suite (genesis : cl_state) (alice bob mint_a mint_b : pubkey)
    (rnd : list Byte.byte) : list effect * list verdict :=
  let w0 := {| w_chain := genesis; w_accounts := initial_accounts |} in
  match before_hook alice bob mint_a mint_b w0 with
  | (l0, _, Err e) => (l0, [HookFailed e])
  | (l0, w1, Ok _) =>
      let '(l1, w2, r1) := make_offer_test rnd alice mint_a mint_b w1 in
      let '(l2, _, r2) := take_offer_test bob w2 in
      ((l0 ++ l1 ++ l2)%list, [verdict_of r1; verdict_of r2])
  end.

End TestScript.

(** ** What mocha reports of the tests' durations (swap.ts:21-25, 172) *)

Definition SECONDS : Z := 1000.
Definition ANCHOR_SLOW_TEST_THRESHOLD : Z := 40 * SECONDS.

(** mocha's default [slow] threshold, in milliseconds. *)
Definition mocha_default_slow : Z := 75.

Inductive speed : Type :=
| Fast
| Medium
| Slow.

(** mocha's reporter: a test that took longer than its [slow] threshold
    is slow, longer than half of it medium; either way it still passes. *)
Definition speed_of (slow duration : Z) : speed :=
  if (slow <? duration)%Z then Slow
  else if (slow / 2 <? duration)%Z then Medium else Fast.

(** The thresholds of the two tests: [.slow(ANCHOR_SLOW_TEST_THRESHOLD)] is
    chained on the second [it] only. *)
Definition slow_thresholds : list Z := [mocha_default_slow; ANCHOR_SLOW_TEST_THRESHOLD].

(** The report of the two tests: each verdict with the speed of its test. *)
Definition report (verdicts : list verdict) (durations : list Z) : list (verdict * speed) :=
  map (fun '(v, (slow, d)) => (v, speed_of slow d))
      (combine verdicts (combine slow_thresholds durations)).

(** ** The suite against the escrow program *)

(** A fresh local validator: no token account, no offer. *)
Definition fresh_validator : Escrow.chain := {| Escrow.tokens := ∅; Escrow.offers := ∅ |}.

Lemma escrow_create_ok {crypto : Crypto} c mint owner a k :
  Escrow.associated_address mint owner TOKEN_2022_PROGRAM_ID = Escrow.OK k ->
  Escrow.tokens c !! k = None ->
  escrow_create_token_account c mint owner a =
    Some ({| Escrow.tokens := <[k := {| Escrow.ta_mint := mint; Escrow.ta_owner := owner;
                                      Escrow.ta_amount := a |}]> (Escrow.tokens c);
             Escrow.offers := Escrow.offers c |}, k).
Proof. intros H1 H2. unfold escrow_create_token_account. now rewrite H1, H2. Qed.

Lemma token_balance_is_Some (m : gmap pubkey Escrow.token_account) k :
  is_Some (m !! k) -> option_map Escrow.ta_amount (m !! k) = Some (Escrow.balance m k).
Proof. intros [a Ha]. unfold Escrow.balance. now rewrite Ha. Qed.

(** A [u64] argument already in range is written as it is. *)
Lemma encode_u64_small x : (0 <= x < 2 ^ 64)%Z -> encode_u64 x = Some x.
Proof.
  intros H. unfold encode_u64.
  rewrite LE.to_array_like_le_fits by (try discriminate; cbn; lia).
  cbn [option_map]. rewrite Z.abs_eq by lia.
  f_equal. apply LE.le_decode_encode_small. cbn. lia.
Qed.

Lemma offer_id_of_bytes_range rnd :
  length rnd = 8%nat -> (0 <= offer_id_of_bytes rnd < 2 ^ 64)%Z.
Proof.
  intros Hl. pose proof (LE.le_decode_bound (rev rnd)) as Hb.
  rewrite length_rev, Hl in Hb. exact Hb.
Qed.


Section EndToEnd.
Context {crypto : Crypto}.
Variables (program_id alice bob mint_a mint_b : pubkey) (rnd : list Byte.byte).
Variables (a_a a_b b_a b_b offer vault : pubkey) (bump : nat).

(** The random bytes of the offer id, and what the libraries derive from
    the keys: the four funded accounts, the offer and its vault. *)
Hypothesis H_rnd : length rnd = 8%nat.
Hypothesis H_aa : get_associated_token_address_sync mint_a alice true TOKEN_2022_PROGRAM_ID = ret a_a.
Hypothesis H_ab : get_associated_token_address_sync mint_b alice true TOKEN_2022_PROGRAM_ID = ret a_b.
Hypothesis H_ba : get_associated_token_address_sync mint_a bob true TOKEN_2022_PROGRAM_ID = ret b_a.
Hypothesis H_bb : get_associated_token_address_sync mint_b bob true TOKEN_2022_PROGRAM_ID = ret b_b.
Hypothesis H_offer :
  find_program_address_sync [list_byte_of_string "offer"; alice; LE.le_encode 8 (offer_id_of_bytes rnd)]
    program_id = ret (offer, bump).
Hypothesis H_vault : get_associated_token_address_sync mint_a offer true TOKEN_2022_PROGRAM_ID = ret vault.
Hypothesis H_distinct : NoDup [a_a; a_b; b_a; b_b; vault].

Local Opaque Escrow.make_offer Escrow.take_offer Escrow.associated_address Escrow.offer_address
  find_program_address_sync get_associated_token_address_sync LE.to_array_like_le
  LE.le_encode list_byte_of_string.

Lemma distinct_accounts :
  a_a <> a_b /\ a_a <> b_a /\ a_a <> b_b /\ a_a <> vault /\ a_b <> b_a /\ a_b <> b_b /\
  a_b <> vault /\ b_a <> b_b /\ b_a <> vault /\ b_b <> vault.
Proof.
  pose proof H_distinct as H. rewrite !NoDup_cons, !not_elem_of_cons in H.
  intuition congruence.
Qed.

Ltac distinct := pose proof distinct_accounts; intuition congruence.

Local Open Scope string_scope.

Definition chain_after_setup : Escrow.chain :=
  {| Escrow.tokens :=
       <[b_b := {| Escrow.ta_mint := mint_b; Escrow.ta_owner := bob; Escrow.ta_amount := 1000000000 |}]>
       (<[b_a := {| Escrow.ta_mint := mint_a; Escrow.ta_owner := bob; Escrow.ta_amount := 0 |}]>
        (<[a_b := {| Escrow.ta_mint := mint_b; Escrow.ta_owner := alice; Escrow.ta_amount := 0 |}]>
         (<[a_a := {| Escrow.ta_mint := mint_a; Escrow.ta_owner := alice;
                      Escrow.ta_amount := 1000000000 |}]> ∅)));
     Escrow.offers := ∅ |}.

Definition accounts_after_setup : list (string * pubkey) :=
  [("tokenProgram", TOKEN_PROGRAM); ("maker", alice); ("taker", bob); ("tokenMintA", mint_a);
   ("tokenMintB", mint_b); ("makerTokenAccountA", a_a); ("makerTokenAccountB", a_b);
   ("takerTokenAccountA", b_a); ("takerTokenAccountB", b_b)].

Lemma before_hook_escrow :
  before_hook (cl := escrow_cluster program_id) alice bob mint_a mint_b
    (@Build_world (escrow_cluster program_id) fresh_validator initial_accounts) =
  ([], @Build_world (escrow_cluster program_id) chain_after_setup accounts_after_setup, Ok tt).
Proof.
  unfold before_hook, create_accounts_mints_and_token_accounts, create_token_accounts,
    tbind, tret, tthrow, create_token_account, set_account. cbn.
  rewrite (escrow_create_ok _ _ _ _ _ (Escrow.associated_address_ret _ _ _ _ H_aa))
    by apply lookup_empty. cbn.
  rewrite (escrow_create_ok _ _ _ _ _ (Escrow.associated_address_ret _ _ _ _ H_ab))
    by (cbn; rewrite lookup_insert_ne by distinct; apply lookup_empty). cbn.
  rewrite (escrow_create_ok _ _ _ _ _ (Escrow.associated_address_ret _ _ _ _ H_ba))
    by (cbn; rewrite !lookup_insert_ne by distinct; apply lookup_empty). cbn.
  rewrite (escrow_create_ok _ _ _ _ _ (Escrow.associated_address_ret _ _ _ _ H_bb))
    by (cbn; rewrite !lookup_insert_ne by distinct; apply lookup_empty). cbn.
  reflexivity.
Qed.

Definition offer_record : Escrow.offer :=
  {| Escrow.of_id := offer_id_of_bytes rnd; Escrow.of_maker := alice;
     Escrow.of_token_mint_a := mint_a; Escrow.of_token_mint_b := mint_b;
     Escrow.of_token_b_wanted_amount := tokenBWantedAmount; Escrow.of_bump := bump |}.

Definition chain_after_make : Escrow.chain :=
  {| Escrow.tokens :=
       <[vault := {| Escrow.ta_mint := mint_a; Escrow.ta_owner := offer;
                     Escrow.ta_amount := tokenAOfferedAmount |}]>
       (<[a_a := {| Escrow.ta_mint := mint_a; Escrow.ta_owner := alice;
                    Escrow.ta_amount := 1000000000 - tokenAOfferedAmount |}]>
        (<[vault := {| Escrow.ta_mint := mint_a; Escrow.ta_owner := offer;
                       Escrow.ta_amount := 0 |}]> (Escrow.tokens chain_after_setup)));
     Escrow.offers := <[offer := offer_record]> ∅ |}.

Definition accounts_after_make : list (string * pubkey) :=
  accounts_after_setup ++ [("offer", offer); ("vault", vault)].

Definition make_request : rpc_request :=
  {| rq_ix := IxMakeOffer (offer_id_of_bytes rnd) tokenAOfferedAmount tokenBWantedAmount;
     rq_accounts := accounts_after_make |}.

Lemma make_offer_escrow_step :
  Escrow.make_offer program_id alice accounts_after_make (offer_id_of_bytes rnd)
    tokenAOfferedAmount tokenBWantedAmount chain_after_setup = Escrow.OK chain_after_make.
Proof.
  pose proof (offer_id_of_bytes_range rnd H_rnd) as Hr.
  rewrite (Escrow.make_offer_succeeds program_id _ _ _ _ _ _ _
             {| Escrow.ta_mint := mint_a; Escrow.ta_owner := alice; Escrow.ta_amount := 1000000000 |}
             (Escrow.make_offer_accounts_succeeds program_id alice accounts_after_make _
                mint_a mint_b TOKEN_PROGRAM a_a offer bump vault eq_refl eq_refl eq_refl eq_refl
                (Escrow.associated_address_ret _ _ _ _ H_aa)
                (Escrow.offer_address_ret program_id _ _ _ H_offer)
                (Escrow.associated_address_ret _ _ _ _ H_vault)
                (or_intror eq_refl) (or_intror eq_refl) (or_intror eq_refl))).
  - reflexivity.
  - apply Escrow.u64_ok_spec. unfold Escrow.u64_max. lia.
  - reflexivity.
  - reflexivity.
  - apply lookup_empty.
  - cbn [Escrow.tokens chain_after_setup Escrow.mk_maker_token_account_a Escrow.mk_vault].
    rewrite !lookup_insert_ne by distinct.
    apply lookup_empty.
  - cbn [Escrow.tokens chain_after_setup Escrow.mk_maker_token_account_a Escrow.mk_vault].
    do 3 rewrite lookup_insert_ne by distinct.
    apply lookup_insert_eq.
  - reflexivity.
  - reflexivity.
  - cbn [Escrow.ta_amount]. unfold tokenAOfferedAmount. lia.
Qed.

Lemma make_offer_test_escrow :
  make_offer_test (cl := escrow_cluster program_id) program_id rnd alice mint_a mint_b
    (@Build_world (escrow_cluster program_id) chain_after_setup accounts_after_setup) =
  ([SendRpc make_request],
   @Build_world (escrow_cluster program_id) chain_after_make accounts_after_make, Ok tt).
Proof.
  pose proof (offer_id_of_bytes_range rnd H_rnd) as Hr.
  unfold make_offer_test, tbind, tret, tlift, get_account, set_account, rpc, get_token_balance,
    fetch_offer, console_assert.
  cbn.
  rewrite LE.to_array_like_le_fits, Z.abs_eq by (cbn; lia). cbn.
  rewrite H_offer. cbn.
  rewrite (H_vault : get_associated_token_address_sync mint_a offer true TOKEN_PROGRAM = ret vault).
  cbn.
  rewrite !encode_u64_small by (unfold tokenAOfferedAmount, tokenBWantedAmount; lia).
  match goal with
  | |- context [Escrow.make_offer program_id alice ?accs ?i ?a ?b ?c] =>
      replace (Escrow.make_offer program_id alice accs i a b c) with (Escrow.OK chain_after_make)
        by (symmetry; exact make_offer_escrow_step)
  end.
  cbn. rewrite lookup_insert_eq. cbn. rewrite lookup_insert_eq. cbn.
  rewrite !bool_decide_eq_true_2 by reflexivity. cbn.
  reflexivity.
Qed.

Definition take_accounts_expected : Escrow.take_accounts :=
  {| Escrow.tk_taker := bob; Escrow.tk_maker := alice; Escrow.tk_token_mint_a := mint_a;
     Escrow.tk_token_mint_b := mint_b; Escrow.tk_taker_token_account_a := b_a;
     Escrow.tk_taker_token_account_b := b_b; Escrow.tk_maker_token_account_b := a_b;
     Escrow.tk_offer := offer; Escrow.tk_vault := vault |}.

Ltac lookup_made :=
  cbn [Escrow.tokens Escrow.offers chain_after_make chain_after_setup
       Escrow.tk_taker_token_account_a Escrow.tk_taker_token_account_b
       Escrow.tk_maker_token_account_b Escrow.tk_vault Escrow.tk_offer take_accounts_expected];
  repeat (rewrite lookup_insert_eq || rewrite lookup_insert_ne by distinct).

Lemma take_offer_escrow_step :
  exists c3,
    Escrow.take_offer program_id bob accounts_after_make chain_after_make = Escrow.OK c3 /\
    option_map Escrow.ta_amount (Escrow.tokens c3 !! a_b) = Some tokenBWantedAmount /\
    option_map Escrow.ta_amount (Escrow.tokens c3 !! b_a) = Some tokenAOfferedAmount.
Proof.
  assert (Hk : Escrow.take_offer_accounts program_id bob accounts_after_make
                 (Escrow.offers chain_after_make) = Escrow.OK (take_accounts_expected, offer_record)).
  { apply (Escrow.take_offer_accounts_succeeds program_id _ _ _ _ alice mint_a mint_b TOKEN_PROGRAM
             offer bump); try reflexivity.
    - lookup_made. reflexivity.
    - exact (Escrow.offer_address_ret program_id _ _ _ H_offer).
    - exact (Escrow.associated_address_ret _ _ _ _ H_ba).
    - exact (Escrow.associated_address_ret _ _ _ _ H_bb).
    - exact (Escrow.associated_address_ret _ _ _ _ H_ab).
    - exact (Escrow.associated_address_ret _ _ _ _ H_vault).
    - right; reflexivity.
    - right; reflexivity.
    - right; reflexivity.
    - right; reflexivity. }
  assert (Hnd : NoDup [b_a; b_b; a_b; vault]).
  { pose proof distinct_accounts as D.
    repeat constructor; rewrite ?elem_of_cons, ?elem_of_nil; intuition congruence. }
  destruct (Escrow.take_offer_succeeds program_id _ _ _ _ _
              {| Escrow.ta_mint := mint_b; Escrow.ta_owner := bob; Escrow.ta_amount := 1000000000 |}
              {| Escrow.ta_mint := mint_a; Escrow.ta_owner := offer;
                 Escrow.ta_amount := tokenAOfferedAmount |} Hk Hnd)
    as [c3 Hc3].
  all: try (lookup_made; reflexivity).
  all: try (cbn; unfold tokenBWantedAmount; lia).
  all: try (intros t; lookup_made; intros Ht; injection Ht as <-; reflexivity).
  all: try (unfold Escrow.balance; lookup_made; cbn; unfold Escrow.u64_max, tokenAOfferedAmount,
              tokenBWantedAmount; lia).
  exists c3. split; [exact Hc3|].
  destruct (Escrow.take_offer_swaps program_id _ _ _ _ _ _ Hk Hnd Hc3)
    as (Hmb & _ & Hta & _ & _).
  cbn [Escrow.tk_maker_token_account_b Escrow.tk_taker_token_account_a take_accounts_expected] in *.
  split; rewrite token_balance_is_Some.
  - rewrite Hmb. unfold Escrow.balance. lookup_made. reflexivity.
  - eapply (Escrow.take_offer_keeps program_id _ _ _ _ _ _ a_b Hk Hc3); [distinct|].
    lookup_made. eexists; reflexivity.
  - rewrite Hta. unfold Escrow.balance. lookup_made. reflexivity.
  - eapply (Escrow.take_offer_keeps program_id _ _ _ _ _ _ b_a Hk Hc3); [distinct|].
    lookup_made. eexists; reflexivity.
Qed.

Definition take_request : rpc_request :=
  {| rq_ix := IxTakeOffer; rq_accounts := accounts_after_make |}.

Lemma take_offer_test_escrow :
  exists c3,
    take_offer_test (cl := escrow_cluster program_id) bob
      (@Build_world (escrow_cluster program_id) chain_after_make accounts_after_make) =
    ([SendRpc take_request], @Build_world (escrow_cluster program_id) c3 accounts_after_make, Ok tt).
Proof.
  destruct take_offer_escrow_step as (c3 & Ht & Hab & Hba). exists c3.
  unfold take_offer_test, tbind, tret, get_account, rpc, get_token_balance, console_assert. cbn.
  match goal with
  | |- context [Escrow.take_offer program_id bob ?accs ?c] =>
      replace (Escrow.take_offer program_id bob accs c) with (Escrow.OK c3) by (symmetry; exact Ht)
  end.
  cbn. rewrite Hab. cbn. rewrite Hba. reflexivity.
Qed.

(** C4: The integration test passes against the escrow program.  From a
    fresh validator, with the accounts the libraries derive for the random
    keys all distinct, the [before] hook, the make-offer test and the
    take-offer test run to completion: the suite sends exactly the two
    requests, both tests pass, and no [console.assert] fails, so the vault
    held the offered amount, the offer recorded the maker, the mints and
    the wanted amount, and each party received the other's tokens. *)
Theorem suite_passes_on_escrow :
  run_suite (cl := escrow_cluster program_id) program_id fresh_validator alice bob mint_a mint_b rnd =
  ([SendRpc make_request; SendRpc take_request], [Passed; Passed]).
Proof.
  destruct take_offer_test_escrow as (c3 & Ht).
  unfold run_suite. cbv zeta.
  rewrite before_hook_escrow. cbn [fst snd].
  rewrite make_offer_test_escrow. rewrite Ht. reflexivity.
Qed.

End EndToEnd.

(** ** What the assertions can detect *)

Section Vacuous.
Context {crypto : Crypto} {cl : Cluster}.
Variables (program_id alice bob mint_a mint_b offer vault : pubkey) (bump : nat)
  (rnd : list Byte.byte) (genesis : cl_state).

(** Every request the script makes is accepted: the accounts are created,
    the transactions land, the balances and the offer can be read. *)
Hypothesis H_create : forall s m o a, exists s' k, cl_create_token_account s m o a = Some (s', k).
Hypothesis H_send : forall signer rq s, exists s', cl_send signer rq s = Some s'.
Hypothesis H_balance : forall s k, exists z, cl_token_balance s k = Some z.
Hypothesis H_fetch : forall s k, exists o, cl_fetch_offer s k = Some o.
Hypothesis H_rnd : length rnd = 8%nat.
Hypothesis H_offer :
  find_program_address_sync [list_byte_of_string "offer"; alice; LE.le_encode 8 (offer_id_of_bytes rnd)]
    program_id = ret (offer, bump).
Hypothesis H_vault : get_associated_token_address_sync mint_a offer true TOKEN_2022_PROGRAM_ID = ret vault.

Local Opaque find_program_address_sync get_associated_token_address_sync LE.to_array_like_le
  LE.le_encode list_byte_of_string.

(** C5: [console.assert] of [node:console] cannot fail a test:
    whenever every request is accepted, mocha reports both tests passed,
    whatever balances the cluster reports and whatever offer it returns. *)
Theorem suite_passes_whatever_the_cluster_holds :
  snd (run_suite program_id genesis alice bob mint_a mint_b rnd) = [Passed; Passed].
Proof.
  pose proof (offer_id_of_bytes_range rnd H_rnd) as Hr.
  unfold run_suite, before_hook, create_accounts_mints_and_token_accounts, create_token_accounts,
    make_offer_test, take_offer_test, tbind, tret, tthrow, tlift, create_token_account, set_account,
    get_account, rpc, get_token_balance, fetch_offer.
  cbn.
  repeat match goal with
  | |- context [cl_create_token_account ?s ?m ?o ?a] =>
      let s' := fresh "s" in let k := fresh "k" in let E := fresh "E" in
      destruct (H_create s m o a) as (s' & k & E); rewrite E; cbn
  end.
  rewrite LE.to_array_like_le_fits, Z.abs_eq by (cbn; lia). cbn.
  rewrite H_offer. cbn.
  rewrite (H_vault : get_associated_token_address_sync mint_a offer true TOKEN_PROGRAM = ret vault).
  cbn.
  repeat match goal with
  | |- context [cl_send ?sg ?rq ?s] =>
      let s' := fresh "s" in let E := fresh "E" in
      destruct (H_send sg rq s) as (s' & E); rewrite E; cbn
  | |- context [cl_token_balance ?s ?k] =>
      let z := fresh "z" in let E := fresh "E" in
      destruct (H_balance s k) as (z & E); rewrite E; cbn
  | |- context [cl_fetch_offer ?s ?k] =>
      let o := fresh "o" in let E := fresh "E" in
      destruct (H_fetch s k) as (o & E); rewrite E; cbn
  | |- context [console_assert ?b ?w] => rewrite (console_assert_ok b w); cbn
  end.
  reflexivity.
Qed.

End Vacuous.

(** ** A cluster that rejects the transactions *)

Section Rejected.
Context {crypto : Crypto} {cl : Cluster}.
Variables (program_id alice bob mint_a mint_b offer vault : pubkey) (bump : nat)
  (rnd : list Byte.byte) (genesis : cl_state).

(** The helpers can fund the accounts, but every transaction is
    rejected. *)
Hypothesis H_create : forall s m o a, exists s' k, cl_create_token_account s m o a = Some (s', k).
Hypothesis H_reject : forall signer rq s, cl_send signer rq s = None.
Hypothesis H_rnd : length rnd = 8%nat.
Hypothesis H_offer :
  find_program_address_sync [list_byte_of_string "offer"; alice; LE.le_encode 8 (offer_id_of_bytes rnd)]
    program_id = ret (offer, bump).
Hypothesis H_vault : get_associated_token_address_sync mint_a offer true TOKEN_2022_PROGRAM_ID = ret vault.

Local Opaque find_program_address_sync get_associated_token_address_sync LE.to_array_like_le
  LE.le_encode list_byte_of_string.

(** C25: A rejected [makeOffer] fails the make test, and mocha still runs the
    take test: it sends [takeOffer] with the same shared [accounts] object,
    which keeps the offer and vault the failed test wrote into it, and
    fails in turn.  Both failures are the RPC's rejection; no assertion
    runs. *)
Theorem rejected_make_fails_both_tests :
  exists accs,
    run_suite program_id genesis alice bob mint_a mint_b rnd =
      ([SendRpc {| rq_ix := IxMakeOffer (offer_id_of_bytes rnd) tokenAOfferedAmount
                                          tokenBWantedAmount;
                   rq_accounts := accs |};
        SendRpc {| rq_ix := IxTakeOffer; rq_accounts := accs |}],
       [Failed (RpcError "transaction failed"); Failed (RpcError "transaction failed")]) /\
    Escrow.account_of accs "offer" = Some offer /\ Escrow.account_of accs "vault" = Some vault.
Proof.
  pose proof (offer_id_of_bytes_range rnd H_rnd) as Hr.
  unfold run_suite, before_hook, create_accounts_mints_and_token_accounts, create_token_accounts,
    make_offer_test, take_offer_test, tbind, tret, tthrow, tlift, create_token_account, set_account,
    get_account, rpc.
  cbn.
  repeat match goal with
  | |- context [cl_create_token_account ?s ?m ?o ?a] =>
      let s' := fresh "s" in let k := fresh "k" in let E := fresh "E" in
      destruct (H_create s m o a) as (s' & k & E); rewrite E; cbn
  end.
  rewrite LE.to_array_like_le_fits, Z.abs_eq by (cbn; lia). cbn.
  rewrite H_offer. cbn.
  rewrite (H_vault : get_associated_token_address_sync mint_a offer true TOKEN_PROGRAM = ret vault).
  cbn. rewrite !H_reject. cbn.
  eexists. split; [reflexivity|]. split; reflexivity.
Qed.

End Rejected.

(** ** Which test the slow threshold covers *)

(** C22: [.slow(ANCHOR_SLOW_TEST_THRESHOLD)] covers the take test only: the make
    test, which also waits for a transaction, is reported slow as soon as
    it takes more than mocha's 75 ms, while the take test is reported fast
    up to 20 s; neither report changes a verdict. *)
Theorem slow_flag_only_on_take_test v1 v2 d1 d2 :
  (75 < d1)%Z -> (d2 <= 20000)%Z ->
  report [v1; v2] [d1; d2] = [(v1, Slow); (v2, Fast)].
Proof.
  intros H1 H2. cbn [report combine slow_thresholds map].
  unfold speed_of, mocha_default_slow, ANCHOR_SLOW_TEST_THRESHOLD, SECONDS.
  destruct (Z.ltb_spec 75 d1); [|lia].
  destruct (Z.ltb_spec (40 * 1000) d2); [lia|].
  destruct (Z.ltb_spec (40 * 1000 / 2) d2); [|reflexivity].
  exfalso. change (40 * 1000 / 2)%Z with 20000%Z in *. lia.
Qed.

(** ** Witnesses *)

Definition demo_program : pubkey := repeat Byte.x09 32.
Definition demo_alice : pubkey := repeat Byte.x41 32.
Definition demo_bob : pubkey := repeat Byte.x42 32.
Definition demo_mint_a : pubkey := repeat Byte.x4d 32.
Definition demo_mint_b : pubkey := repeat Byte.x4e 32.
Definition demo_rnd : list Byte.byte :=
  [Byte.x01; Byte.x02; Byte.x03; Byte.x04; Byte.x05; Byte.x06; Byte.x07; Byte.x08].

(** A cluster that accepts every request and changes nothing. *)
Definition inert_cluster : Cluster := {|
  cl_state := unit;
  cl_send := fun _ _ s => Some s;
  cl_token_balance := fun _ _ => Some 0%Z;
  cl_fetch_offer := fun _ _ =>
    Some {| Escrow.of_id := 0; Escrow.of_maker := []; Escrow.of_token_mint_a := [];
            Escrow.of_token_mint_b := []; Escrow.of_token_b_wanted_amount := 0;
            Escrow.of_bump := 0 |};
  cl_create_token_account := fun s _ _ _ => Some (s, [])
|}.

(** A cluster that funds the accounts and rejects every transaction. *)
Definition rejecting_cluster : Cluster := {|
  cl_state := unit;
  cl_send := fun _ _ _ => None;
  cl_token_balance := fun _ _ => None;
  cl_fetch_offer := fun _ _ => None;
  cl_create_token_account := fun s _ _ _ => Some (s, [])
|}.

Definition toy_ata (m o : pubkey) : pubkey :=
  match snd (get_associated_token_address_sync (crypto := toy_crypto) m o true
               (@TOKEN_2022_PROGRAM_ID toy_crypto)) with
  | Ok a => a | Err _ => [] end.

Definition toy_offer : pubkey * nat :=
  match snd (find_program_address_sync (crypto := toy_crypto)
               [list_byte_of_string "offer"; demo_alice;
                LE.le_encode 8 (offer_id_of_bytes demo_rnd)] demo_program) with
  | Ok p => p | Err _ => ([], 0%nat) end.

Lemma suite_passes_on_escrow_witness :
  run_suite (crypto := toy_crypto) (cl := escrow_cluster (crypto := toy_crypto) demo_program)
    demo_program fresh_validator demo_alice demo_bob demo_mint_a demo_mint_b demo_rnd =
  ([SendRpc (make_request (crypto := toy_crypto) demo_alice demo_bob demo_mint_a demo_mint_b demo_rnd
               (toy_ata demo_mint_a demo_alice) (toy_ata demo_mint_b demo_alice)
               (toy_ata demo_mint_a demo_bob) (toy_ata demo_mint_b demo_bob)
               (fst toy_offer) (toy_ata demo_mint_a (fst toy_offer)));
    SendRpc (take_request (crypto := toy_crypto) demo_alice demo_bob demo_mint_a demo_mint_b
               (toy_ata demo_mint_a demo_alice) (toy_ata demo_mint_b demo_alice)
               (toy_ata demo_mint_a demo_bob) (toy_ata demo_mint_b demo_bob)
               (fst toy_offer) (toy_ata demo_mint_a (fst toy_offer)))],
   [Passed; Passed]).
Proof.
  apply (@suite_passes_on_escrow toy_crypto demo_program demo_alice demo_bob demo_mint_a
           demo_mint_b demo_rnd _ _ _ _ (fst toy_offer) _ (snd toy_offer));
    try (vm_compute; reflexivity).
  apply (bool_decide_unpack _). vm_compute. reflexivity.
Defined.

Lemma suite_passes_whatever_the_cluster_holds_witness :
  snd (run_suite (crypto := toy_crypto) (cl := inert_cluster) demo_program tt
         demo_alice demo_bob demo_mint_a demo_mint_b demo_rnd) = [Passed; Passed] /\
  existsb (fun e => match e with Log m => String.eqb m "Assertion failed" | _ => false end)
    (fst (run_suite (crypto := toy_crypto) (cl := inert_cluster) demo_program tt
            demo_alice demo_bob demo_mint_a demo_mint_b demo_rnd)) = true.
Proof.
  split; [|vm_compute; reflexivity].
  apply (@suite_passes_whatever_the_cluster_holds toy_crypto inert_cluster demo_program
           demo_alice demo_bob demo_mint_a demo_mint_b (fst toy_offer)
           (toy_ata demo_mint_a (fst toy_offer)) (snd toy_offer) demo_rnd tt).
  - intros. do 2 eexists. reflexivity.
  - intros. eexists. reflexivity.
  - intros. eexists. reflexivity.
  - intros. eexists. reflexivity.
  - vm_compute. reflexivity.
  - vm_compute. reflexivity.
  - vm_compute. reflexivity.
Defined.

Lemma slow_flag_only_on_take_test_witness :
  (75 < 15000)%Z /\ (15000 <= 20000)%Z /\
  report [Passed; Passed] [15000%Z; 15000%Z] = [(Passed, Slow); (Passed, Fast)].
Proof.
  split; [lia|]. split; [lia|].
  apply (slow_flag_only_on_take_test Passed Passed 15000%Z 15000%Z); lia.
Defined.


Lemma rejected_make_fails_both_tests_witness :
  exists accs,
    run_suite (crypto := toy_crypto) (cl := rejecting_cluster) demo_program tt
      demo_alice demo_bob demo_mint_a demo_mint_b demo_rnd =
      ([SendRpc {| rq_ix := IxMakeOffer (offer_id_of_bytes demo_rnd) tokenAOfferedAmount
                                          tokenBWantedAmount;
                   rq_accounts := accs |};
        SendRpc {| rq_ix := IxTakeOffer; rq_accounts := accs |}],
       [Failed (RpcError "transaction failed"); Failed (RpcError "transaction failed")]) /\
    Escrow.account_of accs "offer" = Some (fst toy_offer) /\
    Escrow.account_of accs "vault" = Some (toy_ata demo_mint_a (fst toy_offer)).
Proof.
  apply (@rejected_make_fails_both_tests toy_crypto rejecting_cluster demo_program
           demo_alice demo_bob demo_mint_a demo_mint_b (fst toy_offer)
           (toy_ata demo_mint_a (fst toy_offer)) (snd toy_offer) demo_rnd tt).
  - intros. do 2 eexists. reflexivity.
  - intros. reflexivity.
  - vm_compute. reflexivity.
  - vm_compute. reflexivity.
  - vm_compute. reflexivity.
Defined.

End Suite.
