(* ===== verification/Session.v ===== *)
(** The page and the chain together: a browser session of [SwapComponent]
    whose awaited RPCs are processed by a cluster.

    [system] pairs the page of [SwapUI] with the state of a [Suite.Cluster].
    The user's events go through [UI.step]; the landing of an awaited RPC
    ([Land i]) sends the [i]-th request of the page to the cluster, signed
    by the account the handler put as [maker] or [taker] (the wallet's key
    when the handler ran), and settles its promise with the cluster's
    answer.  The order in which requests land is the order of the events,
    so the interleavings of clicks and landings are explicit.

    The theorems: the page has one offer id per load ([generateRandomId]
    runs once in the mount effect), so a second [makeOffer] signed by the
    same wallet is refused whatever the mints and amounts, and clicks on
    "Create Offer" make one offer at most, whatever their number and the
    order in which their RPCs land; the take request is signed by the
    wallet and its addresses are the ones the program derives
    (equivalence); and a negative typed amount, sent as a negative BN, has
    on the program the effect of its magnitude. *)

From Stdlib Require Import ZArith List String Lia PrimFloat.
From stdpp Require Import base gmap.
From S2P Require Import Prelude Bytes JsValue Effects Web3 SwapForm SwapUI Escrow SwapTest.
Import ListNotations.

Module Session.

Import Web3 Eff Form UI Suite.

Local Open Scope string_scope.

(** The signer of a request: the key the handler took from the wallet. *)
Definition signer_of (rq : rpc_request) : option pubkey :=
  Escrow.account_of (rq_accounts rq)
    (match rq_ix rq with IxMakeOffer _ _ _ => "maker" | IxTakeOffer => "taker" end).

(** The signature the cluster returns for a transaction that lands. *)
Definition tx_signature : string := "5xSignature".

Inductive sys_event : Type :=
| User (ev : ui_event)   (** an event of the page other than a settlement *)
| Land (i : nat).        (** the [i]-th awaited RPC is processed and settles *)

Section System.
Context {crypto : Crypto} {cl : Cluster}.
Variable program_id : pubkey.

Record system : Type := { page : ui_state; ledger : cl_state }.

(** The cluster's answer to a request: the new state and the value the
    [.rpc()] promise settles with. *)
Definition submit_tx (rq : rpc_request) (c : cl_state) : cl_state * outcome string :=
  match signer_of rq with
  | Some k =>
      match cl_send k rq c with
      | Some c' => (c', Ok tx_signature)
      | None => (c, Err (RpcError "Transaction simulation failed"))
      end
  | None => (c, Err (RpcError "Missing signature"))
  end.

Definition sys_step (x : system) (ev : sys_event) : option (system * list effect) :=
  match ev with
  | User (Settle _ _) => None
  | User e =>
      match step program_id (page x) e with
      | Some (p', w) => Some ({| page := p'; ledger := ledger x |}, w)
      | None => None
      end
  | Land i =>
      match nth_error (inflight (page x)) i with
      | Some (_, rq) =>
          let '(c', r) := submit_tx rq (ledger x) in
          match step program_id (page x) (Settle i r) with
          | Some (p', w) => Some ({| page := p'; ledger := c' |}, w)
          | None => None
          end
      | None => None
      end
  end.

Fixpoint sys_run (x : system) (evs : list sys_event) : option (system * list effect) :=
  match evs with
  | [] => Some (x, [])
  | ev :: evs' =>
      match sys_step x ev with
      | Some (x1, w1) =>
          match sys_run x1 evs' with
          | Some (x2, w2) => Some (x2, (w1 ++ w2)%list)
          | None => None
          end
      | None => None
      end
  end.

End System.

(** The log line of a make-offer RPC that resolved (swap.tsx:62). *)
Definition is_offer_made (ef : effect) : bool :=
  match ef with Log l => String.eqb l "Offer made:" | _ => false end.

Definition offers_made (w : list effect) : nat := length (filter is_offer_made w).

(** The events of a user who only clicks "Create Offer" while the page's
    RPCs land. *)
Definition click_or_land (ev : sys_event) : bool :=
  match ev with User SubmitMake | Land _ => true | User _ => false end.

(** ** Runs of the composed system *)

Lemma offers_made_app w1 w2 : offers_made (w1 ++ w2) = offers_made w1 + offers_made w2.
Proof. unfold offers_made. now rewrite filter_app, length_app. Qed.

Lemma offers_made_after_rpc r :
  offers_made (after_rpc "Offer made:" r) = match r with Ok _ => 1 | Err _ => 0 end.
Proof. destruct r; reflexivity. Qed.

(** [handleMakeOffer] itself never logs ["Offer made:"]. *)
Lemma make_offer_effects_quiet {crypto : Crypto} st :
  offers_made (fst (handle_make_offer st)) = 0.
Proof. destruct (make_offer_runs st) as [H|[[rq H]|[e H]]]; rewrite H; reflexivity. Qed.

Section Steps.
Context {crypto : Crypto} {cl : Cluster}.
Variable program_id : pubkey.

(** A click on "Create Offer" whose handler reaches its [await] adds the
    request to the awaited ones and changes nothing else. *)
Lemma sys_submit_make_awaiting (x : system) l rq :
  activeTab (form (page x)) = "make" ->
  handle_make_offer (form (page x)) = (l, Ok (Awaiting rq)) ->
  sys_step program_id x (User SubmitMake) =
    Some ({| page := {| form := form (page x); dom := dom (page x); mounted := mounted (page x);
                        inflight := inflight (page x) ++ [("Offer made:", rq)];
                        bad_input := bad_input (page x) |};
             ledger := ledger x |}, l) /\ offers_made l = 0.
Proof.
  intros Htab Hh.
  destruct (handle_make_offer_awaiting _ _ _ Hh) as (? & ? & ? & ? & ? & ? & _ & _ & _ & _ & _ & ->).
  split; [|reflexivity].
  cbn [sys_step step]. rewrite Htab, Hh. reflexivity.
Qed.

(** A click whose handler does not reach its [await] awaits nothing new,
    and neither does a second click on the page it leaves. *)
Lemma sys_submit_make_other (x x1 : system) w :
  inflight (page x) = [] ->
  (forall l rq, handle_make_offer (form (page x)) <> (l, Ok (Awaiting rq))) ->
  sys_step program_id x (User SubmitMake) = Some (x1, w) ->
  inflight (page x1) = [] /\ offers_made w = 0 /\
  (forall l rq, handle_make_offer (form (page x1)) <> (l, Ok (Awaiting rq))).
Proof.
  intros Hin Hna. cbn [sys_step step].
  destruct (String.eqb (activeTab (form (page x))) "make"); [|discriminate].
  pose proof (make_offer_effects_quiet (form (page x))) as Hq.
  destruct (handle_make_offer (form (page x))) as [l [[|rq]|e]] eqn:Hh;
    [|exfalso; exact (Hna l rq eq_refl)|];
    rewrite ?Hh in Hq; cbn [fst] in Hq; unfold submit; destruct (_ || _)%bool; intros H;
    injection H as <- <-;
    (repeat split);
    first [ exact Hin
          | rewrite ?offers_made_app, Hq; reflexivity
          | intros l' rq'; cbn [page]; rewrite Hh; discriminate
          | intros l' rq'; rewrite make_offer_guard_alert by (left; reflexivity); discriminate ].
Qed.

(** The landing of the [i]-th awaited RPC: the cluster's answer settles it. *)
Lemma sys_land (x : system) i lbl rq :
  nth_error (inflight (page x)) i = Some (lbl, rq) ->
  sys_step program_id x (Land i) =
    Some ({| page := {| form := form (page x); dom := dom (page x); mounted := mounted (page x);
                        inflight := firstn i (inflight (page x)) ++ skipn (S i) (inflight (page x));
                        bad_input := bad_input (page x) |};
             ledger := fst (submit_tx rq (ledger x)) |},
          after_rpc lbl (snd (submit_tx rq (ledger x)))).
Proof.
  intros Hi. cbn [sys_step]. rewrite Hi. destruct (submit_tx rq (ledger x)).
  cbn [step]. rewrite Hi. reflexivity.
Qed.

Lemma sys_land_none (x : system) i :
  nth_error (inflight (page x)) i = None -> sys_step program_id x (Land i) = None.
Proof. intros Hi. cbn [sys_step]. now rewrite Hi. Qed.

Lemma submit_tx_err rq c c' e : submit_tx rq c = (c', Err e) -> c' = c.
Proof.
  unfold submit_tx. destruct (signer_of rq); [destruct (cl_send _ _ _)|];
    intros H; inversion H; auto.
Qed.

Lemma Forall_remove {A} (P : A -> Prop) i (xs : list A) :
  Forall P xs -> Forall P (firstn i xs ++ skipn (S i) xs).
Proof. intros H. apply Forall_app. split; [apply Forall_take | apply Forall_drop]; exact H. Qed.

(** Clicks that cannot reach the handler's [await] (another tab, no
    wallet, no id, a throw) never await anything, so no RPC can land and
    no offer is made. *)
Lemma sys_run_stuck (x x' : system) evs w :
  forallb click_or_land evs = true -> inflight (page x) = [] ->
  activeTab (form (page x)) <> "make" \/
  (forall l rq, handle_make_offer (form (page x)) <> (l, Ok (Awaiting rq))) ->
  sys_run program_id x evs = Some (x', w) -> offers_made w = 0.
Proof.
  revert x w. induction evs as [|ev evs IH]; intros x w Hf Hin Hs; cbn [sys_run].
  - intros H. injection H as _ <-. reflexivity.
  - cbn [forallb] in Hf. apply andb_prop in Hf as [He Hf].
    destruct (sys_step program_id x ev) as [[x1 w1]|] eqn:E1; [|discriminate].
    destruct (sys_run program_id x1 evs) as [[x2 w2]|] eqn:E2; [|discriminate].
    intros H. injection H as <- <-. rewrite offers_made_app.
    destruct ev as [[]|i]; try discriminate He.
    + destruct Hs as [Ht|Hna].
      * exfalso. cbn [sys_step step] in E1.
        destruct (String.eqb_spec (activeTab (form (page x))) "make"); [contradiction|discriminate].
      * destruct (sys_submit_make_other _ _ _ Hin Hna E1) as (Hin1 & -> & Hna1).
        rewrite (IH x1 w2 Hf Hin1 (or_intror Hna1) E2). reflexivity.
    + rewrite sys_land_none in E1 by (rewrite Hin; destruct i; reflexivity). discriminate.
Qed.

End Steps.

(** ** The page component of a session is a run of the page

    Forgetting the cluster, each step of the system is a step of
    [UI.step]: a user event as it is, a landing as the settlement of the
    awaited RPC with the cluster's answer. *)


Section EscrowSession.
Context {crypto : Crypto}.
Variable program_id : pubkey.

(** On the escrow program, a [makeOffer] that lands fixes the offer
    account of its signer and id: any later [makeOffer] of the same signer
    and id is refused, whatever its mints and amounts. *)
Lemma escrow_make_refused_after k rq rq' c c' id a b a' b' :
  rq_ix rq = IxMakeOffer id a b -> rq_ix rq' = IxMakeOffer id a' b' ->
  escrow_send program_id k rq c = Some c' -> escrow_send program_id k rq' c' = None.
Proof.
  unfold escrow_send. intros -> ->.
  destruct (encode_u64 id) as [id'|]; [|discriminate].
  destruct (encode_u64 a) as [a1|]; [|discriminate].
  destruct (encode_u64 b) as [b1|]; [|discriminate].
  destruct (Escrow.make_offer program_id k (rq_accounts rq) id' a1 b1 c) eqn:E;
    cbn [option_of_res]; [|discriminate].
  intros [= <-].
  destruct (encode_u64 a') as [a2|]; [|reflexivity].
  destruct (encode_u64 b') as [b2|]; [|reflexivity].
  destruct (Escrow.make_offer_refused_after _ _ _ (rq_accounts rq') _ _ _ a2 b2 _ _ E) as [e ->].
  reflexivity.
Qed.


(** A [makeOffer] submitted after one of the same signer and id landed
    is refused, and the ledger is unchanged. *)
Lemma submit_make_refused_after rq rq' c c' sg id a b a' b' :
  rq_ix rq = IxMakeOffer id a b -> rq_ix rq' = IxMakeOffer id a' b' ->
  signer_of rq' = signer_of rq ->
  submit_tx (cl := escrow_cluster program_id) rq c = (c', Ok sg) ->
  exists e, submit_tx (cl := escrow_cluster program_id) rq' c' = (c', Err e).
Proof.
  intros Hix Hix' Hsg. unfold submit_tx. rewrite Hsg. destruct (signer_of rq) as [k|]; [|discriminate].
  cbn [cl_send escrow_cluster].
  destruct (escrow_send program_id k rq c) as [c1|] eqn:E; intros H; inversion H; subst.
  rewrite (escrow_make_refused_after _ _ _ _ _ _ _ _ _ _ Hix Hix' E). eauto.
Qed.

Lemma submit_make_again rq c c' sg id a b :
  rq_ix rq = IxMakeOffer id a b ->
  submit_tx (cl := escrow_cluster program_id) rq c = (c', Ok sg) ->
  exists e, submit_tx (cl := escrow_cluster program_id) rq c' = (c', Err e).
Proof. intros Hix. exact (submit_make_refused_after _ _ _ _ _ _ _ _ _ _ Hix Hix eq_refl). Qed.

(** C3: One offer per page load: two [handleMakeOffer] runs of one page
    session with the same wallet, whatever their mints and amounts, carry
    the page's one offer id; once the first [makeOffer] has been submitted
    and has landed, the submission of the second is refused by the escrow
    program and leaves the ledger as it was. *)
Theorem second_offer_of_session_refused st1 st2 l1 l2 rq1 rq2 c c' sg :
  publicKey st2 = publicKey st1 -> offerId st2 = offerId st1 ->
  handle_make_offer st1 = (l1, Ok (Awaiting rq1)) ->
  handle_make_offer st2 = (l2, Ok (Awaiting rq2)) ->
  submit_tx (cl := escrow_cluster program_id) rq1 c = (c', Ok sg) ->
  exists e, submit_tx (cl := escrow_cluster program_id) rq2 c' = (c', Err e).
Proof.
  intros Hpk Hid H1 H2.
  destruct (handle_make_offer_awaiting _ _ _ H1)
    as (pk1 & id1 & a1 & b1 & ? & ? & Hp1 & Hi1 & _ & _ & -> & _).
  destruct (handle_make_offer_awaiting _ _ _ H2)
    as (pk2 & id2 & a2 & b2 & ? & ? & Hp2 & Hi2 & _ & _ & -> & _).
  rewrite Hid, Hi1 in Hi2. injection Hi2 as <-.
  rewrite Hpk, Hp1 in Hp2. injection Hp2 as <-.
  intros Hs. refine (submit_make_refused_after _ _ _ _ _ id1 a1 b1 a2 b2 _ _ _ Hs); reflexivity.
Qed.

(** The clicks of a page whose handler reaches its [await] all await the
    same request; [n] counts the offers made so far, and once one is made
    the request is refused on the ledger as it stands. *)
Lemma sys_run_awaiting f l rq (x x' : @system (escrow_cluster program_id)) evs w n :
  activeTab f = "make" -> handle_make_offer f = (l, Ok (Awaiting rq)) ->
  forallb click_or_land evs = true ->
  form (page x) = f -> Forall (eq ("Offer made:", rq)) (inflight (page x)) ->
  (n = 1 -> exists e, submit_tx rq (ledger x) = (ledger x, Err e)) -> n <= 1 ->
  sys_run program_id x evs = Some (x', w) -> n + offers_made w <= 1.
Proof.
  intros Htab Hh.
  destruct (handle_make_offer_awaiting _ _ _ Hh)
    as (pk0 & id & a & b & ma & mb & _ & _ & _ & _ & Hrq & _).
  assert (Hix : rq_ix rq = IxMakeOffer id a b) by (rewrite Hrq; reflexivity).
  revert x w n. induction evs as [|ev evs IH]; intros x w n Hf Hform Hall Hn Hle; cbn [sys_run].
  - intros H. injection H as _ <-. cbn. lia.
  - cbn [forallb] in Hf. apply andb_prop in Hf as [He Hf].
    destruct (sys_step program_id x ev) as [[x1 w1]|] eqn:E1; [|discriminate].
    destruct (sys_run program_id x1 evs) as [[x2 w2]|] eqn:E2; [|discriminate].
    intros H. injection H as <- <-. rewrite offers_made_app.
    destruct ev as [[]|i]; try discriminate He.
    + rewrite <- Hform in Htab, Hh.
      destruct (sys_submit_make_awaiting program_id x l rq Htab Hh) as [Hs Hl0].
      rewrite Hs in E1. injection E1 as <- <-. rewrite Hl0.
      enough (n + offers_made w2 <= 1) by lia.
      eapply IH; [exact Hf | | | | | exact E2]; cbn [page form inflight ledger]; auto.
      apply Forall_app. split; [exact Hall | repeat constructor].
    + destruct (nth_error (inflight (page x)) i) as [p|] eqn:Hi;
        [|rewrite sys_land_none in E1 by exact Hi; discriminate].
      assert (Hp : p = ("Offer made:", rq))
        by (symmetry; exact (proj1 (List.Forall_forall _ _) Hall p (nth_error_In _ _ Hi))).
      subst p. rewrite (sys_land program_id x i _ _ Hi) in E1. injection E1 as <- <-.
      rewrite offers_made_after_rpc.
      destruct (submit_tx rq (ledger x)) as [c' [sg|e]] eqn:Es; cbn [fst snd] in *.
      * destruct n as [|n]; [|destruct (Hn ltac:(lia)) as [e He']; congruence].
        pose proof (submit_make_again _ _ _ _ _ _ _ Hix Es) as Hagain.
        enough (1 + offers_made w2 <= 1) by lia.
        refine (IH _ w2 1 Hf _ _ _ ltac:(lia) E2);
          [exact Hform | exact (Forall_remove _ i _ Hall) | intros _; exact Hagain].
      * pose proof (submit_tx_err _ _ _ _ Es) as ->.
        enough (n + offers_made w2 <= 1) by lia.
        refine (IH _ w2 n Hf _ _ _ Hle E2);
          [exact Hform | exact (Forall_remove _ i _ Hall) | intros _; exists e; exact Es].
Qed.

(** C6: Clicks on "Create Offer" make one offer at most: on the escrow
    program, along any sequence of clicks and landings of the page's RPCs
    from a page awaiting nothing, whatever their number and order, the
    page logs "Offer made:" at most once. *)
Theorem clicks_make_one_offer (x : @system (escrow_cluster program_id)) evs x' w :
  inflight (page x) = [] -> forallb click_or_land evs = true ->
  sys_run program_id x evs = Some (x', w) -> offers_made w <= 1.
Proof.
  intros Hin Hf Hrun.
  destruct (String.eqb_spec (activeTab (form (page x))) "make") as [Htab|Htab];
    [|rewrite (sys_run_stuck _ _ _ _ _ Hf Hin (or_introl Htab) Hrun); lia].
  destruct (handle_make_offer (form (page x))) as [l [[|rq]|e]] eqn:Hh.
  2:{ apply (sys_run_awaiting _ l rq x x' evs w 0 Htab Hh Hf eq_refl); [|discriminate|lia|exact Hrun].
      rewrite Hin. constructor. }
  all: assert (Hna : forall l' rq', handle_make_offer (form (page x)) <> (l', Ok (Awaiting rq')))
         by (intros l' rq'; rewrite Hh; discriminate).
  all: rewrite (sys_run_stuck _ _ _ _ _ Hf Hin (or_intror Hna) Hrun); lia.
Qed.






(** ** The take request the page builds is the one the program checks *)

(** C7: The offer and vault addresses [handleTakeOffer] derives (swap.tsx:74-88)
    are the ones the escrow program derives from the request's maker, the
    typed id and mint A, and checks: the page's seeds
    [["offer", maker, BN(id).toArrayLike('le', 8)]] are the program's
    [[b"offer", maker, id.to_le_bytes()]] for the magnitude of the id;
    the session submits it signed by the wallet's key as taker. *)
Theorem take_request_matches_program st l rq :
  handle_take_offer program_id st = (l, Ok (Awaiting rq)) ->
  signer_of rq = publicKey st /\
  exists maker id mint_a offer bump vault,
    Js.bn_of_nullable (makerOfferId st) = Some id /\
    Escrow.account_of (rq_accounts rq) "maker" = Some maker /\
    Escrow.account_of (rq_accounts rq) "tokenMintA" = Some mint_a /\
    Escrow.offer_address program_id maker (Z.abs id) = Escrow.OK (offer, bump) /\
    Escrow.account_of (rq_accounts rq) "offer" = Some offer /\
    Escrow.associated_address mint_a offer TOKEN_2022_PROGRAM_ID = Escrow.OK vault /\
    Escrow.account_of (rq_accounts rq) "vault" = Some vault.
Proof.
  intros H.
  destruct (handle_take_offer_awaiting _ _ _ _ H)
    as (pk & maker & id & [offer bump] & mint_a & mint_b & vault & Hpk & _ & Hid & Hpda & _ & _ & Hv & ->).
  split; [now rewrite Hpk|].
  cbn [fst] in Hv. exists maker, id, mint_a, offer, bump, vault.
  split; [exact Hid|]. split; [reflexivity|]. split; [reflexivity|].
  split; [unfold Escrow.offer_address, Escrow.of_m; change (Escrow.offer_seeds maker (Z.abs id))
            with (offer_seeds maker (LE.le_encode 8 (Z.abs id))); now rewrite Hpda|].
  split; [reflexivity|].
  split; [unfold Escrow.associated_address, Escrow.of_m; now rewrite Hv|].
  reflexivity.
Qed.

(** C15: The [min="0"] of the amount inputs does not stop a negative
    amount: the click's handler runs before constraint validation and its
    [preventDefault] cancels it.  Typing -5 into the TokenA Swap Amount
    input sends [makeOffer] with [new BN(-500)]; Anchor's coder writes the
    magnitude of a [u64] argument, so on the escrow program the request
    has exactly the effect of the same request with 500: the maker offers
    500 base units of token A. *)
Theorem negative_amount_escrows_magnitude s pk id b ma mb :
  activeTab (form s) = "make" -> publicKey (form s) = Some pk ->
  offerId (form s) = Some (Js.JInt id) -> (0 < id < 2 ^ 53)%Z ->
  Js.bn_of_number (PrimFloat.mul (tokenBSwapAmount (form s)) (Js.float_of_Z LAMPORTS_PER_SOL))
    = Some b -> (0 <= b < 2 ^ 64)%Z ->
  new_public_key (tokenMintA (form s)) = ret ma ->
  new_public_key (tokenMintB (form s)) = ret mb ->
  exists s' w rq, run program_id s [Input 2 "-5"; SubmitMake] = Some (s', w) /\
    In (SendRpc rq) w /\ rq_ix rq = IxMakeOffer id (-500) b /\
    forall c, submit_tx (cl := escrow_cluster program_id) rq c =
              submit_tx (cl := escrow_cluster program_id)
                {| rq_ix := IxMakeOffer id 500 b; rq_accounts := rq_accounts rq |} c.
Proof.
  intros Htab Hpk Hid Hb0 Hb Hbr Hma Hmb.
  destruct (input_amount_a_then_submit program_id s pk id (-500) b ma mb "-5")
    as (s' & w & Hrun & Hin); try assumption; [lia | lia | vm_compute; reflexivity |].
  eexists s', w, _. split; [exact Hrun|]. split; [exact Hin|]. split; [reflexivity|].
  intros c. unfold submit_tx. cbn [signer_of rq_ix rq_accounts cl_send escrow_cluster].
  unfold escrow_send. cbn [rq_ix rq_accounts].
  replace (encode_u64 (-500)) with (Some 500%Z) by (vm_compute; reflexivity).
  replace (encode_u64 500) with (Some 500%Z) by (vm_compute; reflexivity). reflexivity.
Qed.

End EscrowSession.

(** ** Witnesses: a maker's page on the demo ledger of [Escrow], with the
    stand-in cryptography of [Web3.toy_crypto] *)

(** The maker of [Escrow.demo_genesis] on the make tab, offer id 7,
    offering 1 token of mint A ("MMMM...") for 0 of mint B ("NNNN..."). *)
Definition demo_form : form_state := {|
  publicKey := Some Escrow.demo_maker; activeTab := "make";
  tokenMintA := "MMMMMMMMMMMMMMMMMMMMMMMMMMMMMMMM";
  tokenMintB := "NNNNNNNNNNNNNNNNNNNNNNNNNNNNNNNN";
  tokenASwapAmount := Js.float_of_Z 1; tokenBSwapAmount := Js.float_of_Z 0;
  offerMakerAccount := ""; offerId := Some (Js.JInt 7); makerOfferId := None |}.

Definition demo_request (a : Z) : rpc_request :=
  {| rq_ix := IxMakeOffer 7 a 0; rq_accounts := Escrow.demo_make_accs |}.

Definition demo_system : @system (escrow_cluster (crypto := toy_crypto) Escrow.demo_pid) :=
  @Build_system (escrow_cluster Escrow.demo_pid)
    {| form := demo_form;
       dom := ["MMMMMMMMMMMMMMMMMMMMMMMMMMMMMMMM"; "NNNNNNNNNNNNNNNNNNNNNNNNNNNNNNNN"; "1"; "0"];
       mounted := true; inflight := []; bad_input := [] |}
    Escrow.demo_genesis.

Lemma second_offer_of_session_refused_witness :
  let st2 := on_change FTokenASwapAmount "2" demo_form in
  let c' := Escrow.res_default Escrow.demo_genesis
              (Escrow.make_offer (crypto := toy_crypto) Escrow.demo_pid Escrow.demo_maker
                 Escrow.demo_make_accs 7 100 0 Escrow.demo_genesis) in
  publicKey st2 = publicKey demo_form /\ offerId st2 = offerId demo_form /\
  handle_make_offer (crypto := toy_crypto) demo_form =
    ([PreventDefault; Log "Making offer..."; Log "Offer Id:"; SendRpc (demo_request 100)],
     Ok (Awaiting (demo_request 100))) /\
  handle_make_offer (crypto := toy_crypto) st2 =
    ([PreventDefault; Log "Making offer..."; Log "Offer Id:"; SendRpc (demo_request 200)],
     Ok (Awaiting (demo_request 200))) /\
  submit_tx (cl := escrow_cluster (crypto := toy_crypto) Escrow.demo_pid) (demo_request 100)
    Escrow.demo_genesis = (c', Ok tx_signature) /\
  exists e, submit_tx (cl := escrow_cluster (crypto := toy_crypto) Escrow.demo_pid)
              (demo_request 200) c' = (c', Err e).
Proof.
  intros st2 c'.
  assert (H1 : handle_make_offer (crypto := toy_crypto) demo_form =
    ([PreventDefault; Log "Making offer..."; Log "Offer Id:"; SendRpc (demo_request 100)],
     Ok (Awaiting (demo_request 100)))) by (vm_compute; reflexivity).
  assert (H2 : handle_make_offer (crypto := toy_crypto) st2 =
    ([PreventDefault; Log "Making offer..."; Log "Offer Id:"; SendRpc (demo_request 200)],
     Ok (Awaiting (demo_request 200)))) by (vm_compute; reflexivity).
  assert (Hs : submit_tx (cl := escrow_cluster (crypto := toy_crypto) Escrow.demo_pid)
                 (demo_request 100) Escrow.demo_genesis = (c', Ok tx_signature)).
  { unfold submit_tx, c'. cbn [signer_of rq_ix rq_accounts demo_request cl_send escrow_cluster].
    change (Escrow.account_of Escrow.demo_make_accs "maker") with (Some Escrow.demo_maker).
    unfold escrow_send. cbn [rq_ix rq_accounts demo_request].
    rewrite (Escrow.res_ok_default Escrow.demo_genesis
               (Escrow.make_offer (crypto := toy_crypto) Escrow.demo_pid Escrow.demo_maker
                  Escrow.demo_make_accs 7 100 0 Escrow.demo_genesis)) at 1
      by (vm_compute; reflexivity).
    reflexivity. }
  split; [reflexivity|]. split; [reflexivity|]. split; [exact H1|]. split; [exact H2|].
  split; [exact Hs|].
  exact (second_offer_of_session_refused Escrow.demo_pid demo_form st2 _ _ _ _
           Escrow.demo_genesis c' tx_signature eq_refl eq_refl H1 H2 Hs).
Defined.


(** The double click, both RPCs awaited, landing in reverse order. *)
Definition demo_double_click : list sys_event :=
  [User SubmitMake; User SubmitMake; Land 1; Land 0].

Definition demo_final :=
  default (demo_system, [])
    (sys_run (crypto := toy_crypto) Escrow.demo_pid demo_system demo_double_click).

(** A run that succeeds returns its value: evaluating its success computes a
    boolean, not the ledger. *)
Lemma some_pair_default {A B} (d : A * B) o :
  match o with Some _ => true | None => false end = true ->
  o = Some (fst (default d o), snd (default d o)).
Proof. destruct o as [[a b]|]; cbn; congruence. Qed.

Lemma demo_run_ok :
  sys_run (crypto := toy_crypto) Escrow.demo_pid demo_system demo_double_click
  = Some (fst demo_final, snd demo_final).
Proof.
  assert (H : match sys_run (crypto := toy_crypto) Escrow.demo_pid demo_system demo_double_click
              with Some _ => true | None => false end = true) by (vm_compute; reflexivity).
  exact (some_pair_default (demo_system, [])
           (sys_run (crypto := toy_crypto) Escrow.demo_pid demo_system demo_double_click) H).
Qed.

Lemma clicks_make_one_offer_witness :
  inflight (page demo_system) = [] /\ forallb click_or_land demo_double_click = true /\
  sys_run (crypto := toy_crypto) Escrow.demo_pid demo_system demo_double_click
    = Some (fst demo_final, snd demo_final) /\
  offers_made (snd demo_final) = 1 /\ offers_made (snd demo_final) <= 1.
Proof.
  split; [reflexivity|]. split; [reflexivity|]. split; [exact demo_run_ok|].
  split; [vm_compute; reflexivity|].
  exact (clicks_make_one_offer (crypto := toy_crypto) Escrow.demo_pid demo_system demo_double_click
           (fst demo_final) (snd demo_final) eq_refl eq_refl demo_run_ok).
Defined.




(** The taker of [Escrow.demo_genesis] on the take tab, typing the maker's
    key ("AAAA..."), the id 7 and the two mints. *)
Definition demo_take_form : form_state := {|
  publicKey := Some Escrow.demo_taker; activeTab := "take";
  tokenMintA := "MMMMMMMMMMMMMMMMMMMMMMMMMMMMMMMM";
  tokenMintB := "NNNNNNNNNNNNNNNNNNNNNNNNNNNNNNNN";
  tokenASwapAmount := Js.float_of_Z 0; tokenBSwapAmount := Js.float_of_Z 0;
  offerMakerAccount := "AAAAAAAAAAAAAAAAAAAAAAAAAAAAAAAA"; offerId := None;
  makerOfferId := Some (Js.JInt 7) |}.

Lemma take_request_matches_program_witness :
  let r := handle_take_offer (crypto := toy_crypto) Escrow.demo_pid demo_take_form in
  let rq := match snd r with Ok (Awaiting rq) => rq | _ => demo_request 0 end in
  r = (fst r, Ok (Awaiting rq)) /\
  signer_of rq = publicKey demo_take_form /\
  exists maker id mint_a offer bump vault,
    Js.bn_of_nullable (makerOfferId demo_take_form) = Some id /\
    Escrow.account_of (rq_accounts rq) "maker" = Some maker /\
    Escrow.account_of (rq_accounts rq) "tokenMintA" = Some mint_a /\
    Escrow.offer_address (crypto := toy_crypto) Escrow.demo_pid maker (Z.abs id)
      = Escrow.OK (offer, bump) /\
    Escrow.account_of (rq_accounts rq) "offer" = Some offer /\
    Escrow.associated_address (crypto := toy_crypto) mint_a offer
      (@TOKEN_2022_PROGRAM_ID toy_crypto)
      = Escrow.OK vault /\
    Escrow.account_of (rq_accounts rq) "vault" = Some vault.
Proof.
  intros r rq.
  assert (H : r = (fst r, Ok (Awaiting rq))) by (vm_compute; reflexivity).
  split; [exact H|].
  exact (take_request_matches_program (crypto := toy_crypto) Escrow.demo_pid demo_take_form _ _ H).
Defined.


Lemma negative_amount_escrows_magnitude_witness :
  exists s' w rq,
    run (crypto := toy_crypto) Escrow.demo_pid UI.demo_maker_page [Input 2 "-5"; SubmitMake]
      = Some (s', w) /\
    In (SendRpc rq) w /\ rq_ix rq = IxMakeOffer 42 (-500) 2000000000 /\
    forall c, submit_tx (cl := escrow_cluster (crypto := toy_crypto) Escrow.demo_pid) rq c =
              submit_tx (cl := escrow_cluster (crypto := toy_crypto) Escrow.demo_pid)
                {| rq_ix := IxMakeOffer 42 500 2000000000; rq_accounts := rq_accounts rq |} c.
Proof.
  apply (negative_amount_escrows_magnitude (crypto := toy_crypto) Escrow.demo_pid UI.demo_maker_page
           UI.demo_pk 42 2000000000 (list_byte_of_string UI.demo_mint_a)
           (list_byte_of_string UI.demo_mint_b));
    try reflexivity; try lia; vm_compute; reflexivity.
Defined.

End Session.
